(** * The Exploratorium sushi chef (sushichef.py), embedded in Rocq

    A shallow embedding of the page-to-bundle transformation of
    [sushichef.py] and of its crawl of the activity menu and of the video
    collections, with the properties its specification states about it
    and further properties read off the code.

    - Python [str] values are [string]s; the [str] methods the chef uses
      are written out below ([startswith], [endswith], [in], [lstrip],
      [rstrip], [split], [replace], [lower], slicing).
    - A BeautifulSoup document is a store of cells addressed by number, so
      that the element objects the chef keeps in lists and dictionaries
      while it edits the tree keep their identity.
    - Effects (network reads, the file system, the zip writer, the video
      downloader, the logger) are threaded through a state-and-exception
      monad; every collaborator call leaves an event in a trace. *)

From Stdlib Require Import Ascii String Bool Arith Lia.
From stdpp Require Import list strings.

Set Warnings "-register-all".

Local Open Scope string_scope.
Local Open Scope list_scope.

(** ** Python [str] methods *)

Module Py.

(** [c in chars] for a character. *)
Fixpoint mem_char (c : ascii) (chars : string) : bool :=
  match chars with
  | EmptyString => false
  | String d r => Ascii.eqb c d || mem_char c r
  end.

(** [s.startswith(p)] *)
Definition startswith (p s : string) : bool := String.prefix p s.

(** [s.endswith(suffix)]: some tail of [s] is [suffix]. *)
Fixpoint endswith (suffix s : string) : bool :=
  String.eqb s suffix ||
  match s with
  | EmptyString => false
  | String _ r => endswith suffix r
  end.

(** [sub in s] *)
Fixpoint contains (sub s : string) : bool :=
  String.prefix sub s ||
  match s with
  | EmptyString => false
  | String _ r => contains sub r
  end.

(** [s.lstrip(chars)]: drop leading characters that occur in [chars]. *)
Fixpoint lstrip (chars s : string) : string :=
  match s with
  | EmptyString => EmptyString
  | String c r => if mem_char c chars then lstrip chars r else s
  end.

(** [s.rstrip(chars)]: drop trailing characters that occur in [chars]. *)
Fixpoint rstrip (chars s : string) : string :=
  match s with
  | EmptyString => EmptyString
  | String c r =>
      match rstrip chars r with
      | EmptyString => if mem_char c chars then EmptyString else String c EmptyString
      | r' => String c r'
      end
  end.

(** [s.split(sep)] for a one-character separator (the chef only splits on
    "?", "/" and "."); the result is never empty. *)
Fixpoint split (sep : ascii) (s : string) : list string :=
  match s with
  | EmptyString => [EmptyString]
  | String c r =>
      if Ascii.eqb c sep then EmptyString :: split sep r
      else match split sep r with
           | h :: t => String c h :: t
           | [] => [String c EmptyString]
           end
  end.

(** [l[0]] and [l[-1]] on the result of a split. *)
Definition first (l : list string) : string := List.hd EmptyString l.
Definition last (l : list string) : string := List.last l EmptyString.

(** [s[:n]] *)
Fixpoint take (n : nat) (s : string) : string :=
  match n, s with
  | S n', String c r => String c (take n' r)
  | _, _ => EmptyString
  end.

(** [s] with the prefix [p] removed, when it has that prefix. *)
Fixpoint drop_prefix (p s : string) : option string :=
  match p, s with
  | EmptyString, _ => Some s
  | String a p', String b s' => if Ascii.eqb a b then drop_prefix p' s' else None
  | String _ _, EmptyString => None
  end.

Fixpoint replace_from (fuel : nat) (old new s : string) : string :=
  match fuel with
  | 0 => s
  | S fuel' =>
      match drop_prefix old s with
      | Some rest => new +:+ replace_from fuel' old new rest
      | None =>
          match s with
          | EmptyString => EmptyString
          | String c r => String c (replace_from fuel' old new r)
          end
      end
  end.

Fixpoint interleave (new s : string) : string :=
  match s with
  | EmptyString => new
  | String c r => new +:+ String c (interleave new r)
  end.

(** [s.replace(old, new)]: every non-overlapping occurrence, left to
    right; with an empty [old], [new] goes between all characters. *)
Definition replace (old new s : string) : string :=
  match old with
  | EmptyString => interleave new s
  | String _ _ => replace_from (S (String.length s)) old new s
  end.

Definition lower_char (c : ascii) : ascii :=
  let n := nat_of_ascii c in
  if (65 <=? n)%nat && (n <=? 90)%nat then ascii_of_nat (n + 32) else c.

(** [s.lower()] *)
Fixpoint lower (s : string) : string :=
  match s with
  | EmptyString => EmptyString
  | String c r => String (lower_char c) (lower r)
  end.

Definition is_space (c : ascii) : bool :=
  let n := nat_of_ascii c in
  (n =? 32)%nat || ((9 <=? n)%nat && (n <=? 13)%nat).

Fixpoint lstrip_space (s : string) : string :=
  match s with
  | EmptyString => EmptyString
  | String c r => if is_space c then lstrip_space r else s
  end.

Fixpoint rstrip_space (s : string) : string :=
  match s with
  | EmptyString => EmptyString
  | String c r =>
      match rstrip_space r with
      | EmptyString => if is_space c then EmptyString else String c EmptyString
      | r' => String c r'
      end
  end.

(** [s.strip()] *)
Definition strip (s : string) : string := rstrip_space (lstrip_space s).

(** The whitespace-separated words of [s] (how BeautifulSoup reads a
    [class] or [rel] attribute). *)
Fixpoint words_from (cur : string) (s : string) : list string :=
  match s with
  | EmptyString => match cur with EmptyString => [] | _ => [cur] end
  | String c r =>
      if is_space c
      then match cur with
           | EmptyString => words_from EmptyString r
           | _ => cur :: words_from EmptyString r
           end
      else words_from (cur +:+ String c EmptyString) r
  end.
Definition words (s : string) : list string := words_from EmptyString s.

(** Truth value of a [str]. *)
Definition truthy (s : string) : bool := negb (String.eqb s EmptyString).

End Py.

(** Every character of [s] occurs in [chars]. *)
Fixpoint all_in (chars s : string) : bool :=
  match s with
  | EmptyString => true
  | String c r => Py.mem_char c chars && all_in chars r
  end.

(** The one-character string holding a double quote. *)
Definition dquote : string := String (ascii_of_nat 34) EmptyString.

(** The byte-order mark that the codec utf-8-sig writes first. *)
Definition BOM : string :=
  String (ascii_of_nat 239) (String (ascii_of_nat 187) (String (ascii_of_nat 191) EmptyString)).

(** ** Run constants *)

(** [BASE_URL.format(x)] for [BASE_URL = "https://www.exploratorium.edu/{}"]. *)
Definition BASE_URL (x : string) : string := "https://www.exploratorium.edu/" +:+ x.

Definition IMAGE_EXTENSIONS : list string := ["jpeg"; "jpg"; "gif"; "png"; "svg"].
Definition DOWNLOAD_ATTEMPTS : nat := 25.

(** ** Resource resolver *)

(** [format_url]: relative urls become absolute ones. *)
Definition format_url (url : string) : string :=
  if Py.startswith "http" url then url
  else BASE_URL (Py.lstrip "/" url).

(** The chef's own test for an absolute url. *)
Definition is_absolute (url : string) : Prop := Py.startswith "http" url = true.
Definition is_relative (url : string) : Prop := Py.startswith "http" url = false.

(** *** Thumbnail urls as the site writes them

    A thumbnail url is a path, followed by encoded spaces left over from
    the page, followed by a query string if there is one. *)

(** [n] encoded spaces. *)
Fixpoint encoded_spaces (n : nat) : string :=
  match n with
  | 0 => EmptyString
  | S m => "%20" +:+ encoded_spaces m
  end.

(** [u] with the query string [query], if there is one. *)
Definition with_query (u : string) (query : option string) : string :=
  match query with
  | Some q => u +:+ String "?" q
  | None => u
  end.

(** The last character of [s], if [s] has one, is none of [chars]. *)
Fixpoint ends_outside (chars s : string) : bool :=
  match s with
  | EmptyString => true
  | String c EmptyString => negb (Py.mem_char c chars)
  | String _ r => ends_outside chars r
  end.

(** ** Exceptions, results and the state-and-exception monad *)

Inductive exn :=
| HTTPError
| KeyError (key : string)
| TypeError
| AttributeError
| ValueError
| DownloadError
| ReferenceError
| RecursionError
| OSError.

Inductive res (A : Type) :=
| Ok (a : A)
| Raise (e : exn).
Arguments Ok {A} a.
Arguments Raise {A} e.

(** A computation over a state [S]: it returns or raises, and the state it
    leaves behind survives an exception, as in Python. *)
Definition SE (S A : Type) : Type := S -> res A * S.

Definition ret {S A} (a : A) : SE S A := fun s => (Ok a, s).
Definition raise {S A} (e : exn) : SE S A := fun s => (Raise e, s).
Definition bind {S A B} (m : SE S A) (k : A -> SE S B) : SE S B :=
  fun s => match m s with
           | (Ok a, s') => k a s'
           | (Raise e, s') => (Raise e, s')
           end.
Definition gets {S A} (f : S -> A) : SE S A := fun s => (Ok (f s), s).
Definition modify {S} (f : S -> S) : SE S unit := fun s => (Ok tt, f s).

(** [try: m except Exception as e: handler e] *)
Definition try_except {S A} (m : SE S A) (handler : exn -> SE S A) : SE S A :=
  fun s => match m s with
           | (Ok a, s') => (Ok a, s')
           | (Raise e, s') => handler e s'
           end.

Declare Scope se_scope.
Delimit Scope se_scope with se.
Notation "x <- m ;; k" := (bind m (fun x => k))
  (at level 100, m at next level, right associativity) : se_scope.
Notation "m >> k" := (bind m (fun _ => k))
  (at level 100, right associativity) : se_scope.
Local Open Scope se_scope.

(** [for x in xs: body x] *)
Fixpoint for_each {S A} (xs : list A) (body : A -> SE S unit) : SE S unit :=
  match xs with
  | [] => ret tt
  | x :: rest => body x >> for_each rest body
  end.

(** A loop that carries a local variable. *)
Fixpoint for_fold {S A B} (xs : list A) (acc : B) (body : B -> A -> SE S B) : SE S B :=
  match xs with
  | [] => ret acc
  | x :: rest => acc' <- body acc x ;; for_fold rest acc' body
  end.

(** [o] when it is not [None], else the exception [e] (what using [None]
    as an object raises). *)
Definition unwrap {S A} (e : exn) (o : option A) : SE S A :=
  match o with
  | Some a => ret a
  | None => raise e
  end.

(** ** Association lists: attribute dictionaries and Python dicts

    A Python [dict] keeps its keys in insertion order and assigning to a
    key that is present keeps the key's place. *)

Fixpoint assoc {V} (k : string) (l : list (string * V)) : option V :=
  match l with
  | [] => None
  | (k', v) :: r => if String.eqb k' k then Some v else assoc k r
  end.

Fixpoint assoc_set {V} (k : string) (v : V) (l : list (string * V)) : list (string * V) :=
  match l with
  | [] => [(k, v)]
  | (k', v') :: r => if String.eqb k' k then (k, v) :: r else (k', v') :: assoc_set k v r
  end.

Fixpoint assoc_del {V} (k : string) (l : list (string * V)) : list (string * V) :=
  match l with
  | [] => []
  | (k', v') :: r => if String.eqb k' k then assoc_del k r else (k', v') :: assoc_del k r
  end.

(** ** BeautifulSoup documents

    [tree] is a document as a parser produces it; [cell]s in a [soup] are
    the objects the chef handles: an element is the number of its cell. An
    attribute assigned [None] is kept as [None]. *)

Inductive tree :=
| Text (s : string)
| Tag (name : string) (attrs : list (string * option string)) (contents : list tree).

Inductive cell :=
| NavigableString (s : string)
| Element (name : string) (attrs : list (string * option string)) (contents : list nat).

Abbreviation soup := (list cell).

Definition cell_attrs (c : cell) : list (string * option string) :=
  match c with
  | Element _ a _ => a
  | NavigableString _ => []
  end.

Definition cell_contents (c : cell) : list nat :=
  match c with
  | Element _ _ kids => kids
  | NavigableString _ => []
  end.

(** Laying out a list of trees one after the other with [f]. *)
Fixpoint alloc_list (f : tree -> soup -> soup * nat) (ts : list tree) (st : soup)
  : soup * list nat :=
  match ts with
  | [] => (st, [])
  | t :: ts' =>
      let '(st1, i) := f t st in
      let '(st2, js) := alloc_list f ts' st1 in
      (st2, i :: js)
  end.

(** [BeautifulSoup(markup)]: the parsed tree laid out in the store in
    document order; the result is the number of its root. *)
Fixpoint alloc (t : tree) (st : soup) : soup * nat :=
  match t with
  | Text s => (st ++ [NavigableString s], length st)
  | Tag n attrs kids =>
      let self := length st in
      let '(st', ids) := alloc_list alloc kids (st ++ [Element n attrs []]) in
      (<[self := Element n attrs ids]> st', self)
  end.

(** The elements and strings below [x], in document order. *)
Fixpoint descendants (fuel : nat) (st : soup) (x : nat) : list nat :=
  match fuel with
  | 0 => []
  | S fuel' =>
      match st !! x with
      | Some (Element _ _ kids) => flat_map (fun k => k :: descendants fuel' st k) kids
      | _ => []
      end
  end.

(** [x.text] *)
Fixpoint text_of (fuel : nat) (st : soup) (x : nat) : string :=
  match fuel with
  | 0 => EmptyString
  | S fuel' =>
      match st !! x with
      | Some (NavigableString s) => s
      | Some (Element _ _ kids) => String.concat EmptyString (map (text_of fuel' st) kids)
      | None => EmptyString
      end
  end.
Definition text (st : soup) (x : nat) : string := text_of (length st) st x.

(** [x.string]: the only string below [x], or [None]. *)
Fixpoint string_of (fuel : nat) (st : soup) (x : nat) : option string :=
  match fuel with
  | 0 => None
  | S fuel' =>
      match st !! x with
      | Some (NavigableString s) => Some s
      | Some (Element _ _ [k]) => string_of fuel' st k
      | _ => None
      end
  end.
Definition get_string (st : soup) (x : nat) : option string := string_of (length st) st x.

(** The document below [x] as a tree again, for serialisation. *)
Fixpoint to_tree (fuel : nat) (st : soup) (x : nat) : tree :=
  match fuel with
  | 0 => Text EmptyString
  | S fuel' =>
      match st !! x with
      | Some (NavigableString s) => Text s
      | Some (Element n a kids) => Tag n a (map (to_tree fuel' st) kids)
      | None => Text EmptyString
      end
  end.

(** Attributes BeautifulSoup reads as lists of words. *)
Definition multi_valued (k : string) : bool :=
  String.eqb k "class" || String.eqb k "rel".

Definition attr_matches (attrs : list (string * option string)) (f : string * string) : bool :=
  match assoc (fst f) attrs with
  | Some (Some v) =>
      String.eqb v (snd f) ||
      (multi_valued (fst f) && existsb (String.eqb (snd f)) (Py.words v))
  | _ => false
  end.

Definition matches (name : string) (filt : list (string * string)) (c : cell) : bool :=
  match c with
  | Element n attrs _ => String.eqb n name && forallb (attr_matches attrs) filt
  | NavigableString _ => false
  end.

Definition cell_matches (st : soup) (name : string) (filt : list (string * string)) (y : nat) : bool :=
  match st !! y with
  | Some c => matches name filt c
  | None => false
  end.

(** [x.find_all(name, filt)] and [x.find(name, filt)] *)
Definition find_all (st : soup) (x : nat) (name : string) (filt : list (string * string)) : list nat :=
  List.filter (cell_matches st name filt) (descendants (length st) st x).

Definition find (st : soup) (x : nat) (name : string) (filt : list (string * string)) : option nat :=
  List.hd_error (find_all st x name filt).

(** [x.get(k)] *)
Definition get (st : soup) (x : nat) (k : string) : option string :=
  match st !! x with
  | Some c => match assoc k (cell_attrs c) with
              | Some v => v
              | None => None
              end
  | None => None
  end.

Fixpoint find_index {A} (f : A -> bool) (l : list A) : option nat :=
  match l with
  | [] => None
  | a :: r => if f a then Some 0 else option_map S (find_index f r)
  end.

Definition has_child (x : nat) (c : cell) : bool := existsb (Nat.eqb x) (cell_contents c).

(** [x.parent] *)
Definition parent_of (st : soup) (x : nat) : option nat := find_index (has_child x) st.

Definition index_of (x : nat) (kids : list nat) : nat :=
  match find_index (Nat.eqb x) kids with
  | Some i => i
  | None => length kids
  end.

Definition set_contents (kids : list nat) (c : cell) : cell :=
  match c with
  | Element n a _ => Element n a kids
  | NavigableString s => NavigableString s
  end.

Definition set_attrs (a : list (string * option string)) (c : cell) : cell :=
  match c with
  | Element n _ kids => Element n a kids
  | NavigableString s => NavigableString s
  end.

Definition update_cell (x : nat) (f : cell -> cell) (st : soup) : soup :=
  match st !! x with
  | Some c => <[x := f c]> st
  | None => st
  end.

(** [x.extract()]: take [x] out of its parent's contents. *)
Definition extract (x : nat) (st : soup) : soup :=
  match parent_of st x with
  | Some p =>
      update_cell p (fun c => set_contents
        (take (index_of x (cell_contents c)) (cell_contents c) ++
         drop (S (index_of x (cell_contents c))) (cell_contents c)) c) st
  | None => st
  end.

(** [p.insert(i, y)], [y] already extracted. *)
Definition insert_child (p i y : nat) (st : soup) : soup :=
  update_cell p (fun c => set_contents
    (take i (cell_contents c) ++ y :: drop i (cell_contents c)) c) st.

(** *** Editing a document *)

Abbreviation D := (SE soup).

(** [BeautifulSoup(markup, parser)] for the parsed [markup]. *)
Definition BeautifulSoup (t : tree) : D nat :=
  fun st => let '(st', root) := alloc t st in (Ok root, st').

(** [BeautifulSoup("", "html.parser")] and [BeautifulSoup("", "html5lib")] *)
Definition EMPTY_SOUP : tree := Tag "[document]" [] [].
Definition EMPTY_HTML5 : tree :=
  Tag "[document]" [] [Tag "html" [] [Tag "head" [] []; Tag "body" [] []]].

(** [soup.new_tag(name)] *)
Definition new_tag (name : string) : D nat :=
  fun st => (Ok (length st), st ++ [Element name [] []]).

Definition new_string (s : string) : D nat :=
  fun st => (Ok (length st), st ++ [NavigableString s]).

(** [x[k]] *)
Definition get_item (x : nat) (k : string) : D string :=
  fun st => match st !! x with
            | Some c => match assoc k (cell_attrs c) with
                        | Some (Some v) => (Ok v, st)
                        | Some None => (Raise TypeError, st)
                        | None => (Raise (KeyError k), st)
                        end
            | None => (Raise (KeyError k), st)
            end.

(** [x[k] = v] *)
Definition set_item (x : nat) (k : string) (v : option string) : D unit :=
  modify (update_cell x (fun c => set_attrs (assoc_set k v (cell_attrs c)) c)).

(** [del x[k]] *)
Definition del_item (x : nat) (k : string) : D unit :=
  modify (update_cell x (fun c => set_attrs (assoc_del k (cell_attrs c)) c)).

(** [x.string = s]: the contents of [x] become one new string. *)
Definition set_string (x : nat) (s : string) : D unit :=
  fun st => (Ok tt, update_cell x (set_contents [length st]) (st ++ [NavigableString s])).

(** [x.string += s] *)
Definition iadd_string (x : nat) (s : string) : D unit :=
  cur <- gets (fun st => get_string st x) ;;
  old <- unwrap TypeError cur ;;
  set_string x (old +:+ s).

(** [x.decompose()] *)
Definition decompose (x : nat) : D unit := modify (extract x).

(** [p.append(y)] *)
Definition append (p y : nat) : D unit :=
  if Nat.eqb p y then raise ValueError
  else modify (fun st =>
         let st1 := extract y st in
         match st1 !! p with
         | Some c => insert_child p (length (cell_contents c)) y st1
         | None => st1
         end).

(** [x.replaceWith(y)] *)
Definition replace_with (x y : nat) : D unit :=
  fun st =>
    match parent_of st x with
    | None => (Raise ValueError, st)
    | Some p =>
        if Nat.eqb x y then (Ok tt, st)
        else if Nat.eqb y p then (Raise ValueError, st)
        else
          let kids_of := fun (s : soup) =>
            match s !! p with Some c => cell_contents c | None => [] end in
          let i := index_of x (kids_of st) in
          let st1 := extract x st in
          let i' := match parent_of st1 y with
                    | Some q => if Nat.eqb q p && Nat.ltb (index_of y (kids_of st1)) i
                                then i - 1 else i
                    | None => i
                    end in
          (Ok tt, insert_child p i' y (extract y st1))
    end.

(** [x.replaceWith(s)] for a [str]: it becomes a new string in the tree. *)
Definition replace_with_text (x : nat) (s : string) : D unit :=
  y <- new_string s ;; replace_with x y.

(** ** The video-embed resolver *)

Definition BRIGHTCOVE_URL (account player videoid : string) : string :=
  "http://players.brightcove.net/" +:+ account +:+ "/" +:+ player +:+
  "_default/index.html?videoId=" +:+ videoid.

(** Values the chef stores in the records of the mapping. *)
Inductive value :=
| VNone
| VStr (s : string)
| VTag (x : nat).

Abbreviation record := (list (string * value)).
Abbreviation mapping := (list (string * record)).

(** The resolver only reads the page: it is a function of the document,
    and returns or raises. *)
Definition rbind {A B} (m : res A) (k : A -> res B) : res B :=
  match m with
  | Ok a => k a
  | Raise e => Raise e
  end.

Notation "x <~ m ;; k" := (rbind m (fun x => k))
  (at level 100, m at next level, right associativity) : se_scope.

Fixpoint fold_res {A B} (xs : list A) (acc : B) (body : B -> A -> res B) : res B :=
  match xs with
  | [] => Ok acc
  | x :: rest => acc' <~ body acc x ;; fold_res rest acc' body
  end.

(** [x[k]] on a document that is only read. *)
Definition item (st : soup) (x : nat) (k : string) : res string := fst (get_item x k st).

(** The record of a direct embed and the record of a playlist item. *)
Definition direct_record (video : nat) (author : value) (account player videoid : string)
  : record :=
  [("original_el", VTag video);
   ("author", author);
   ("url", VStr (BRIGHTCOVE_URL account player videoid))].

Definition playlist_record (playlist : nat) (title account player videoid : string)
  : record :=
  [("title", VStr title);
   ("append_to", VTag playlist);
   ("url", VStr (BRIGHTCOVE_URL account player videoid))].

(** The two loops of [get_brightcove_mapping]; [d.update({k: v})] is
    [assoc_set k v d]. *)
Definition add_direct (st : soup) (contents : nat) (acc : mapping * string) (video : nat)
  : res (mapping * string) :=
  account <~ item st video "data-account" ;;
  let attribution := find st contents "div" [("class", "attribution")] in
  videoid <~ item st video "data-video-id" ;;
  let author := match attribution with
                | Some a => VStr (text st a)
                | None => VNone
                end in
  player <~ item st video "data-player" ;;
  Ok (assoc_set videoid (direct_record video author account player videoid) (fst acc),
      account).

Definition add_playlist_item (st : soup) (playlist : nat) (account : string)
           (acc : mapping) (video : nat) : res mapping :=
  videoid <~ item st video "data-id" ;;
  title <~ item st video "data-title" ;;
  player <~ item st video "data-pid" ;;
  Ok (assoc_set videoid (playlist_record playlist title account player videoid) acc).

(** [get_brightcove_mapping(contents, get_playlist)] *)
Definition get_brightcove_mapping (st : soup) (contents : nat) (get_playlist : bool)
  : res mapping :=
  r <~ fold_res (find_all st contents "video" [("class", "bc5player")])
         ([], EmptyString) (add_direct st contents) ;;
  let brightcove_mapping := fst r in
  let account := snd r in
  match find st contents "div" [("id", "media-collection-banner-playlist")] with
  | Some playlist =>
      if get_playlist
      then fold_res (find_all st playlist "div" [("class", "playlist-item")])
             brightcove_mapping (add_playlist_item st playlist account)
      else Ok brightcove_mapping
  | None => Ok brightcove_mapping
  end.

(** What a playlist item leaves in the mapping under [vid]. *)
Definition from_playlist (playlist : nat) (account vid : string) (acc : mapping) : Prop :=
  List.NoDup (map fst acc) /\
  exists title player,
    assoc vid acc = Some (playlist_record playlist title account player vid).

(** ** Keywords *)

(** The body of the loop of [scrape_keywords]: the link [related] gives a
    tag and is replaced by a span with its text. *)
Definition replace_keyword (tags : list string) (related : nat) : D (list string) :=
  i_tag <- new_tag "span" ;;
  shown <- gets (fun st => text st related) ;;
  set_string i_tag shown >>
  set_item i_tag "class" (Some "underline") >>
  tag <- gets (fun st => Py.take 30 (text st related)) ;;
  replace_with related i_tag >>
  ret (tags ++ [tag]).

(** [scrape_keywords(contents, el)]; [contents] is [None] when the page has
    no main block. *)
Definition scrape_keywords (contents : option nat) (el : string) : D (list string) :=
  BeautifulSoup (Tag "[document]" [] [Tag "div" [] []]) >>
  c <- unwrap AttributeError contents ;;
  keyword_section <- gets (fun st => find st c "div" [("class", el)]) ;;
  match keyword_section with
  | None => ret []
  | Some section =>
      anchors <- gets (fun st => find_all st section "a" []) ;;
      for_fold anchors [] replace_keyword
  end.

(** ** Well-formed stores

    What a store made by the parser satisfies, as tests that compute. *)

(** Children are cells of the store. *)
Definition closed (st : soup) : bool :=
  forallb (fun c => forallb (fun k => Nat.ltb k (length st)) (cell_contents c)) st.

(** Children are cells of the store that come after their parent. *)
Fixpoint ordered_from (i : nat) (cells : soup) (n : nat) : bool :=
  match cells with
  | [] => true
  | c :: rest =>
      forallb (fun k => Nat.ltb i k && Nat.ltb k n) (cell_contents c) &&
      ordered_from (S i) rest n
  end.
Definition ordered (st : soup) : bool := ordered_from 0 st (length st).

Definition Ordered (st : soup) : Prop :=
  forall j c k, st !! j = Some c -> In k (cell_contents c) -> j < k < length st.

(** [st'] has the cells of [st] from [x] on. *)
Definition agree_above (x : nat) (st st' : soup) : Prop :=
  length st <= length st' /\
  forall j, x <= j -> j < length st -> st' !! j = st !! j.

Fixpoint increasing (l : list nat) : bool :=
  match l with
  | a :: (b :: _) as rest => Nat.ltb a b && increasing rest
  | _ => true
  end.

(** The walk below [x] ends within [fuel] levels. *)
Fixpoint covers (fuel : nat) (st : soup) (x : nat) : bool :=
  match fuel with
  | 0 => false
  | S fuel' =>
      match st !! x with
      | Some (Element _ _ kids) => forallb (covers fuel' st) kids
      | Some (NavigableString _) => true
      | None => false
      end
  end.

(** ** The world outside the chef *)

Inductive level := INFO | WARNING | ERROR.

(** One entry per call to a collaborator. *)
Inductive event :=
| EvRead (url : string)                      (* downloader.read(url) *)
| EvParseUrl (url : string)                  (* cssutils.parseUrl(url) *)
| EvYoutubeDL (url dest : string)            (* YoutubeDL.download([url]) *)
| EvWriter (method : string) (arg : string)  (* a call on the HTMLWriter *)
| EvLog (l : level) (msg : string).          (* LOGGER *)

(** The state the chef runs in: the documents it holds, the local file
    system, the calls made so far (newest first) and the zip writer that
    is open, if any. *)
Record world (Z : Type) := World {
  dom : soup;
  files : list (string * string);
  events : list event;
  zipper : option Z
}.
Arguments World {Z}.
Arguments dom {Z}.
Arguments files {Z}.
Arguments events {Z}.
Arguments zipper {Z}.

Definition set_dom {Z} (st : soup) (w : world Z) : world Z :=
  World st (files w) (events w) (zipper w).
Definition set_files {Z} (fs : list (string * string)) (w : world Z) : world Z :=
  World (dom w) fs (events w) (zipper w).
Definition set_zipper {Z} (z : option Z) (w : world Z) : world Z :=
  World (dom w) (files w) (events w) z.
Definition add_event {Z} (e : event) (w : world Z) : world Z :=
  World (dom w) (files w) (e :: events w) (zipper w).

(** What the network, the libraries and the installation answer. The
    number is the count of collaborator calls made so far, so an answer
    may differ from one attempt to the next. *)
Class Outside := {
  http_get : nat -> string -> res string;
  css_parse_url : nat -> string -> option (string * list string);
  youtube_dl : nat -> string -> res string;
  pil_png : string -> res string;
  html5lib : string -> tree;
  prettify : tree -> string;
  exn_str : exn -> string;
  chef_directory : string;
  download_html : string
}.

(** ricecooker's [HTMLWriter], by its interface: how a writer reacts is
    left open. *)
Class HTMLWriter (Z : Type) := {
  hw_enter : string -> list (string * string) -> res Z * list (string * string);
  hw_exit : Z -> list (string * string) -> res unit * list (string * string);
  hw_contains : string -> Z -> res bool * Z;
  hw_write_contents : string -> string -> option string -> Z -> res string * Z;
  hw_write_file :
    string -> option string -> option string -> list (string * string) -> Z -> res string * Z;
  hw_write_index_contents : string -> Z -> res unit * Z
}.

(** A node of the channel tree ([nodes.HTML5AppNode]). *)
Record node := Node {
  source_id : string;
  title : string;
  description : string;
  node_files : list string;
  thumbnail : option string;
  node_tags : list string
}.

Section Chef.
Context {O : Outside} {Z : Type} {HW : HTMLWriter Z}.

Local Abbreviation M := (SE (world Z)).

Definition SNACK_DIRECTORY : string := chef_directory +:+ "/" +:+ "snacks".
Definition VIDEO_DIRECTORY : string := chef_directory +:+ "/" +:+ "videos".
Definition SHARED_ASSET_DIRECTORY : string := SNACK_DIRECTORY +:+ "/" +:+ "shared-assets".

(** *** Effects *)

Definition dom_op {A} (d : D A) : M A :=
  fun w => let '(r, st) := d (dom w) in (r, set_dom st w).

Definition lift {A} (r : res A) : M A := fun w => (r, w).

Definition read_dom {A} (f : soup -> res A) : M A := fun w => (f (dom w), w).

Definition log (l : level) (msg : string) : M unit :=
  modify (add_event (EvLog l msg)).

(** [downloader.read(url)] *)
Definition downloader_read (url : string) : M string :=
  fun w => (http_get (length (events w)) url, add_event (EvRead url) w).

(** [read(url)] *)
Definition read (url : string) : M string := downloader_read (format_url url).

(** [os.path.isfile(path)] *)
Definition isfile (path : string) (fs : list (string * string)) : bool :=
  match assoc path fs with
  | Some _ => true
  | None => false
  end.

Definition write_local (path data : string) : M unit :=
  modify (fun w => set_files (assoc_set path data (files w)) w).

(** A call on the open writer. *)
Definition on_zipper {A} (method arg : string) (op : Z -> res A * Z) : M A :=
  fun w => match zipper w with
           | None => (Raise ValueError, w)
           | Some z => let '(r, z') := op z in
                       (r, add_event (EvWriter method arg) (set_zipper (Some z') w))
           end.

Definition zipper_contains (name : string) : M bool :=
  on_zipper "contains" name (hw_contains name).

Definition zipper_write_contents (filename data : string) (directory : option string) : M string :=
  on_zipper "write_contents" filename (hw_write_contents filename data directory).

Definition zipper_write_file (filepath : string) (filename directory : option string) : M string :=
  fs <- gets files ;;
  on_zipper "write_file" filepath (hw_write_file filepath filename directory fs).

(** [HTMLWriter.write_url] is [write_contents] of what [downloader.read]
    returns. *)
Definition zipper_write_url (url filename : string) (directory : option string) : M string :=
  data <- downloader_read url ;;
  on_zipper "write_url" url (hw_write_contents filename data directory).

Definition zipper_write_index_contents (data : string) : M unit :=
  on_zipper "write_index_contents" "index.html" (hw_write_index_contents data).

(** [with html_writer.HTMLWriter(path) as zipper: body] *)
Definition with_HTMLWriter {A} (path : string) (body : M A) : M A :=
  fun w =>
    match hw_enter path (files w) with
    | (Raise e, fs) => (Raise e, add_event (EvWriter "open" path) (set_files fs w))
    | (Ok z, fs) =>
        let '(r, w1) :=
          body (add_event (EvWriter "open" path) (set_zipper (Some z) (set_files fs w))) in
        match zipper w1 with
        | None => (r, w1)
        | Some z1 =>
            let '(rc, fs1) := hw_exit z1 (files w1) in
            let w2 := add_event (EvWriter "close" path)
                        (set_zipper (zipper w) (set_files fs1 w1)) in
            match rc with
            | Raise e => (Raise e, w2)
            | Ok _ => (r, w2)
            end
        end
    end.

(** *** Thumbnails *)

(** [get_thumbnail_url(url)]; the result is [None] or a [str]. *)
Definition clean_thumbnail_url (url : string) : string :=
  Py.rstrip "%20" (Py.first (Py.split "?" url)).

Definition png_path (url : string) : string :=
  SNACK_DIRECTORY +:+ "/" +:+ Py.replace "gif" "png" (Py.last (Py.split "/" url)).

Definition get_thumbnail_url (url : string) : M (option string) :=
  let url := clean_thumbnail_url url in
  url <- (if Py.endswith ".gif" url
          then imgfile <- read url ;;
               let url := png_path url in
               png <- lift (pil_png imgfile) ;;
               write_local url png >>
               ret url
          else ret url) ;;
  ret (if Py.truthy url then Some url else None).

(** *** Videos *)

Definition ydl_download (url write_to_path : string) : M unit :=
  fun w => match youtube_dl (length (events w)) url with
           | Ok data => (Ok tt, add_event (EvYoutubeDL url write_to_path)
                                  (set_files (assoc_set write_to_path data (files w)) w))
           | Raise e => (Raise e, add_event (EvYoutubeDL url write_to_path) w)
           end.

(** [download(url, write_to_path, attempts)] *)
Fixpoint download (url write_to_path : string) (attempts : nat) : M unit :=
  try_except (ydl_download url write_to_path)
    (fun e => match e with
              | DownloadError =>
                  match attempts with
                  | S n => download url write_to_path n
                  | 0 => log ERROR ("Could not download video " +:+ url +:+
                                    " (" +:+ exn_str e +:+ ")") >>
                         raise e
                  end
              | _ => raise e
              end).

(** [download_web_video(url, filename)] *)
Definition download_web_video (url filename : string) : M string :=
  let write_to_path := VIDEO_DIRECTORY +:+ "/" +:+ filename in
  there <- gets (fun w => isfile write_to_path (files w)) ;;
  (if negb there then download url write_to_path DOWNLOAD_ATTEMPTS else ret tt) >>
  ret write_to_path.

(** [generate_video_tag(filepath, zipper)] *)
Definition generate_video_tag (filepath : string) : M nat :=
  dom_op (BeautifulSoup EMPTY_SOUP) >>
  video_tag <- dom_op (new_tag "video") ;;
  source_tag <- dom_op (new_tag "source") ;;
  src <- zipper_write_file filepath None (Some "videos") ;;
  dom_op (set_item source_tag "src" (Some src) >>
          set_item source_tag "type" (Some "video/mp4") >>
          set_item video_tag "controls" (Some "true") >>
          set_item video_tag "style" (Some "width: 100%;") >>
          append video_tag source_tag) >>
  ret video_tag.

(** [generate_custom_style_tag()] *)
Definition generate_custom_style_tag : D nat :=
  BeautifulSoup EMPTY_SOUP >>
  style_tag <- new_tag "style" ;;
  set_string style_tag "body { padding: 50px; }" >>
  iadd_string style_tag ".activity {max-width: 900; margin: auto;}" >>
  iadd_string style_tag ".underline { text-decoration: underline; }" >>
  iadd_string style_tag "b, strong, h1, h3 {font-weight: 700 !important;}" >>
  iadd_string style_tag "body, h1, h2, h3, h4, h5, h6, p, table, tr, td, th, ul, li, ol, dd, dl" >>
  iadd_string style_tag ("{ font-family: " +:+ dquote +:+ "Trebuchet MS" +:+ dquote +:+
                         ", Helvetica, sans-serif !important; }") >>
  iadd_string style_tag ".bcVideoWrapper:after {padding-top: 0 !important; }" >>
  iadd_string style_tag "#media-collection-banner-content-container {background-color: transparent !important}" >>
  iadd_string style_tag "#media-collection-banner-content-container #media-collection-video-container" >>
  iadd_string style_tag "{ float: none; width: 100%; }" >>
  ret style_tag.

(** [generate_custom_script_tag()] *)
Definition generate_custom_script_tag : D nat :=
  BeautifulSoup EMPTY_SOUP >>
  script_tag <- new_tag "script" ;;
  set_item script_tag "type" (Some "text/javascript") >>
  set_string script_tag "var image = document.getElementsByClassName('field-slideshow-image-1')[0];" >>
  iadd_string script_tag "var tn = document.getElementsByClassName('field-slideshow-thumbnail');" >>
  iadd_string script_tag "function setImage(tn) {image.setAttribute('src', tn.getAttribute('src'));}" >>
  iadd_string script_tag "if(tn.length){setInterval(function() {setImage(tn[Math.floor(Math.random()*tn.length)]);}, 3000);" >>
  iadd_string script_tag "for (var i = 0; i < tn.length; i++)" >>
  iadd_string script_tag "tn[i].addEventListener('click', function(ev) {setImage(ev.target);}, false);}" >>
  ret script_tag.

(** *** Stylesheets *)

Definition cssutils_parseUrl (url : string) : M (option (string * list string)) :=
  fun w => (Ok (css_parse_url (length (events w)) url), add_event (EvParseUrl url) w).

(** [scrape_style(url, zipper)] *)
Definition scrape_style (url : string) : M string :=
  sheet <- cssutils_parseUrl url ;;
  parsed <- unwrap AttributeError sheet ;;
  for_fold (snd parsed) (fst parsed)
    (fun rules url =>
       try_except
         (let filename := Py.last (Py.split "/" (Py.first (Py.split "?" url))) in
          let filepath := SHARED_ASSET_DIRECTORY +:+ "/" +:+ filename in
          there <- gets (fun w => isfile filepath (files w)) ;;
          (if negb there
           then write_local filepath EmptyString >>
                data <- read url ;;
                write_local filepath data
           else ret tt) >>
          new_url <- zipper_write_file filepath (Some filename) (Some "assets") ;;
          ret (Py.replace url ("../" +:+ new_url) rules))
         (fun e => match e with
                   | HTTPError =>
                       log WARNING ("Could not download css url " +:+ url) >> ret rules
                   | _ => raise e
                   end)).

(** *** Downloadable files *)

(** [next((e for e in IMAGE_EXTENSIONS if url.lower().endswith(e)), None)] *)
Definition image_extension (url : string) : option string :=
  List.find (fun e => Py.endswith e (Py.lower url)) IMAGE_EXTENSIONS.

Definition dot_body (page : nat) : M nat :=
  b <- gets (fun w => find (dom w) page "body" []) ;; unwrap AttributeError b.

Definition dot_head (page : nat) : M nat :=
  h <- gets (fun w => find (dom w) page "head" []) ;; unwrap AttributeError h.

Definition serialise (page : nat) : M string :=
  gets (fun w => prettify (to_tree (length (dom w)) (dom w) page)).

(** [generate_download_page(url, zipper)] *)
Definition generate_download_page (url : string) : M string :=
  dom_op (BeautifulSoup EMPTY_SOUP) >>
  newpage <- dom_op (BeautifulSoup (html5lib download_html)) ;;
  let download_url := Py.first (Py.split "?" url) in
  let filename := Py.last (Py.split "/" download_url) in
  let render := fun (tag : string) =>
    render_tag <- dom_op (new_tag tag) ;;
    src <- zipper_write_url (format_url download_url) filename None ;;
    dom_op (set_item render_tag "src" (Some src)) >>
    body <- dot_body newpage ;;
    dom_op (append body render_tag) >>
    page <- serialise newpage ;;
    zipper_write_contents (Py.first (Py.split "." filename) +:+ ".html") page None in
  if Py.endswith "pdf" download_url then render "embed"
  else match image_extension download_url with
       | Some _ => render "img"
       | None =>
           log ERROR ("Unknown file type found at " +:+ download_url) >>
           ret EmptyString
       end.

(** *** The page transformation *)

(** The insertion of the videos of a mapping, for the page itself
    ([contents] makes the new tags). *)
Definition embed_brightcove (entry : string * record) : M unit :=
  let k := fst entry in
  let v := snd entry in
  url <- unwrap (KeyError "url")
           (match assoc "url" v with Some (VStr u) => Some u | _ => None end) ;;
  video_path <- download_web_video url (k +:+ ".mp4") ;;
  match assoc "original_el" v with
  | Some (VTag el) =>
      video_tag <- generate_video_tag video_path ;;
      dom_op (replace_with el video_tag)
  | _ =>
      match assoc "append_to" v with
      | Some (VTag pl) =>
          (match assoc "title" v with
           | Some (VStr t) =>
               if Py.truthy t
               then p_tag <- dom_op (new_tag "p") ;;
                    dom_op (set_string p_tag t >>
                            set_item p_tag "style" (Some "margin-top: 40px; margin-bottom: 10px")) >>
                    parent <- gets (fun w => parent_of (dom w) pl) ;;
                    parent <- unwrap AttributeError parent ;;
                    dom_op (append parent p_tag)
               else ret tt
           | _ => ret tt
           end) >>
          parent <- gets (fun w => parent_of (dom w) pl) ;;
          parent <- unwrap AttributeError parent ;;
          video_tag <- generate_video_tag video_path ;;
          dom_op (append parent video_tag)
      | _ => ret tt
      end
  end.

(** The body of the loop over the links of a paragraph or list item. *)
Definition handle_link (paragraph link : nat) : M unit :=
  href <- dom_op (get_item link "href") ;;
  known <- zipper_contains href ;;
  if known then ret tt
  else if Py.contains "exploratorium.edu/snacks/" href then
    dom_op (bold_tag <- new_tag "b" ;;
            shown <- gets (fun st => text st link) ;;
            set_string bold_tag shown >>
            replace_with link bold_tag)
  else
    img <- gets (fun w => find (dom w) link "img" []) ;;
    match img with
    | Some i => dom_op (replace_with link i)
    | None =>
        if Py.contains "/sites/default/files/" href then
          page <- generate_download_page href ;;
          dom_op (set_item link "href" (Some page))
        else if Py.contains "exploratorium.edu" href then
          markup <- read href ;;
          linked_page <- dom_op (BeautifulSoup (html5lib markup)) ;;
          dom_op (shown <- gets (fun st => text st link) ;;
                  replace_with_text link (Py.replace href EmptyString shown)) >>
          found <- read_dom (fun st => get_brightcove_mapping st linked_page false) ;;
          for_each found
            (fun entry =>
               url <- unwrap (KeyError "url")
                        (match assoc "url" (snd entry) with
                         | Some (VStr u) => Some u
                         | _ => None
                         end) ;;
               video_path <- download_web_video url (fst entry +:+ ".mp4") ;;
               video_tag <- generate_video_tag video_path ;;
               dom_op (append paragraph video_tag))
        else
          match image_extension href with
          | Some _ =>
              img_tag <- dom_op (new_tag "img") ;;
              src <- zipper_write_url href (Py.last (Py.split "/" href)) (Some "images") ;;
              dom_op (set_item img_tag "src" (Some src) >>
                      set_item img_tag "style" (Some "max-width: 100%;") >>
                      append paragraph img_tag >>
                      shown <- gets (fun st => text st link) ;;
                      replace_with_text link shown)
          | None =>
              dom_op (shown <- gets (fun st => text st link) ;;
                      (if negb (Py.contains href shown) && negb (Py.contains shown href)
                       then iadd_string link (" (" +:+ href +:+ ") ")
                       else ret tt) >>
                      shown <- gets (fun st => text st link) ;;
                      replace_with_text link shown)
          end
    end.

(** The loop over the stylesheet links of the page. *)
Definition scrape_stylesheet (write_contents stylesheet : nat) : M unit :=
  href <- dom_op (get_item stylesheet "href") ;;
  if negb (Py.contains "exploratorium.edu" href) then ret tt
  else
    style_contents <- scrape_style href ;;
    let filename := Py.last (Py.split "/" href) in
    path <- zipper_write_contents filename style_contents (Some "css") ;;
    dom_op (set_item stylesheet "href" (Some path)) >>
    head <- dot_head write_contents ;;
    dom_op (append head stylesheet).

Definition scrape_stylesheets (contents write_contents : nat) : M unit :=
  stylesheets <- gets (fun w => find_all (dom w) contents "link" [("rel", "stylesheet")]) ;;
  for_each stylesheets (scrape_stylesheet write_contents).

(** The block under [with html_writer.HTMLWriter(write_to_path) as zipper]. *)
Definition write_bundle (contents main_contents : nat) : M unit :=
  write_contents <- dom_op (BeautifulSoup EMPTY_HTML5) ;;
  (* Scrape stylesheets *)
  scrape_stylesheets contents write_contents >>
  (* Remove scripts and any unneeded sections *)
  cluster <- gets (fun w => find (dom w) main_contents "div" [("id", "curated-cluster")]) ;;
  (match cluster with Some c => dom_op (decompose c) | None => ret tt end) >>
  service_links <-
    gets (fun w => find (dom w) main_contents "div" [("class", "activity-service-links")]) ;;
  (match service_links with Some c => dom_op (decompose c) | None => ret tt end) >>
  scripts <- gets (fun w => find_all (dom w) main_contents "script" []) ;;
  for_each scripts (fun script => dom_op (decompose script)) >>
  (* Get rid of hardcoded height/width on slideshow element *)
  slideshow <- gets (fun w => find (dom w) main_contents "div" [("class", "field-slideshow")]) ;;
  (match slideshow with Some c => dom_op (del_item c "style") | None => ret tt end) >>
  (* Add images *)
  images <- gets (fun w => find_all (dom w) main_contents "img" []) ;;
  for_each images
    (fun img =>
       src <- dom_op (get_item img "src") ;;
       path <- zipper_write_url (format_url src) (Py.last (Py.split "/" src)) (Some "images") ;;
       dom_op (set_item img "src" (Some path))) >>
  (* Add videos embedded from youtube *)
  players <- gets (fun w => find_all (dom w) main_contents "div" [("class", "yt-player")]) ;;
  for_each players
    (fun video =>
       ytid <- dom_op (get_item video "data-ytid") ;;
       yt_video_path <- download_web_video ytid (ytid +:+ ".mp4") ;;
       video_tag <- generate_video_tag yt_video_path ;;
       placeholder <- gets (fun w => find (dom w) video "div" [("class", "placeholder")]) ;;
       placeholder <- unwrap AttributeError placeholder ;;
       style <- gets (fun w => get (dom w) placeholder "style") ;;
       dom_op (set_item video_tag "style" style >>
               replace_with video video_tag)) >>
  (* Add videos embedded from brightcove and remove playlist element (if any) *)
  found <- read_dom (fun st => get_brightcove_mapping st main_contents true) ;;
  for_each found embed_brightcove >>
  playlist <-
    gets (fun w => find (dom w) main_contents "div" [("id", "media-collection-banner-playlist")]) ;;
  (match playlist with Some c => dom_op (decompose c) | None => ret tt end) >>
  (* Handle links *)
  paragraphs <- gets (fun w => find_all (dom w) main_contents "p" [] ++
                               find_all (dom w) main_contents "li" []) ;;
  for_each paragraphs
    (fun paragraph =>
       links <- gets (fun w => find_all (dom w) paragraph "a" []) ;;
       for_each links (handle_link paragraph)) >>
  (* Write contents and custom tags *)
  body <- dot_body write_contents ;;
  dom_op (append body main_contents) >>
  head <- dot_head write_contents ;;
  style_tag <- dom_op generate_custom_style_tag ;;
  dom_op (append head style_tag) >>
  body <- dot_body write_contents ;;
  script_tag <- dom_op generate_custom_script_tag ;;
  dom_op (append body script_tag) >>
  (* Write main index.html file *)
  page <- serialise write_contents ;;
  zipper_write_index_contents (BOM +:+ page).

Definition write_to_path_of (slug : string) : string :=
  SNACK_DIRECTORY +:+ "/" +:+ (Py.last (Py.split "/" slug) +:+ ".zip").

(** The [try] block of [scrape_snack_page]: how it ended, with the value
    the local [tags] has at that point. *)
Definition try_block (slug write_to_path : string)
  : world Z -> (list string * res unit) * world Z :=
  fun w =>
    match (markup <- read slug ;; dom_op (BeautifulSoup (html5lib markup))) w with
    | (Raise e, w1) => (([], Raise e), w1)
    | (Ok contents, w1) =>
        let main_contents := find (dom w1) contents "div" [("class", "activity")] in
        (* Gather keywords from page *)
        match dom_op (scrape_keywords main_contents "field-name-field-activity-subject") w1 with
        | (Raise e, w2) => (([], Raise e), w2)
        | (Ok subjects, w2) =>
            match dom_op (scrape_keywords main_contents "field-name-field-activity-tags") w2 with
            | (Raise e, w3) => ((subjects, Raise e), w3)
            | (Ok keywords, w3) =>
                let tags := subjects ++ keywords in
                (* Don't rezip activities that have already been zipped *)
                if isfile write_to_path (files w3) then ((tags, Ok tt), w3)
                else
                  match main_contents with
                  | None => ((tags, Raise AttributeError), w3)
                  | Some main =>
                      let '(r, w4) :=
                        with_HTMLWriter write_to_path (write_bundle contents main) w3 in
                      ((tags, r), w4)
                  end
            end
        end
    end.

(** [scrape_snack_page(slug, attempts)] *)
Fixpoint scrape_snack_page (slug : string) (attempts : nat) : M (string * list string) :=
  fun w =>
    let write_to_path := write_to_path_of slug in
    match try_block slug write_to_path w with
    | ((tags, Ok _), w') => (Ok (write_to_path, tags), w')
    | ((tags, Raise e), w') =>
        (* Reattempt if there are attempts left *)
        match attempts with
        | S n => scrape_snack_page slug n w'
        | 0 =>
            (Ok (write_to_path, tags),
             add_event (EvLog ERROR ("Could not scrape " +:+ slug +:+
                                     " (" +:+ exn_str e +:+ ")")) w')
        end
    end.

(** *** The crawl of a subject *)

(** [get_next_page_url(contents)] *)
Definition get_next_page_url (contents : nat) : D (option string) :=
  next_link <- gets (fun st => find st contents "li" [("class", "pager-next")]) ;;
  match next_link with
  | None => ret None
  | Some li =>
      a <- gets (fun st => find st li "a" []) ;;
      a <- unwrap TypeError a ;;
      href <- get_item a "href" ;;
      ret (Some href)
  end.

(** The body of the loop of [scrape_snack_subject] over the activities. *)
Definition scrape_activity (topic : list node) (activity : nat) : M (list node) :=
  h5 <- gets (fun w => find (dom w) activity "h5" []) ;;
  h5 <- unwrap AttributeError h5 ;;
  heading <- gets (fun w => Py.strip (text (dom w) h5)) ;;
  log INFO ("        " +:+ heading) >>
  (* Scrape snack pages into zips *)
  a <- gets (fun w => find (dom w) activity "a" []) ;;
  a <- unwrap TypeError a ;;
  href <- dom_op (get_item a "href") ;;
  scraped <- scrape_snack_page href 5 ;;
  let write_to_path := fst scraped in
  let tags := snd scraped in
  if negb (Py.truthy write_to_path) then ret topic
  else
    (* Create html node *)
    pod <- gets (fun w => find (dom w) activity "div" [("class", "pod-description")]) ;;
    href <- dom_op (get_item a "href") ;;
    heading <- gets (fun w => Py.strip (text (dom w) h5)) ;;
    summary <- gets (fun w => match pod with
                              | Some d => Py.strip (text (dom w) d)
                              | None => EmptyString
                              end) ;;
    img <- gets (fun w => find (dom w) activity "img" []) ;;
    img <- unwrap TypeError img ;;
    src <- dom_op (get_item img "src") ;;
    thumb <- get_thumbnail_url src ;;
    ret (topic ++ [Node href heading summary [write_to_path] thumb tags]).

(** [scrape_snack_subject(slug, topic)]; [depth] is the number of frames
    the interpreter still allows. *)
Fixpoint scrape_snack_subject (depth : nat) (slug : string) (topic : list node)
  : M (list node) :=
  match depth with
  | 0 => raise RecursionError
  | S depth' =>
      markup <- read slug ;;
      contents <- dom_op (BeautifulSoup (html5lib markup)) ;;
      activities <- gets (fun w => find_all (dom w) contents "div" [("class", "activity")]) ;;
      topic <- for_fold activities topic scrape_activity ;;
      (* Scrape next page (if any) *)
      next_page_url <- dom_op (get_next_page_url contents) ;;
      match next_page_url with
      | Some url => if Py.truthy url then scrape_snack_subject depth' url topic
                    else ret topic
      | None => ret topic
      end
  end.

End Chef.

(** ** A concrete setting to run the chef in

    A writer that behaves as ricecooker's does (the zip is created on disk
    when the writer is opened, an entry is written once, closing a zip
    without [index.html] raises), and an outside world given by a table of
    pages: the markup of a page is represented by its url. *)

Definition zip_path (filename : string) (directory : option string) : string :=
  match directory with
  | Some d => if Py.truthy d then Py.rstrip "/" d +:+ "/" +:+ filename else filename
  | None => filename
  end.

Definition zip_add (name data : string) (z : list (string * string)) : list (string * string) :=
  match assoc name z with
  | Some _ => z
  | None => z ++ [(name, data)]
  end.

Definition basename (path : string) : string := Py.last (Py.split "/" path).

#[local] Instance ricecooker_writer : HTMLWriter (list (string * string)) := {|
  hw_enter path fs := (Ok [], assoc_set path EmptyString fs);
  hw_exit z fs :=
    (match assoc "index.html" z with
     | Some _ => Ok tt
     | None => Raise ReferenceError
     end, fs);
  hw_contains name z :=
    (Ok (match assoc name z with Some _ => true | None => false end), z);
  hw_write_contents filename data directory z :=
    (Ok (zip_path filename directory), zip_add (zip_path filename directory) data z);
  hw_write_file filepath filename directory fs z :=
    let arcname :=
      match filename, directory with
      | None, None => filepath
      | _, _ => zip_path (match filename with Some f => f | None => basename filepath end)
                         directory
      end in
    match assoc filepath fs with
    | Some data => (Ok arcname, zip_add arcname data z)
    | None => (Raise OSError, z)
    end;
  hw_write_index_contents data z := (Ok tt, zip_add "index.html" data z)
|}.

Definition css_outside (site : list (string * tree))
           (sheets : list (string * (string * list string))) : Outside := {|
  http_get _ url := match assoc url site with
                    | Some _ => Ok url
                    | None => Raise HTTPError
                    end;
  css_parse_url _ url := assoc url sheets;
  youtube_dl _ _ := Ok "mp4";
  pil_png data := Ok ("png of " +:+ data);
  html5lib markup := match assoc markup site with
                     | Some t => t
                     | None => EMPTY_HTML5
                     end;
  prettify _ := "<html>";
  exn_str _ := "error";
  chef_directory := "/chef";
  download_html := "download.html"
|}.

Definition table_outside (site : list (string * tree)) : Outside := css_outside site [].

Definition attr (k v : string) : string * option string := (k, Some v).

Definition empty_world : world (list (string * string)) := World [] [] [] None.

(** *** Sample pages *)

Definition html_page (head body : list tree) : tree :=
  Tag "[document]" [] [Tag "html" [] [Tag "head" [] head; Tag "body" [] body]].

(** A subject listing with one activity. *)
Definition arts_listing : tree :=
  html_page []
    [Tag "div" [attr "class" "activity"]
       [Tag "h5" [] [Text "Drawing Board"];
        Tag "a" [attr "href" "/snacks/drawing-board"]
          [Tag "img" [attr "src" "/sites/default/files/drawing.jpg"] []];
        Tag "div" [attr "class" "pod-description"] [Text "Draw with a pendulum."]]].

(** An activity page: a subject keyword and four links in its text. *)
Definition drawing_board : tree :=
  html_page
    [Tag "link" [attr "rel" "stylesheet"; attr "href" "https://fonts.googleapis.com/css"] []]
    [Tag "div" [attr "class" "activity"]
       [Tag "div" [attr "class" "field-name-field-activity-subject"]
          [Tag "a" [attr "href" "/subject/physics"] [Text "Physics"]];
        Tag "p" [] [Tag "a" [attr "href" "/snacks/foo"] [Text "Exploratorium Snacks"]];
        Tag "p" [] [Tag "a" [attr "href" "https://www.exploratorium.edu/snacks/foo"]
                      [Text "Exploratorium Snacks"]];
        Tag "p" [] [Tag "a" [attr "href" "http://example.org/x"] [Text "Read more"]];
        Tag "li" [] [Tag "a" [attr "href" "/sites/default/files/sheet.docx"]
                       [Text "Worksheet"]]]].

(** The site when only the listing answers: every read of the activity
    page raises. *)
Definition listing_only : list (string * tree) :=
  [("https://www.exploratorium.edu/subject/arts", arts_listing)].

Definition whole_site : list (string * tree) :=
  [("https://www.exploratorium.edu/subject/arts", arts_listing);
   ("https://www.exploratorium.edu/snacks/drawing-board", drawing_board);
   ("download.html", html_page [] [])].

(** A world in which the bundle of the drawing board is on disk already. *)
Definition bundled_world : world (list (string * string)) :=
  World [] [("/chef/snacks/drawing-board.zip", "zip")] [] None.

(** A video page: one direct embed, and a playlist that lists the same
    video. *)
Definition banner_page : tree :=
  html_page []
    [Tag "div" [attr "class" "activity"]
       [Tag "div" [attr "class" "attribution"] [Text "Produced by Jane Roe"];
        Tag "video" [attr "class" "bc5player"; attr "data-account" "acct";
                     attr "data-player" "main"; attr "data-video-id" "v42"] [];
        Tag "div" [attr "id" "media-collection-banner-playlist"]
          [Tag "div" [attr "class" "playlist-item"; attr "data-id" "v42";
                      attr "data-title" "Pendulum"; attr "data-pid" "list"] []]]].

Definition banner_soup : soup := fst (alloc banner_page []).

(** An activity page with two keywords, the first one longer than a tag
    may be. *)
Definition keyword_page : tree :=
  html_page []
    [Tag "div" [attr "class" "activity"]
       [Tag "div" [attr "class" "field-name-field-activity-tags"]
          [Tag "a" [attr "href" "/tags/electricity"]
             [Text "Electricity and magnetism for beginners"];
           Tag "a" [attr "href" "/tags/sound"] [Tag "b" [] [Text "Sound"]]]]].

Definition keyword_soup : soup := fst (alloc keyword_page []).

(** An activity page whose only link has markup inside its text. *)
Definition styled_link_page : tree :=
  html_page []
    [Tag "div" [attr "class" "activity"]
       [Tag "p" [] [Tag "a" [attr "href" "http://example.org/x"]
                      [Text "Read "; Tag "i" [] [Text "more"]]]]].

Definition styled_link_site : list (string * tree) :=
  [("https://www.exploratorium.edu/snacks/styled", styled_link_page)].

(** The world when the links are handled: the page is parsed and the
    writer is open. *)
Definition at_links (page : tree) : world (list (string * string)) :=
  World (fst (alloc page [])) [] [] (Some []).

(** The urls given to [cssutils.parseUrl], newest first. *)
Fixpoint parse_urls (evs : list event) : list string :=
  match evs with
  | [] => []
  | EvParseUrl url :: rest => url :: parse_urls rest
  | _ :: rest => parse_urls rest
  end.







(** A computation that leaves an aspect [f] of the world as it is. *)
Definition preserves {Z A B} (f : world Z -> B) (m : SE (world Z) A) : Prop :=
  forall w, f (snd (m w)) = f w.

(** The documents and the stylesheets fetched so far. *)
Definition page_view {Z} (w : world Z) : soup * list string :=
  (dom w, parse_urls (events w)).

Definition fetch_view {Z} (w : world Z) : list string := parse_urls (events w).


(** The number of cells a tree takes. *)
Fixpoint size (t : tree) : nat :=
  match t with
  | Text _ => 1
  | Tag _ _ kids => S (list_sum (map size kids))
  end.

(** The cells from [lo] to [hi] only have children among the cells that
    follow them, up to [hi]. *)
Definition enclosed (st : soup) (lo hi : nat) : Prop :=
  forall x c k, lo <= x -> st !! x = Some c -> In k (cell_contents c) -> x < k < hi.

(** ** The crawl of the videos and of the activity menu

    The nodes of the channel tree. A topic that is being filled is part of
    the state, so that what was added to it before an exception is still
    there when the exception is caught. *)

(** [nodes.VideoNode]; [video_files] are the urls of its web video files. *)
Record video := Video {
  video_source_id : string;
  video_title : string;
  video_description : string;
  video_author : string;
  video_files : list string;
  video_thumbnail : option string
}.

Inductive channel_node :=
| TopicNode (title source_id : string) (thumbnail : option string)
            (children : list channel_node)
| HTML5AppNode (n : node)
| VideoNode (v : video).

(** [c.source_id] *)
Definition node_source_id (c : channel_node) : string :=
  match c with
  | TopicNode _ sid _ _ => sid
  | HTML5AppNode n => source_id n
  | VideoNode v => video_source_id v
  end.

(** [c.children] *)
Definition node_children (c : channel_node) : list channel_node :=
  match c with
  | TopicNode _ _ _ kids => kids
  | _ => []
  end.

(** Python's [html.parser], the parser of the video pages. *)
Class HtmlParser := { html_parser : string -> tree }.

(** [x.find_all(name, recursive=False)]: among the children of [x] only. *)
Definition find_children (st : soup) (x : nat) (name : string)
           (filt : list (string * string)) : list nat :=
  match st !! x with
  | Some c => List.filter (cell_matches st name filt) (cell_contents c)
  | None => []
  end.

(** [x.name] *)
Definition name_of (st : soup) (x : nat) : option string :=
  match st !! x with
  | Some (Element n _ _) => Some n
  | _ => None
  end.

Section Crawl.
Context {O : Outside} {P : HtmlParser} {Z : Type} {HW : HTMLWriter Z}.

(** Computations over the children of the topic that is being filled and
    the world. *)
Local Abbreviation T := (SE (list channel_node * world Z)).

(** A step of the chef that does not touch the topic. *)
Definition in_world {A} (m : SE (world Z) A) : T A :=
  fun s => let '(r, w) := m (snd s) in (r, (fst s, w)).

(** [topic.add_child(n)] *)
Definition add_child (n : channel_node) : T unit :=
  modify (fun s => (fst s ++ [n], snd s)).

(** [topic.add_child(sub)] for a new topic [sub = mk []], followed by
    steps [m] that fill [sub]. *)
Definition under_topic {A} (mk : list channel_node -> channel_node) (m : T A) : T A :=
  fun s => let '(r, s') := m ([], snd s) in
           (r, (fst s ++ [mk (fst s')], snd s')).

(** [next((c for c in topic.children if c.source_id == sid), None)] is
    not [None]. *)
Definition has_source_id (sid : string) (kids : list channel_node) : bool :=
  existsb (fun c => String.eqb (node_source_id c) sid) kids.

(** The body of the inner loop of [scrape_video_collection]: one entry of
    the mapping of a video page. *)
Definition add_video (result header : nat) (description : option nat)
           (entry : string * record) : T unit :=
  let k := fst entry in
  let v := snd entry in
  heading <- in_world (gets (fun w => Py.strip (text (dom w) header))) ;;
  summary <- in_world (gets (fun w => match description with
                                      | Some d => Py.strip (text (dom w) d)
                                      | None => EmptyString
                                      end)) ;;
  let author := match assoc "author" v with
                | Some (VStr s) => s
                | _ => EmptyString
                end in
  url <- in_world (unwrap (KeyError "url")
                     (match assoc "url" v with Some (VStr u) => Some u | _ => None end)) ;;
  img <- in_world (gets (fun w => find (dom w) result "img" [])) ;;
  img <- in_world (unwrap TypeError img) ;;
  src <- in_world (dom_op (get_item img "src")) ;;
  thumb <- in_world (get_thumbnail_url src) ;;
  let video_node := Video k heading summary author [url] thumb in
  (* If video doesn't already exist here, add to topic *)
  kids <- gets fst ;;
  if has_source_id k kids then ret tt
  else add_child (VideoNode video_node).

(** The body of the loop of [scrape_video_collection] over the search
    results. *)
Definition scrape_search_result (result : nat) : T unit :=
  header <- in_world (gets (fun w =>
              find (dom w) result "div" [("class", "views-field-field-html-title")])) ;;
  header <- in_world (unwrap AttributeError header) ;;
  heading <- in_world (gets (fun w => Py.strip (text (dom w) header))) ;;
  in_world (log INFO ("            " +:+ heading)) >>
  (* Get video from given url *)
  description <- in_world (gets (fun w =>
                   find (dom w) result "div" [("class", "search-description")])) ;;
  a <- in_world (gets (fun w => find (dom w) header "a" [])) ;;
  a <- in_world (unwrap TypeError a) ;;
  href <- in_world (dom_op (get_item a "href")) ;;
  markup <- in_world (read href) ;;
  video_contents <- in_world (dom_op (BeautifulSoup (html_parser markup))) ;;
  found <- in_world (read_dom (fun st => get_brightcove_mapping st video_contents false)) ;;
  for_each found (add_video result header description).

(** [scrape_video_collection(url, topic)]; [depth] is the number of frames
    the interpreter still allows. *)
Fixpoint scrape_video_collection (depth : nat) (url : string) : T unit :=
  match depth with
  | 0 => raise RecursionError
  | S depth' =>
      try_except
        (markup <- in_world (read url) ;;
         collection_contents <- in_world (dom_op (BeautifulSoup (html5lib markup))) ;;
         results <- in_world (gets (fun w =>
                      find_all (dom w) collection_contents "div" [("class", "search-result")])) ;;
         for_each results scrape_search_result >>
         (* Scrape next page (if any) *)
         next_page_url <- in_world (dom_op (get_next_page_url collection_contents)) ;;
         match next_page_url with
         | Some next => if Py.truthy next then scrape_video_collection depth' next
                        else ret tt
         | None => ret tt
         end)
        (fun e => match e with
                  | HTTPError => in_world (log ERROR ("Could not read collection at " +:+ url))
                  | _ => raise e
                  end)
  end.

(** The title of a collection, from the text of its filter entry. *)
Definition collection_title (shown : string) : string :=
  Py.strip (Py.replace "Apply" EmptyString (Py.replace "filter" EmptyString shown)).

(** The body of the loop of [scrape_video_subject] over the entries of the
    sidebar. *)
Definition scrape_collection_entry (depth : nat) (collection : nat) : T unit :=
  span <- in_world (gets (fun w => find (dom w) collection "span" [])) ;;
  span <- in_world (unwrap AttributeError span) ;;
  title <- in_world (gets (fun w => collection_title (text (dom w) span))) ;;
  in_world (log INFO ("        " +:+ title)) >>
  under_topic (TopicNode title ("videos-collection-" +:+ title) None)
    (a <- in_world (gets (fun w => find (dom w) collection "a" [])) ;;
     a <- in_world (unwrap TypeError a) ;;
     href <- in_world (dom_op (get_item a "href")) ;;
     scrape_video_collection depth href).

(** [scrape_video_subject(url, topic)] *)
Definition scrape_video_subject (depth : nat) (url : string) : T unit :=
  markup <- in_world (read url) ;;
  contents <- in_world (dom_op (BeautifulSoup (html5lib markup))) ;;
  filter_content <- in_world (gets (fun w =>
                      find (dom w) contents "div" [("id", "filter_content")])) ;;
  filter_content <- in_world (unwrap AttributeError filter_content) ;;
  sidebar <- in_world (gets (fun w =>
               find (dom w) filter_content "div" [("class", "content")])) ;;
  sidebar <- in_world (unwrap AttributeError sidebar) ;;
  collections <- in_world (gets (fun w => find_all (dom w) sidebar "li" [])) ;;
  for_each collections (scrape_collection_entry depth).

(** A function that makes a topic, fills it and returns it: the topic is
    lost when the function raises. *)
Definition returning_topic (mk : list channel_node -> channel_node) (m : T unit)
  : SE (world Z) channel_node :=
  fun w => let '(r, s) := m ([], w) in
           (match r with
            | Ok _ => Ok (mk (fst s))
            | Raise e => Raise e
            end, snd s).

(** The body of the loop of [scrape_video_menu] over the subjects. *)
Definition scrape_video_subject_entry (depth : nat) (subject : nat) : T unit :=
  name <- in_world (gets (fun w => find (dom w) subject "div" [("class", "name")])) ;;
  name <- in_world (unwrap AttributeError name) ;;
  title <- in_world (gets (fun w => Py.strip (text (dom w) name))) ;;
  in_world (log INFO ("    " +:+ title)) >>
  img <- in_world (gets (fun w => find (dom w) subject "img" [])) ;;
  img <- in_world (unwrap TypeError img) ;;
  src <- in_world (dom_op (get_item img "src")) ;;
  thumb <- in_world (get_thumbnail_url src) ;;
  under_topic (TopicNode title ("videos-" +:+ title) thumb)
    (a <- in_world (gets (fun w => find (dom w) subject "a" [])) ;;
     a <- in_world (unwrap TypeError a) ;;
     href <- in_world (dom_op (get_item a "href")) ;;
     scrape_video_subject depth href).

(** [scrape_video_menu(url)] *)
Definition scrape_video_menu (depth : nat) (url : string) : SE (world Z) channel_node :=
  returning_topic (TopicNode "Videos" "main-topic-videos" None)
    (in_world (log INFO "SCRAPING VIDEOS...") >>
     markup <- in_world (read url) ;;
     contents <- in_world (dom_op (BeautifulSoup (html5lib markup))) ;;
     subjects <- in_world (gets (fun w =>
                   find_all (dom w) contents "div" [("class", "subject")])) ;;
     for_each subjects (scrape_video_subject_entry depth)).

(** [scrape_snack_subject(slug, topic)] on the topic that is being
    filled, which is new and empty where the menu calls it. When it
    raises, the leaves it had added are not kept: no caller catches the
    exception, so the channel is not built. *)
Definition fill_snack_subject (depth : nat) (slug : string) : T unit :=
  fun s => match scrape_snack_subject depth slug (@nil node) (snd s) with
           | (Ok leaves, w) => (Ok tt, (fst s ++ map HTML5AppNode leaves, w))
           | (Raise e, w) => (Raise e, (fst s, w))
           end.

(** The body of the loop of [scrape_snack_menu] over the top-level entries
    of a column. *)
Definition scrape_menu_entry (depth : nat) (li : nat) : T unit :=
  link <- in_world (gets (fun w => find (dom w) li "a" [])) ;;
  link <- in_world (unwrap TypeError link) ;;
  title <- in_world (dom_op (get_item link "title")) ;;
  in_world (log INFO ("    " +:+ title)) >>
  title <- in_world (dom_op (get_item link "title")) ;;
  href <- in_world (dom_op (get_item link "href")) ;;
  under_topic (TopicNode title href None)
    ((* Scrape subcategories (if any) *)
     sub <- in_world (gets (fun w => find (dom w) li "ul" [])) ;;
     match sub with
     | Some _ =>
         sub <- in_world (gets (fun w => find (dom w) li "ul" [])) ;;
         sub <- in_world (unwrap AttributeError sub) ;;
         sublinks <- in_world (gets (fun w => find_all (dom w) sub "a" [])) ;;
         for_each sublinks
           (fun sublink =>
              subtitle <- in_world (dom_op (get_item sublink "title")) ;;
              in_world (log INFO ("    > " +:+ subtitle)) >>
              subtitle <- in_world (dom_op (get_item sublink "title")) ;;
              subhref <- in_world (dom_op (get_item sublink "href")) ;;
              under_topic (TopicNode subtitle subhref None)
                (subhref <- in_world (dom_op (get_item sublink "href")) ;;
                 fill_snack_subject depth subhref))
     | None =>
         href <- in_world (dom_op (get_item link "href")) ;;
         fill_snack_subject depth href
     end).

(** The body of the loop of [scrape_snack_menu] over the columns. *)
Definition scrape_menu_column (depth : nat) (column : nat) : T unit :=
  parent <- in_world (gets (fun w => parent_of (dom w) column)) ;;
  parent <- in_world (unwrap AttributeError parent) ;;
  parent_name <- in_world (gets (fun w => name_of (dom w) parent)) ;;
  (* Skip nested .menu list items (captured in subdirectory) *)
  if match parent_name with
     | Some n => String.eqb n "li"
     | None => false
     end
  then ret tt
  else
    (* Go through top-level li elements *)
    entries <- in_world (gets (fun w => find_children (dom w) column "li" [])) ;;
    for_each entries (scrape_menu_entry depth).

(** [scrape_snack_menu(url)] *)
Definition scrape_snack_menu (depth : nat) (url : string) : SE (world Z) channel_node :=
  returning_topic (TopicNode "Activities" "main-topic-activities" None)
    (in_world (log INFO "SCRAPING ACTIVITIES...") >>
     markup <- in_world (read url) ;;
     contents <- in_world (dom_op (BeautifulSoup (html5lib markup))) ;;
     (* Get #main-content-container .field-items *)
     container <- in_world (gets (fun w =>
                    find (dom w) contents "div" [("id", "main-content-container")])) ;;
     container <- in_world (unwrap AttributeError container) ;;
     contents <- in_world (gets (fun w =>
                   find (dom w) container "div" [("class", "field-items")])) ;;
     contents <- in_world (unwrap AttributeError contents) ;;
     columns <- in_world (gets (fun w =>
                  find_all (dom w) contents "ul" [("class", "menu")])) ;;
     for_each columns (scrape_menu_column depth)).

End Crawl.

(** A property [Q] of the children of the topic that a computation keeps,
    however it ends. *)
Definition keeps_topic {Z A} (Q : list channel_node -> Prop)
           (m : SE (list channel_node * world Z) A) : Prop :=
  forall s, Q (fst s) -> Q (fst (snd (m s))).

(** *** A concrete setting for the crawl *)

(** The parser of the video pages over the same table of pages. *)
Definition table_parser (site : list (string * tree)) : HtmlParser := {|
  html_parser markup := match assoc markup site with
                        | Some t => t
                        | None => EMPTY_SOUP
                        end
|}.

(** An outside world whose video downloader raises DownloadError as long
    as fewer than [failures] collaborator calls have been made, and
    answers [after] from then on. *)
Definition flaky_outside (failures : nat) (after : res string)
           (site : list (string * tree)) : Outside := {|
  http_get _ url := match assoc url site with
                    | Some _ => Ok url
                    | None => Raise HTTPError
                    end;
  css_parse_url _ _ := None;
  youtube_dl n _ := if Nat.ltb n failures then Raise DownloadError else after;
  pil_png data := Ok ("png of " +:+ data);
  html5lib markup := match assoc markup site with
                     | Some t => t
                     | None => EMPTY_HTML5
                     end;
  prettify _ := "<html>";
  exn_str _ := "error";
  chef_directory := "/chef";
  download_html := "download.html"
|}.

(** The calls of a trace that went to the video downloader, and the
    network reads. *)
Definition is_youtube_dl (e : event) : bool :=
  match e with EvYoutubeDL _ _ => true | _ => false end.

Definition is_read (e : event) : bool :=
  match e with EvRead _ => true | _ => false end.

Definition is_log (e : event) : bool :=
  match e with EvLog _ _ => true | _ => false end.

(** What is seen of a world without the writer, the log and the sheets
    parsed: the documents, the file system and the calls of
    [downloader.read]. *)
Definition offline_view {Z} (w : world Z) : soup * list (string * string) * list event :=
  (dom w, files w, List.filter is_read (events w)).

(** The file name of a stylesheet asset in the shared asset directory. *)
Definition asset_filename (url : string) : string :=
  Py.last (Py.split "/" (Py.first (Py.split "?" url))).

(** A search result of a video collection. *)
Definition search_result (page heading : string) : tree :=
  Tag "div" [attr "class" "search-result"]
    [Tag "div" [attr "class" "views-field-field-html-title"]
       [Tag "a" [attr "href" page] [Text heading]];
     Tag "img" [attr "src" "/sites/default/files/still.jpg"] [];
     Tag "div" [attr "class" "search-description"] [Text " A pendulum draws. "]].

(** A page with one direct embed of the video [vid]. *)
Definition video_page (vid : string) : tree :=
  Tag "[document]" []
    [Tag "div" [attr "class" "attribution"] [Text "Jane Roe"];
     Tag "video" [attr "class" "bc5player"; attr "data-account" "acct";
                  attr "data-player" "main"; attr "data-video-id" vid] []].

(** A collection of three results: two pages that embed the same video,
    and a page that cannot be read. *)
Definition pendulum_collection : tree :=
  html_page []
    [search_result "/video/pendulum" "Pendulum";
     search_result "/video/pendulum-again" "Pendulum again";
     search_result "/video/missing" "Missing"].

(** A collection whose first result leads to a page that cannot be
    read. *)
Definition lost_collection : tree :=
  html_page []
    [search_result "/video/missing" "Missing";
     search_result "/video/pendulum" "Pendulum"].

Definition lost_site : list (string * tree) :=
  [("https://www.exploratorium.edu/video/lost", lost_collection);
   ("https://www.exploratorium.edu/video/pendulum", video_page "v42")].

(** The page of a video subject: a sidebar with one collection. *)
Definition subject_sidebar : tree :=
  html_page []
    [Tag "div" [attr "id" "filter_content"]
       [Tag "div" [attr "class" "content"]
          [Tag "ul" []
             [Tag "li" []
                [Tag "a" [attr "href" "/video/pendulums"]
                   [Tag "span" [] [Text "Apply Pendulums filter"]]]]]]].

(** An activity page with a link to a picture on another site and a
    named anchor. *)
Definition picture_page : tree :=
  html_page []
    [Tag "div" [attr "class" "activity"]
       [Tag "p" []
          [Text "See ";
           Tag "a" [attr "href" "http://example.org/pic.png"] [Text "the picture"];
           Tag "a" [attr "name" "top"] [Text "top"]]]].

Definition picture_site : list (string * tree) :=
  [("http://example.org/pic.png", Text "png")].

(** A sheet with two assets. *)
Definition asset_sheets : list (string * (string * list string)) :=
  [("https://www.exploratorium.edu/sites/all/themes/main.css",
    ("a { background: url(/img/logo.png?v=2) } b { background: url(/img/dot.gif) }",
     ["/img/logo.png?v=2"; "/img/dot.gif"]));
   ("https://www.exploratorium.edu/sites/all/themes/one.css",
    ("a { background: url(/img/logo.png?v=2) }", ["/img/logo.png?v=2"]))].

Definition asset_site : list (string * tree) :=
  [("https://www.exploratorium.edu/img/logo.png?v=2", Text "logo")].

(** A site that serves a worksheet; the template of the download pages
    is installed. *)
Definition worksheet_site : list (string * tree) :=
  [("https://www.exploratorium.edu/sites/default/files/work.sheet.pdf", Text "pdf");
   ("download.html", html_page [] [])].

(** The menu of the activities: a subject without subcategories, and a
    subject with a nested menu. *)
Definition menu_page : tree :=
  html_page []
    [Tag "div" [attr "id" "main-content-container"]
       [Tag "div" [attr "class" "field-items"]
          [Tag "ul" [attr "class" "menu"]
             [Tag "li" []
                [Tag "a" [attr "title" "Arts"; attr "href" "/subject/arts"] [Text "Arts"]];
              Tag "li" []
                [Tag "a" [attr "title" "Physics"; attr "href" "/subject/physics"]
                   [Text "Physics"];
                 Tag "ul" [attr "class" "menu"]
                   [Tag "li" []
                      [Tag "a" [attr "title" "Waves"; attr "href" "/subject/waves"]
                         [Text "Waves"]]]]]]]].

(** A page with a playlist and no direct embed. *)
Definition playlist_page : tree :=
  html_page []
    [Tag "div" [attr "class" "activity"]
       [Tag "div" [attr "id" "media-collection-banner-playlist"]
          [Tag "div" [attr "class" "playlist-item"; attr "data-id" "v7";
                      attr "data-title" "Waves"; attr "data-pid" "list"] []]]].

(** A world with the writer open and nothing parsed. *)
Definition open_world (fs : list (string * string)) : world (list (string * string)) :=
  World [] fs [] (Some []).

Definition video_site : list (string * tree) :=
  [("https://www.exploratorium.edu/video/collection", pendulum_collection);
   ("https://www.exploratorium.edu/video/pendulum", video_page "v42");
   ("https://www.exploratorium.edu/video/pendulum-again", video_page "v42")].

(* ===== properties ===== *)

#[local] Arguments String.append : simpl nomatch.

(** * Properties *)

(** ** Strings *)

Lemma startswith_app (p s : string) : Py.startswith p (p +:+ s) = true.
Proof.
  unfold Py.startswith. induction p as [|c p IH]; simpl.
  - destruct s; reflexivity.
  - destruct (ascii_dec c c) as [_|n]; [exact IH | congruence].
Qed.

Lemma truthy_app (a : string) (c : ascii) (b : string) :
  Py.truthy (a +:+ String c b) = true.
Proof. destruct a; reflexivity. Qed.

Lemma endswith_refl (suf : string) : Py.endswith suf suf = true.
Proof. destruct suf; cbn [Py.endswith]; rewrite String.eqb_refl; reflexivity. Qed.

Lemma endswith_app (suf a b : string) :
  Py.endswith suf b = true -> Py.endswith suf (a +:+ b) = true.
Proof.
  intros H. induction a as [|c a IH]; [exact H|].
  change (String c a +:+ b) with (String c (a +:+ b)).
  cbn [Py.endswith]. rewrite IH. apply orb_true_r.
Qed.

Lemma endswith_inv (suf s : string) :
  Py.endswith suf s = true -> exists p, s = p +:+ suf.
Proof.
  induction s as [|c s IH]; cbn [Py.endswith].
  - rewrite orb_false_r. intros H%String.eqb_eq. exists "". subst. reflexivity.
  - intros [H|H]%orb_true_iff.
    + apply String.eqb_eq in H. exists "". subst. reflexivity.
    + destruct (IH H) as [p ->]. exists (String c p). reflexivity.
Qed.

Lemma split_nonempty (sep : ascii) (s : string) : Py.split sep s <> [].
Proof.
  destruct s as [|c r]; cbn [Py.split]; [discriminate|].
  destruct (Ascii.eqb c sep); [discriminate|].
  destruct (Py.split sep r); discriminate.
Qed.

Lemma split_no_sep (sep : ascii) (s : string) :
  Py.mem_char sep s = false -> Py.split sep s = [s].
Proof.
  induction s as [|c r IH]; cbn [Py.split Py.mem_char]; [reflexivity|].
  intros [Hc Hr]%orb_false_iff. rewrite Ascii.eqb_sym, Hc, (IH Hr). reflexivity.
Qed.

Lemma last_cons_nonempty (a : string) (l : list string) :
  l <> [] -> Py.last (a :: l) = Py.last l.
Proof. destruct l; [congruence | reflexivity]. Qed.

(** The last piece of a split keeps a suffix that does not hold the
    separator. *)
Lemma endswith_last_split (sep : ascii) (suf s : string) :
  suf <> "" -> Py.mem_char sep suf = false ->
  Py.endswith suf s = true -> Py.endswith suf (Py.last (Py.split sep s)) = true.
Proof.
  intros Hne Hsep. induction s as [|c r IH]; cbn [Py.endswith].
  - rewrite orb_false_r. intros H%String.eqb_eq. congruence.
  - intros [H|H]%orb_true_iff.
    + apply String.eqb_eq in H. rewrite H, (split_no_sep _ _ Hsep). apply endswith_refl.
    + specialize (IH H). cbn [Py.split].
      destruct (Ascii.eqb c sep).
      * rewrite last_cons_nonempty by apply split_nonempty. exact IH.
      * destruct (Py.split sep r) as [|h [|h' t]] eqn:E.
        -- destruct (split_nonempty sep r E).
        -- unfold Py.last in *. cbn [List.last] in *.
           apply (endswith_app suf (String c "") h IH).
        -- exact IH.
Qed.

Lemma replace_gif_from (n : nat) : forall p, String.length p + 4 < n + 1 ->
  exists r, Py.replace_from n "gif" "png" (p +:+ ".gif") = r +:+ ".png".
Proof.
  induction n as [|n IH]; intros p Hn; [lia|].
  destruct p as [|a p].
  - simpl in *. destruct n as [|[|n]]; try lia. exists "". reflexivity.
  - cbn [String.append Py.replace_from].
    destruct (Py.drop_prefix "gif" (String a (p +:+ ".gif"))) as [rest|] eqn:E.
    + cbn [Py.drop_prefix String.append] in E.
      destruct (Ascii.eqb "g" a); [|discriminate].
      destruct p as [|b p]; [cbn [Py.drop_prefix String.append] in E; discriminate|].
      cbn [Py.drop_prefix String.append] in E.
      destruct (Ascii.eqb "i" b); [|discriminate].
      destruct p as [|c p]; [cbn [Py.drop_prefix String.append] in E; discriminate|].
      cbn [Py.drop_prefix String.append] in E.
      destruct (Ascii.eqb "f" c); [|discriminate].
      injection E as <-. simpl in Hn.
      destruct (IH p) as [r Hr]; [lia|]. rewrite Hr. exists ("png" +:+ r). reflexivity.
    + simpl in Hn. destruct (IH p) as [r Hr]; [lia|]. rewrite Hr.
      exists (String a r). reflexivity.
Qed.

Lemma length_app_string (a b : string) :
  String.length (a +:+ b) = String.length a + String.length b.
Proof. induction a as [|c a IH]; simpl; [reflexivity | rewrite IH; reflexivity]. Qed.

(** A name that ends in .gif ends in .png once its gif's are replaced. *)
Lemma replace_gif_png (name : string) :
  Py.endswith ".gif" name = true ->
  Py.endswith ".png" (Py.replace "gif" "png" name) = true.
Proof.
  intros [p ->]%endswith_inv. unfold Py.replace.
  destruct (replace_gif_from (S (String.length (p +:+ ".gif"))) p) as [r ->].
  - rewrite length_app_string. simpl. lia.
  - apply endswith_app, endswith_refl.
Qed.

(** Cutting at the first "?" drops a query string. *)
Lemma first_split_query (u q : string) :
  Py.mem_char "?" u = false -> Py.first (Py.split "?" (u +:+ String "?" q)) = u.
Proof.
  induction u as [|c u IH]; cbn [Py.mem_char String.append Py.split].
  - reflexivity.
  - intros [Hc Hu]%orb_false_iff. rewrite Ascii.eqb_sym, Hc.
    specialize (IH Hu). destruct (Py.split "?" (u +:+ String "?" q)); simpl in *; congruence.
Qed.

Lemma rstrip_all_in (chars s : string) : all_in chars s = true -> Py.rstrip chars s = "".
Proof.
  induction s as [|c r IH]; cbn [all_in Py.rstrip]; [reflexivity|].
  intros [Hc Hr]%andb_true_iff. rewrite (IH Hr), Hc. reflexivity.
Qed.

(** [rstrip] removes any trailing run of the given characters: with "%20"
    it removes trailing encoded spaces, and trailing "2"s and "0"s too. *)
Lemma rstrip_app (chars u s : string) :
  all_in chars s = true -> Py.rstrip chars (u +:+ s) = Py.rstrip chars u.
Proof.
  intros H. induction u as [|c u IH]; cbn [String.append Py.rstrip].
  - apply rstrip_all_in, H.
  - rewrite IH. reflexivity.
Qed.

(** ** The resource resolver *)



(** Whatever its argument, [format_url] returns an absolute url, so
    resolving twice changes nothing. *)
Lemma format_url_absolute (u : string) : is_absolute (format_url u).
Proof.
  unfold is_absolute, format_url.
  destruct (Py.startswith "http" u) eqn:E; [exact E | reflexivity].
Qed.

(** X20: [format_url] is idempotent: formatting a formatted url changes
    nothing, so a url may pass through [read] and the writer's callers
    any number of times. *)
Lemma format_url_idempotent (u : string) : format_url (format_url u) = format_url u.
Proof.
  pose proof (format_url_absolute u) as H. unfold is_absolute in H.
  unfold format_url at 1. rewrite H. reflexivity.
Qed.

(** Urls with the scheme http or https pass the chef's test. *)
Lemma scheme_is_absolute (rest : string) :
  is_absolute ("http://" +:+ rest) /\ is_absolute ("https://" +:+ rest).
Proof. split; unfold is_absolute; destruct rest; reflexivity. Qed.

(** A site-relative path (one that starts with a slash) does not. *)
Lemma path_is_relative (rest : string) : is_relative (String "/" rest).
Proof. reflexivity. Qed.

(** ** Thumbnails *)

Section Thumbnails.
Context {O : Outside} {Z : Type}.

Lemma png_path_png (url : string) :
  Py.endswith ".gif" url = true -> Py.endswith ".png" (png_path url) = true.
Proof.
  intros H. unfold png_path.
  apply endswith_app, endswith_app, replace_gif_png.
  apply endswith_last_split; [discriminate | reflexivity | exact H].
Qed.

Lemma png_path_local (url : string) :
  Py.startswith SNACK_DIRECTORY (png_path url) = true /\ Py.truthy (png_path url) = true.
Proof.
  split.
  - apply startswith_app.
  - unfold png_path. apply truthy_app.
Qed.

(** What [get_thumbnail_url] does, in terms of the url that its first
    line computes. *)
Lemma get_thumbnail_url_run (url : string) (w : world Z) :
  let cleaned := clean_thumbnail_url url in
  (Py.endswith ".gif" cleaned = false ->
   get_thumbnail_url url w =
     (Ok (if Py.truthy cleaned then Some cleaned else None), w)) /\
  (Py.endswith ".gif" cleaned = true ->
   forall img png,
     http_get (length (events w)) (format_url cleaned) = Ok img ->
     pil_png img = Ok png ->
     get_thumbnail_url url w =
       (Ok (Some (png_path cleaned)),
        World (dom w) (assoc_set (png_path cleaned) png (files w))
              (EvRead (format_url cleaned) :: events w) (zipper w)) /\
     Py.endswith ".png" (png_path cleaned) = true /\
     Py.startswith SNACK_DIRECTORY (png_path cleaned) = true).
Proof.
  intros cleaned. split.
  - intros Hgif. unfold get_thumbnail_url. fold cleaned. rewrite Hgif. reflexivity.
  - intros Hgif img png Hget Hpng. split; [|split].
    + unfold get_thumbnail_url. fold cleaned. rewrite Hgif.
      unfold bind, read, downloader_read, lift, write_local, modify, ret.
      rewrite Hget, Hpng.
      destruct (png_path_local cleaned) as [_ ->]. reflexivity.
    + apply png_path_png, Hgif.
    + apply png_path_local.
Qed.

Lemma all_in_encoded_spaces (n : nat) : all_in "%20" (encoded_spaces n) = true.
Proof. induction n as [|n IH]; [reflexivity|]. cbn [encoded_spaces]. exact IH. Qed.

Lemma mem_char_app (c : ascii) (a b : string) :
  Py.mem_char c (a +:+ b) = Py.mem_char c a || Py.mem_char c b.
Proof.
  induction a as [|d a IH]; [reflexivity|].
  change (String d a +:+ b) with (String d (a +:+ b)).
  cbn [Py.mem_char]. rewrite IH. apply orb_assoc.
Qed.

Lemma no_query_in_encoded_spaces (n : nat) : Py.mem_char "?" (encoded_spaces n) = false.
Proof. induction n as [|n IH]; [reflexivity|]. cbn [encoded_spaces]. exact IH. Qed.

Lemma rstrip_ends_outside (chars s : string) :
  ends_outside chars s = true -> Py.rstrip chars s = s.
Proof.
  induction s as [|c r IH]; [reflexivity|].
  cbn [ends_outside Py.rstrip]. destruct r as [|d r'].
  - cbn [Py.rstrip]. intros H. apply negb_true_iff in H. rewrite H. reflexivity.
  - intros H. rewrite (IH H). reflexivity.
Qed.

(** The first line of [get_thumbnail_url] leaves the path of a url
    whose path does not end in one of the characters it strips. *)
Lemma clean_thumbnail_url_path (path : string) (n : nat) (query : option string) :
  Py.mem_char "?" path = false ->
  ends_outside "%20" path = true ->
  clean_thumbnail_url (with_query (path +:+ encoded_spaces n) query) = path.
Proof.
  intros Hq Hend. unfold clean_thumbnail_url.
  assert (Hno : Py.mem_char "?" (path +:+ encoded_spaces n) = false).
  { rewrite mem_char_app, Hq, no_query_in_encoded_spaces. reflexivity. }
  assert (Hfirst : Py.first (Py.split "?" (with_query (path +:+ encoded_spaces n) query))
                   = path +:+ encoded_spaces n).
  { destruct query as [q|]; cbn [with_query].
    - apply first_split_query, Hno.
    - rewrite split_no_sep by exact Hno. reflexivity. }
  rewrite Hfirst, rstrip_app by apply all_in_encoded_spaces.
  apply rstrip_ends_outside, Hend.
Qed.

(** C8, with the empty case: for a url made of a path, encoded spaces
    and possibly a query string, the query string and the encoded spaces
    are stripped. A path that ends in .gif is fetched and re-encoded, and
    the result is the path of the png file written under the snack
    directory; any other path is returned as it is, except that the
    empty one is returned as [None]. The path is taken not to end in
    "%", "2" or "0" itself. *)
Theorem get_thumbnail_url_cleaned
    (path : string) (n : nat) (query : option string) (w : world Z) :
  Py.mem_char "?" path = false ->
  ends_outside "%20" path = true ->
  (Py.endswith ".gif" path = false ->
   get_thumbnail_url (with_query (path +:+ encoded_spaces n) query) w =
     (Ok (if Py.truthy path then Some path else None), w)) /\
  (Py.endswith ".gif" path = true ->
   forall img png,
     http_get (length (events w)) (format_url path) = Ok img ->
     pil_png img = Ok png ->
     get_thumbnail_url (with_query (path +:+ encoded_spaces n) query) w =
       (Ok (Some (png_path path)),
        World (dom w) (assoc_set (png_path path) png (files w))
              (EvRead (format_url path) :: events w) (zipper w)) /\
     Py.endswith ".png" (png_path path) = true /\
     Py.startswith SNACK_DIRECTORY (png_path path) = true).
Proof.
  intros Hq Hend.
  pose proof (get_thumbnail_url_run (with_query (path +:+ encoded_spaces n) query) w) as H.
  cbv zeta in H. rewrite (clean_thumbnail_url_path path n query Hq Hend) in H.
  exact H.
Qed.

(** Cleaning removes a query string and trailing encoded spaces. *)
Lemma clean_thumbnail_url_query (u q : string) :
  Py.mem_char "?" u = false ->
  clean_thumbnail_url (u +:+ String "?" q) = Py.rstrip "%20" u.
Proof. intros H. unfold clean_thumbnail_url. rewrite first_split_query; auto. Qed.

Lemma clean_thumbnail_url_spaces (u : string) :
  Py.mem_char "?" u = false ->
  clean_thumbnail_url (u +:+ "%20%20") = Py.rstrip "%20" u.
Proof.
  intros H. unfold clean_thumbnail_url.
  rewrite split_no_sep.
  - apply rstrip_app. reflexivity.
  - clear -H. induction u as [|c u IH]; [reflexivity|].
    cbn [String.append Py.mem_char] in *.
    apply orb_false_iff in H as [-> Hu]. apply IH, Hu.
Qed.

End Thumbnails.

(** C8 does not hold as stated: for a url that is only a query string the
    cleaned url is empty, does not end in .gif, and the result is [None],
    not the cleaned url. *)
Lemma get_thumbnail_url_empty_is_none :
  clean_thumbnail_url "?itok=Zk3" = "" /\
  Py.endswith ".gif" (clean_thumbnail_url "?itok=Zk3") = false /\
  fst (@get_thumbnail_url (table_outside []) _ "?itok=Zk3" empty_world) = Ok None /\
  fst (@get_thumbnail_url (table_outside []) _ "?itok=Zk3" empty_world)
    <> Ok (Some (clean_thumbnail_url "?itok=Zk3")).
Proof. repeat split; try reflexivity. discriminate. Qed.

Lemma get_thumbnail_url_cleaned_witness :
  @get_thumbnail_url (table_outside []) _ "/img/drawing.jpg%20?itok=Zk3" empty_world
    = (Ok (Some "/img/drawing.jpg"), empty_world) /\
  fst (@get_thumbnail_url
         (table_outside [("https://www.exploratorium.edu/img/gift.gif", EMPTY_HTML5)]) _
         "/img/gift.gif?itok=Zk3" empty_world)
    = Ok (Some "/chef/snacks/pngt.png").
Proof.
  split.
  - apply (proj1 (@get_thumbnail_url_cleaned (table_outside []) _
                    "/img/drawing.jpg" 1 (Some "itok=Zk3") empty_world
                    eq_refl eq_refl)).
    reflexivity.
  - pose proof (proj2 (@get_thumbnail_url_cleaned
        (table_outside [("https://www.exploratorium.edu/img/gift.gif", EMPTY_HTML5)]) _
        "/img/gift.gif" 0 (Some "itok=Zk3") empty_world eq_refl eq_refl) eq_refl
        "https://www.exploratorium.edu/img/gift.gif"
        "png of https://www.exploratorium.edu/img/gift.gif" eq_refl eq_refl) as [H _].
    change (with_query ("/img/gift.gif" +:+ encoded_spaces 0) (Some "itok=Zk3"))
      with "/img/gift.gif?itok=Zk3" in H.
    rewrite H. reflexivity.
Defined.

(** ** The retry loop of the page transformation *)

Section Retry.
Context {O : Outside} {Z : Type} {HW : HTMLWriter Z}.

Lemma dom_op_frame {A} (d : D A) (w : world Z) :
  files (snd (dom_op d w)) = files w /\
  events (snd (dom_op d w)) = events w /\
  zipper (snd (dom_op d w)) = zipper w.
Proof. unfold dom_op. destruct (d (dom w)) as [r st]. repeat split. Qed.

(** Whatever happens in its [try] block, [scrape_snack_page] returns, and
    the path it returns is the path of the zip: every exception is caught,
    and after the last attempt the function still ends in
    [return write_to_path, tags]. *)
Lemma scrape_snack_page_returns_path (slug : string) (attempts : nat) (w : world Z) :
  exists tags, fst (scrape_snack_page slug attempts w) = Ok (write_to_path_of slug, tags).
Proof.
  revert w. induction attempts as [|n IH]; intros w; cbn [scrape_snack_page];
    destruct (try_block slug (write_to_path_of slug) w) as [[tags [[]|e]] w'];
    eauto.
Qed.

(** That path is never empty, so the caller's test [if not write_to_path]
    never holds. *)
Lemma write_to_path_truthy (slug : string) : Py.truthy (write_to_path_of slug) = true.
Proof. unfold write_to_path_of. apply truthy_app. Qed.

(** When the zip is on disk, the [try] block reads the page, and does
    nothing else outside the documents it holds. *)
Lemma try_block_existing (slug : string) (w : world Z) :
  isfile (write_to_path_of slug) (files w) = true ->
  files (snd (try_block slug (write_to_path_of slug) w)) = files w /\
  zipper (snd (try_block slug (write_to_path_of slug) w)) = zipper w /\
  events (snd (try_block slug (write_to_path_of slug) w)) = EvRead (format_url slug) :: events w.
Proof.
  intros Hfile. unfold try_block, bind, read, downloader_read.
  destruct (http_get (length (events w)) (format_url slug)) as [markup|e]; [|repeat split].
  set (w0 := add_event (EvRead (format_url slug)) w).
  pose proof (dom_op_frame (BeautifulSoup (html5lib markup)) w0) as (F1 & E1 & Z1).
  change (files w0) with (files w) in F1.
  change (events w0) with (EvRead (format_url slug) :: events w) in E1.
  change (zipper w0) with (zipper w) in Z1.
  destruct (dom_op (BeautifulSoup (html5lib markup)) w0) as [[contents|e] w1];
    cbn [snd] in *; [|repeat split; congruence].
  set (main := find (dom w1) contents "div" [("class", "activity")]).
  pose proof (dom_op_frame (scrape_keywords main "field-name-field-activity-subject") w1)
    as (F2 & E2 & Z2).
  destruct (dom_op (scrape_keywords main "field-name-field-activity-subject") w1)
    as [[subjects|e] w2]; cbn [snd] in *; [|repeat split; congruence].
  pose proof (dom_op_frame (scrape_keywords main "field-name-field-activity-tags") w2)
    as (F3 & E3 & Z3).
  destruct (dom_op (scrape_keywords main "field-name-field-activity-tags") w2)
    as [[keywords|e] w3]; cbn [snd] in *; [|repeat split; congruence].
  replace (files w3) with (files w) by congruence. rewrite Hfile.
  cbn [snd]. repeat split; congruence.
Qed.

(** C1, as the code has it: when the zip of the slug is on disk,
    [scrape_snack_page] returns its path and leaves the disk and the
    writer alone; the only calls it makes are reads of the source page
    (the first call is one: the page is fetched for its keywords before
    the zip is looked for) and, when every read failed, the error log. No
    video is downloaded, no stylesheet fetched, no writer opened. *)
Theorem scrape_snack_page_existing_bundle (slug : string) (attempts : nat) (w : world Z) :
  isfile (write_to_path_of slug) (files w) = true ->
  exists tags calls,
    fst (scrape_snack_page slug attempts w) = Ok (write_to_path_of slug, tags) /\
    files (snd (scrape_snack_page slug attempts w)) = files w /\
    zipper (snd (scrape_snack_page slug attempts w)) = zipper w /\
    events (snd (scrape_snack_page slug attempts w))
      = calls ++ EvRead (format_url slug) :: events w /\
    Forall (fun e => e = EvRead (format_url slug) \/ exists msg, e = EvLog ERROR msg) calls.
Proof.
  revert w. induction attempts as [|n IH]; intros w Hfile;
    destruct (try_block_existing slug w Hfile) as (F & Zp & E);
    cbn [scrape_snack_page];
    destruct (try_block slug (write_to_path_of slug) w) as [[tags [[]|e]] w'];
    cbn [fst snd] in *.
  - exists tags, []. refine (conj _ (conj _ (conj _ (conj _ _)))); auto.
  - exists tags, [EvLog ERROR ("Could not scrape " +:+ slug +:+ " (" +:+ exn_str e +:+ ")")].
    refine (conj _ (conj _ (conj _ (conj _ _)))); auto.
    + cbn. congruence.
    + constructor; [right; eauto | constructor].
  - exists tags, []. refine (conj _ (conj _ (conj _ (conj _ _)))); auto.
  - destruct (IH w') as (tags' & calls & R & F' & Z' & E' & All); [congruence|].
    exists tags', (calls ++ [EvRead (format_url slug)]).
    refine (conj _ (conj _ (conj _ (conj _ _)))).
    + exact R.
    + congruence.
    + congruence.
    + rewrite E', E, <- app_assoc. reflexivity.
    + apply Forall_app. split; [exact All|]. constructor; [left; reflexivity | constructor].
Qed.

(** When the first attempt goes through, the page read is the only call. *)
Lemma scrape_snack_page_existing_bundle_once (slug : string) (attempts : nat)
      (w : world Z) (tags : list string) :
  isfile (write_to_path_of slug) (files w) = true ->
  fst (try_block slug (write_to_path_of slug) w) = (tags, Ok tt) ->
  fst (scrape_snack_page slug attempts w) = Ok (write_to_path_of slug, tags) /\
  events (snd (scrape_snack_page slug attempts w)) = EvRead (format_url slug) :: events w.
Proof.
  intros Hfile Htry. destruct (try_block_existing slug w Hfile) as (_ & _ & E).
  destruct attempts; cbn [scrape_snack_page];
    destruct (try_block slug (write_to_path_of slug) w) as [[tags' r] w'];
    cbn [fst snd] in *; injection Htry as -> ->; auto.
Qed.

End Retry.

(** C1 does not hold as stated: with the zip of the drawing board on disk,
    [scrape_snack_page] still reads the source page from the network. *)
Lemma scrape_snack_page_rereads_page :
  isfile (@write_to_path_of (table_outside whole_site) "/snacks/drawing-board")
         (files bundled_world) = true /\
  fst (@scrape_snack_page (table_outside whole_site) _ ricecooker_writer
         "/snacks/drawing-board" 5 bundled_world)
    = Ok ("/chef/snacks/drawing-board.zip", ["Physics"]) /\
  events (snd (@scrape_snack_page (table_outside whole_site) _ ricecooker_writer
                 "/snacks/drawing-board" 5 bundled_world))
    = [EvRead "https://www.exploratorium.edu/snacks/drawing-board"].
Proof. vm_compute. repeat split. Qed.

Lemma scrape_snack_page_existing_bundle_witness :
  exists tags calls,
    fst (@scrape_snack_page (table_outside whole_site) _ ricecooker_writer
           "/snacks/drawing-board" 5 bundled_world)
      = Ok ("/chef/snacks/drawing-board.zip", tags) /\
    events (snd (@scrape_snack_page (table_outside whole_site) _ ricecooker_writer
                   "/snacks/drawing-board" 5 bundled_world))
      = calls ++ [EvRead "https://www.exploratorium.edu/snacks/drawing-board"].
Proof.
  destruct (@scrape_snack_page_existing_bundle (table_outside whole_site) _ ricecooker_writer
              "/snacks/drawing-board" 5 bundled_world eq_refl)
    as (tags & calls & R & _ & _ & E & _).
  exists tags, calls. split; [exact R | exact E].
Defined.

(** C3 fails on the code. The listing has one activity and every read of
    its page raises: [scrape_snack_page] makes six attempts (the budget of
    five counts the retries), logs the error and returns the path of a
    zip that was never written; [scrape_snack_subject] does not skip the
    leaf and adds a node for that path. *)
Theorem scrape_snack_subject_keeps_failed_leaf :
  fst (@scrape_snack_subject (table_outside listing_only) _ ricecooker_writer
         1000 "/subject/arts" [] empty_world)
    = Ok [Node "/snacks/drawing-board" "Drawing Board" "Draw with a pendulum."
               ["/chef/snacks/drawing-board.zip"]
               (Some "/sites/default/files/drawing.jpg") []] /\
  events (snd (@scrape_snack_subject (table_outside listing_only) _ ricecooker_writer
                 1000 "/subject/arts" [] empty_world))
    = [EvLog ERROR "Could not scrape /snacks/drawing-board (error)";
       EvRead "https://www.exploratorium.edu/snacks/drawing-board";
       EvRead "https://www.exploratorium.edu/snacks/drawing-board";
       EvRead "https://www.exploratorium.edu/snacks/drawing-board";
       EvRead "https://www.exploratorium.edu/snacks/drawing-board";
       EvRead "https://www.exploratorium.edu/snacks/drawing-board";
       EvRead "https://www.exploratorium.edu/snacks/drawing-board";
       EvLog INFO "        Drawing Board";
       EvRead "https://www.exploratorium.edu/subject/arts"] /\
  files (snd (@scrape_snack_subject (table_outside listing_only) _ ricecooker_writer
                1000 "/subject/arts" [] empty_world)) = [].
Proof. vm_compute. repeat split. Qed.

(** ** The video-embed resolver *)

Lemma assoc_set_eq {V} (k : string) (v : V) (l : list (string * V)) :
  assoc k (assoc_set k v l) = Some v.
Proof.
  induction l as [|[k' v'] l IH]; cbn [assoc assoc_set].
  - rewrite String.eqb_refl. reflexivity.
  - destruct (String.eqb k' k) eqn:E; cbn [assoc]; rewrite ?String.eqb_refl, ?E; auto.
Qed.

Lemma assoc_set_ne {V} (k k' : string) (v : V) (l : list (string * V)) :
  k <> k' -> assoc k' (assoc_set k v l) = assoc k' l.
Proof.
  intros Hne. induction l as [|[k0 v0] l IH]; cbn [assoc assoc_set].
  - destruct (String.eqb_spec k k'); [contradiction | reflexivity].
  - destruct (String.eqb_spec k0 k) as [->|Hk]; cbn [assoc].
    + destruct (String.eqb_spec k k'); [contradiction | reflexivity].
    + rewrite IH. reflexivity.
Qed.

Lemma keys_assoc_set {V} (k k' : string) (v : V) (l : list (string * V)) :
  In k' (map fst (assoc_set k v l)) <-> k' = k \/ In k' (map fst l).
Proof.
  induction l as [|[k0 v0] l IH]; cbn [assoc_set map fst In].
  - intuition.
  - destruct (String.eqb_spec k0 k) as [->|Hk]; cbn [map fst In]; intuition.
Qed.

Lemma keys_assoc_set_NoDup {V} (k : string) (v : V) (l : list (string * V)) :
  List.NoDup (map fst l) -> List.NoDup (map fst (assoc_set k v l)).
Proof.
  induction l as [|[k0 v0] l IH]; cbn [assoc_set map fst]; intros H.
  - repeat constructor. intros [].
  - inversion H as [|? ? Hnotin Hrest]; subst.
    destruct (String.eqb_spec k0 k) as [->|Hk]; cbn [map fst].
    + constructor; assumption.
    + constructor; [|apply IH, Hrest].
      rewrite keys_assoc_set. intros [->|Hin]; [congruence | contradiction].
Qed.

Lemma assoc_not_in {V} (k : string) (l : list (string * V)) :
  ~ In k (map fst l) -> List.filter (fun e => String.eqb (fst e) k) l = [].
Proof.
  induction l as [|[k0 v0] l IH]; cbn [map fst In List.filter]; intros H; [reflexivity|].
  destruct (String.eqb_spec k0 k) as [->|Hk]; [tauto | apply IH; tauto].
Qed.

(** With distinct keys, a key has one record: the one [assoc] finds. *)
Lemma records_unique {V} (k : string) (v : V) (l : list (string * V)) :
  List.NoDup (map fst l) -> assoc k l = Some v ->
  List.filter (fun e => String.eqb (fst e) k) l = [(k, v)].
Proof.
  induction l as [|[k0 v0] l IH]; cbn [map fst assoc List.filter]; intros Hnd Ha;
    [discriminate|].
  inversion Hnd as [|? ? Hnotin Hrest]; subst.
  destruct (String.eqb_spec k0 k) as [->|Hk].
  - injection Ha as ->. rewrite assoc_not_in by assumption. reflexivity.
  - apply IH; assumption.
Qed.

Lemma fold_res_app {A B} (l1 l2 : list A) (acc : B) (body : B -> A -> res B) :
  fold_res (l1 ++ l2) acc body
  = rbind (fold_res l1 acc body) (fun acc' => fold_res l2 acc' body).
Proof.
  revert acc. induction l1 as [|x l1 IH]; intros acc; cbn [fold_res app rbind];
    [reflexivity|].
  destruct (body acc x); cbn [rbind]; auto.
Qed.

Lemma fold_res_invariant {A B} (P : B -> Prop) (body : B -> A -> res B) (xs : list A) :
  (forall acc x acc', P acc -> body acc x = Ok acc' -> P acc') ->
  forall acc r, P acc -> fold_res xs acc body = Ok r -> P r.
Proof.
  intros Hstep. induction xs as [|x xs IH]; intros acc r HP; cbn [fold_res rbind].
  - intros [= <-]. exact HP.
  - destruct (body acc x) as [acc'|e] eqn:E; cbn [rbind]; [|discriminate].
    apply IH. eapply Hstep; eassumption.
Qed.

Lemma add_direct_keys (st : soup) (contents : nat) (acc acc' : mapping * string) (video : nat) :
  List.NoDup (map fst (fst acc)) -> add_direct st contents acc video = Ok acc' ->
  List.NoDup (map fst (fst acc')).
Proof.
  unfold add_direct. intros Hnd.
  destruct (item st video "data-account"); cbn [rbind]; [|discriminate].
  destruct (item st video "data-video-id"); cbn [rbind]; [|discriminate].
  destruct (item st video "data-player"); cbn [rbind]; [|discriminate].
  intros [= <-]. apply keys_assoc_set_NoDup, Hnd.
Qed.

Lemma add_playlist_item_keys (st : soup) (pl : nat) (account : string)
      (acc acc' : mapping) (video : nat) :
  List.NoDup (map fst acc) -> add_playlist_item st pl account acc video = Ok acc' ->
  List.NoDup (map fst acc').
Proof.
  unfold add_playlist_item. intros Hnd.
  destruct (item st video "data-id"); cbn [rbind]; [|discriminate].
  destruct (item st video "data-title"); cbn [rbind]; [|discriminate].
  destruct (item st video "data-pid"); cbn [rbind]; [|discriminate].
  intros [= <-]. apply keys_assoc_set_NoDup, Hnd.
Qed.

Lemma add_playlist_item_keeps (st : soup) (pl : nat) (account vid : string)
      (acc acc' : mapping) (video : nat) :
  from_playlist pl account vid acc -> add_playlist_item st pl account acc video = Ok acc' ->
  from_playlist pl account vid acc'.
Proof.
  intros [Hnd (title & player & Ha)] Hstep. split.
  - eapply add_playlist_item_keys; eassumption.
  - revert Hstep. unfold add_playlist_item.
    destruct (item st video "data-id") as [vid'|]; cbn [rbind]; [|discriminate].
    destruct (item st video "data-title") as [title'|]; cbn [rbind]; [|discriminate].
    destruct (item st video "data-pid") as [player'|]; cbn [rbind]; [|discriminate].
    intros [= <-]. destruct (String.eqb_spec vid' vid) as [->|Hne].
    + exists title', player'. apply assoc_set_eq.
    + exists title, player. rewrite assoc_set_ne by assumption. exact Ha.
Qed.

Lemma add_playlist_item_sets (st : soup) (pl : nat) (account vid : string)
      (acc acc' : mapping) (video : nat) :
  List.NoDup (map fst acc) -> item st video "data-id" = Ok vid ->
  add_playlist_item st pl account acc video = Ok acc' ->
  from_playlist pl account vid acc'.
Proof.
  intros Hnd Hid Hstep. split.
  - eapply add_playlist_item_keys; eassumption.
  - revert Hstep. unfold add_playlist_item. rewrite Hid. cbn [rbind].
    destruct (item st video "data-title") as [title'|]; cbn [rbind]; [|discriminate].
    destruct (item st video "data-pid") as [player'|]; cbn [rbind]; [|discriminate].
    intros [= <-]. exists title', player'. apply assoc_set_eq.
Qed.

(** C2, as the code has it: when a video id is carried by a direct embed
    and by an item of the playlist, the mapping has one record under that
    id, and it is the record of the playlist item (title, playlist, url):
    the second [update] replaces the record of the direct embed, whose
    author and element are not in the result. *)
Theorem get_brightcove_mapping_playlist_wins
    (st : soup) (contents playlist direct entry : nat) (vid : string) (m : mapping) :
  In direct (find_all st contents "video" [("class", "bc5player")]) ->
  item st direct "data-video-id" = Ok vid ->
  find st contents "div" [("id", "media-collection-banner-playlist")] = Some playlist ->
  In entry (find_all st playlist "div" [("class", "playlist-item")]) ->
  item st entry "data-id" = Ok vid ->
  get_brightcove_mapping st contents true = Ok m ->
  exists title account player,
    List.filter (fun e => String.eqb (fst e) vid) m
      = [(vid, playlist_record playlist title account player vid)] /\
    assoc "author" (playlist_record playlist title account player vid) = None /\
    assoc "original_el" (playlist_record playlist title account player vid) = None.
Proof.
  intros _ _ Hpl Hin Hid. unfold get_brightcove_mapping. rewrite Hpl.
  destruct (fold_res (find_all st contents "video" [("class", "bc5player")])
              ([], "") (add_direct st contents)) as [[m1 account]|e] eqn:Hdirect;
    cbn [rbind fst snd]; [|discriminate].
  assert (Hnd1 : List.NoDup (map fst m1)).
  { change m1 with (fst (m1, account)).
    refine (fold_res_invariant (fun acc => List.NoDup (map fst (fst acc))) _ _ _ _ _ _ Hdirect).
    - intros acc x acc'. apply add_direct_keys.
    - constructor. }
  apply in_split in Hin as (l1 & l2 & ->).
  rewrite fold_res_app.
  destruct (fold_res l1 m1 (add_playlist_item st playlist account)) as [m2|e] eqn:H1;
    cbn [rbind fold_res]; [|discriminate].
  destruct (add_playlist_item st playlist account m2 entry) as [m3|e] eqn:H2;
    cbn [rbind]; [|discriminate].
  intros H3.
  assert (Hnd2 : List.NoDup (map fst m2)).
  { refine (fold_res_invariant (fun acc => List.NoDup (map fst acc)) _ _ _ _ _ Hnd1 H1).
    intros acc x acc'. apply add_playlist_item_keys. }
  pose proof (add_playlist_item_sets _ _ _ _ _ _ _ Hnd2 Hid H2) as Hm3.
  assert (Hm : from_playlist playlist account vid m).
  { refine (fold_res_invariant (from_playlist playlist account vid) _ _ _ _ _ Hm3 H3).
    intros acc x acc'. apply add_playlist_item_keeps. }
  destruct Hm as [Hnd (title & player & Ha)].
  exists title, account, player. split; [|split; reflexivity].
  apply records_unique; assumption.
Qed.

(** C2 does not hold as stated: on the banner page the record of video v42
    is the playlist item's, without the attribution and the element of the
    direct embed (which the mapping without the playlist has). *)
Lemma get_brightcove_mapping_drops_direct_embed :
  get_brightcove_mapping banner_soup 0 false
    = Ok [("v42", direct_record 7 (VStr "Produced by Jane Roe") "acct" "main" "v42")] /\
  get_brightcove_mapping banner_soup 0 true
    = Ok [("v42", playlist_record 8 "Pendulum" "acct" "list" "v42")] /\
  assoc "author" (playlist_record 8 "Pendulum" "acct" "list" "v42") = None /\
  assoc "original_el" (playlist_record 8 "Pendulum" "acct" "list" "v42") = None.
Proof. vm_compute. repeat split. Qed.

Lemma get_brightcove_mapping_playlist_wins_witness :
  exists title account player,
    List.filter (fun e => String.eqb (fst e) "v42")
                [("v42", playlist_record 8 "Pendulum" "acct" "list" "v42")]
      = [("v42", playlist_record 8 title account player "v42")].
Proof.
  destruct (get_brightcove_mapping_playlist_wins banner_soup 0 8 7 9 "v42"
              [("v42", playlist_record 8 "Pendulum" "acct" "list" "v42")])
    as (title & account & player & H & _).
  - vm_compute. auto.
  - reflexivity.
  - reflexivity.
  - vm_compute. auto.
  - reflexivity.
  - reflexivity.
  - exists title, account, player. exact H.
Defined.

(** ** Stores *)

Lemma find_index_Some {A} (f : A -> bool) (l : list A) (i : nat) :
  find_index f l = Some i -> exists a, l !! i = Some a /\ f a = true.
Proof.
  revert i. induction l as [|a l IH]; intros i; cbn [find_index]; [discriminate|].
  destruct (f a) eqn:E.
  - intros [= <-]. exists a. split; [reflexivity | exact E].
  - destruct (find_index f l) as [j|]; cbn [option_map]; [|discriminate].
    intros [= <-]. apply (IH j eq_refl).
Qed.

Lemma find_index_None {A} (f : A -> bool) (l : list A) :
  find_index f l = None -> forall i a, l !! i = Some a -> f a = false.
Proof.
  induction l as [|b l IH]; cbn [find_index]; intros H i a Hi.
  - destruct i; discriminate.
  - destruct (f b) eqn:E; [discriminate|].
    destruct (find_index f l); [discriminate|].
    destruct i as [|i]; cbn in Hi.
    + injection Hi as <-. exact E.
    + eapply IH; eauto.
Qed.

Lemma find_index_is_None {A} (f : A -> bool) (l : list A) :
  (forall i a, l !! i = Some a -> f a = false) -> find_index f l = None.
Proof.
  induction l as [|b l IH]; cbn [find_index]; intros H; [reflexivity|].
  rewrite (H 0 b eq_refl), IH; [reflexivity|].
  intros i a Hi. apply (H (S i) a Hi).
Qed.

Lemma find_index_found {A} (f : A -> bool) (l : list A) (i : nat) (a : A) :
  l !! i = Some a -> f a = true -> exists j, find_index f l = Some j.
Proof.
  intros Hi Hf. destruct (find_index f l) as [j|] eqn:E; [eauto|].
  rewrite (find_index_None f l E i a Hi) in Hf. discriminate.
Qed.

Lemma has_child_In (x : nat) (c : cell) : has_child x c = true <-> In x (cell_contents c).
Proof.
  unfold has_child. rewrite existsb_exists. split.
  - intros (k & Hin & Hk). apply Nat.eqb_eq in Hk. subst. exact Hin.
  - intros Hin. exists x. split; [exact Hin | apply Nat.eqb_refl].
Qed.

Lemma parent_of_Some (st : soup) (x p : nat) :
  parent_of st x = Some p -> exists c, st !! p = Some c /\ In x (cell_contents c).
Proof.
  intros H. apply find_index_Some in H as (c & Hc & Hx).
  exists c. split; [exact Hc | apply has_child_In, Hx].
Qed.

Lemma parent_of_None (st : soup) (x : nat) :
  (forall j c, st !! j = Some c -> ~ In x (cell_contents c)) -> parent_of st x = None.
Proof.
  intros H. apply find_index_is_None. intros i c Hi.
  destruct (has_child x c) eqn:E; [|reflexivity].
  apply has_child_In in E. destruct (H i c Hi E).
Qed.

Lemma parent_of_found (st : soup) (x j : nat) (c : cell) :
  st !! j = Some c -> In x (cell_contents c) -> exists p, parent_of st x = Some p.
Proof. intros Hj Hx. eapply find_index_found; [exact Hj | apply has_child_In, Hx]. Qed.

Lemma index_of_In (x : nat) (kids : list nat) :
  In x kids -> kids !! index_of x kids = Some x.
Proof.
  intros Hin. unfold index_of.
  destruct (find_index (Nat.eqb x) kids) as [i|] eqn:E.
  - apply find_index_Some in E as (a & Ha & Hx). apply Nat.eqb_eq in Hx. congruence.
  - apply list_elem_of_In, list_elem_of_lookup in Hin as [i Hi].
    pose proof (find_index_None _ _ E i x Hi) as Hx. rewrite Nat.eqb_refl in Hx. discriminate.
Qed.

Lemma update_cell_length (x : nat) (f : cell -> cell) (st : soup) :
  length (update_cell x f st) = length st.
Proof. unfold update_cell. destruct (st !! x); [apply length_insert | reflexivity]. Qed.

Lemma update_cell_eq (x : nat) (f : cell -> cell) (st : soup) (c : cell) :
  st !! x = Some c -> update_cell x f st !! x = Some (f c).
Proof.
  intros H. unfold update_cell. rewrite H.
  apply list_lookup_insert_eq. eapply lookup_lt_Some, H.
Qed.

Lemma update_cell_ne (x j : nat) (f : cell -> cell) (st : soup) :
  x <> j -> update_cell x f st !! j = st !! j.
Proof.
  intros H. unfold update_cell. destruct (st !! x); [|reflexivity].
  apply list_lookup_insert_ne, H.
Qed.

Lemma update_cell_lookup (x j : nat) (f : cell -> cell) (st : soup) (c : cell) :
  update_cell x f st !! j = Some c ->
  (j = x /\ exists c0, st !! x = Some c0 /\ c = f c0) \/ (j <> x /\ st !! j = Some c).
Proof.
  destruct (Nat.eq_dec x j) as [->|Hne].
  - destruct (st !! j) as [c0|] eqn:E.
    + rewrite (update_cell_eq _ _ _ _ E). intros [= <-]. left. eauto.
    + unfold update_cell. rewrite E. congruence.
  - rewrite update_cell_ne by assumption. intros H. right. split; [congruence | exact H].
Qed.

Lemma in_take {A} (n : nat) (l : list A) (a : A) : In a (take n l) -> In a l.
Proof. intros H. rewrite <- (take_drop n l). apply in_or_app. left. exact H. Qed.

Lemma in_drop {A} (n : nat) (l : list A) (a : A) : In a (drop n l) -> In a l.
Proof. intros H. rewrite <- (take_drop n l). apply in_or_app. right. exact H. Qed.

(** What [replaceWith] does when the replacement is not yet in a tree. *)
Lemma replace_with_fresh (st : soup) (x y p : nat) (c : cell) :
  parent_of st x = Some p -> st !! p = Some c ->
  x <> y -> y <> p ->
  (forall j c', st !! j = Some c' -> ~ In y (cell_contents c')) ->
  replace_with x y st =
    (Ok tt, <[p := set_contents (<[index_of x (cell_contents c) := y]> (cell_contents c)) c]> st).
Proof.
  intros Hp Hc Hxy Hyp Hfresh. unfold replace_with. rewrite Hp.
  destruct (Nat.eqb_spec x y); [contradiction|].
  destruct (Nat.eqb_spec y p); [contradiction|].
  rewrite Hc.
  pose proof (parent_of_Some _ _ _ Hp) as (c0 & Hc0 & Hin).
  assert (c0 = c) by congruence. subst c0.
  pose proof (index_of_In _ _ Hin) as Hi.
  set (kids := cell_contents c) in *. set (i := index_of x kids) in *.
  assert (Hlt : i < length kids) by (eapply lookup_lt_Some, Hi).
  assert (Hex : extract x st
                = <[p := set_contents (take i kids ++ drop (S i) kids) c]> st).
  { unfold extract, update_cell. rewrite Hp, Hc. reflexivity. }
  rewrite Hex.
  set (c1 := set_contents (take i kids ++ drop (S i) kids) c).
  assert (Hc1 : cell_contents c1 = take i kids ++ drop (S i) kids \/ cell_contents c1 = []).
  { unfold c1. destruct c; cbn; auto. }
  assert (Hnone : parent_of (<[p := c1]> st) y = None).
  { apply parent_of_None. intros j c' Hj Hy.
    destruct (Nat.eq_dec p j) as [->|Hne].
    - rewrite list_lookup_insert_eq in Hj by (eapply lookup_lt_Some, Hc).
      injection Hj as <-. apply (Hfresh _ _ Hc). fold kids.
      destruct Hc1 as [E|E]; rewrite E in Hy; [|destruct Hy].
      apply in_app_or in Hy as [Hy|Hy].
      + eapply in_take, Hy.
      + eapply in_drop, Hy.
    - rewrite list_lookup_insert_ne in Hj by assumption. apply (Hfresh _ _ Hj Hy). }
  rewrite Hnone. unfold extract at 1. rewrite Hnone.
  unfold insert_child, update_cell.
  rewrite list_lookup_insert_eq by (eapply lookup_lt_Some, Hc).
  rewrite list_insert_insert_eq. f_equal. f_equal.
  unfold c1. destruct c as [s|nm a ks]; cbn [set_contents cell_contents] in *.
  - destruct Hin.
  - f_equal. fold kids.
    rewrite take_app_length' by (rewrite length_take; lia).
    rewrite drop_app_length' by (rewrite length_take; lia).
    symmetry. apply insert_take_drop. exact Hlt.
Qed.

(** ** Stores laid out in document order *)

Lemma ordered_from_spec (i : nat) (cells : soup) (n : nat) :
  ordered_from i cells n = true ->
  forall j c k, cells !! j = Some c -> In k (cell_contents c) -> i + j < k < n.
Proof.
  revert i. induction cells as [|c0 cells IH]; intros i H j c k Hj Hk.
  - destruct j; discriminate.
  - cbn [ordered_from] in H. apply andb_true_iff in H as [H0 Hrest].
    destruct j as [|j]; cbn in Hj.
    + injection Hj as <-. rewrite forallb_forall in H0.
      specialize (H0 k Hk). apply andb_true_iff in H0 as [H1 H2].
      apply Nat.ltb_lt in H1, H2. lia.
    + specialize (IH (S i) Hrest j c k Hj Hk). lia.
Qed.

Lemma ordered_Ordered (st : soup) : ordered st = true -> Ordered st.
Proof. intros H j c k Hj Hk. apply (ordered_from_spec 0 st (length st) H j c k Hj Hk). Qed.

Lemma agree_above_le (x y : nat) (st st' : soup) :
  x <= y -> agree_above x st st' -> agree_above y st st'.
Proof. intros Hxy [Hlen H]. split; [exact Hlen|]. intros j Hj. apply H. lia. Qed.

Lemma agree_above_refl (x : nat) (st : soup) : agree_above x st st.
Proof. split; auto. Qed.

Lemma agree_above_app (x : nat) (st st' : soup) (new : soup) :
  agree_above x st st' -> agree_above x st (st' ++ new).
Proof.
  intros [Hlen H]. split; [rewrite length_app; lia|].
  intros j Hj Hlt. rewrite lookup_app_l by lia. apply H; assumption.
Qed.

Lemma flat_map_ext_in {A B} (f g : A -> list B) (l : list A) :
  (forall a, In a l -> f a = g a) -> flat_map f l = flat_map g l.
Proof.
  induction l as [|a l IH]; intros H; cbn [flat_map]; [reflexivity|].
  rewrite (H a) by (left; reflexivity).
  rewrite IH; [reflexivity|]. intros b Hb. apply H. right. exact Hb.
Qed.

(** On an ordered store, what lies below [x] only depends on the cells
    from [x] on, and the walk needs no more fuel than there are such
    cells. *)
Lemma text_frame (st st' : soup) :
  Ordered st -> forall f f' x,
  agree_above x st st' -> x < length st ->
  length st - x <= f -> length st - x <= f' ->
  text_of f' st' x = text_of f st x.
Proof.
  intros Hord. induction f as [|f IH]; intros f' x Hag Hx Hf Hf'; [lia|].
  destruct f' as [|f']; [lia|]. cbn [text_of].
  destruct Hag as [Hlen Hag']. rewrite (Hag' x) by lia.
  destruct (st !! x) as [[s|n a kids]|] eqn:E; try reflexivity.
  f_equal. apply map_ext_in. intros k Hk.
  destruct (Hord x _ k E Hk) as [H1 H2].
  apply IH; try lia. apply (agree_above_le x); [lia | split; assumption].
Qed.

Lemma descendants_frame (st st' : soup) :
  Ordered st -> forall f f' x,
  agree_above x st st' -> x < length st ->
  length st - x <= f -> length st - x <= f' ->
  descendants f' st' x = descendants f st x.
Proof.
  intros Hord. induction f as [|f IH]; intros f' x Hag Hx Hf Hf'; [lia|].
  destruct f' as [|f']; [lia|]. cbn [descendants].
  destruct Hag as [Hlen Hag']. rewrite (Hag' x) by lia.
  destruct (st !! x) as [[s|n a kids]|] eqn:E; try reflexivity.
  apply flat_map_ext_in. intros k Hk.
  destruct (Hord x _ k E Hk) as [H1 H2]. f_equal.
  apply IH; try lia. apply (agree_above_le x); [lia | split; assumption].
Qed.

Lemma descendants_range (st : soup) :
  Ordered st -> forall f x y, In y (descendants f st x) -> x < y < length st.
Proof.
  intros Hord. induction f as [|f IH]; intros x y; cbn [descendants]; [intros []|].
  destruct (st !! x) as [[s|n a kids]|] eqn:E; try (intros []).
  rewrite in_flat_map. intros (k & Hk & [<-|Hy]).
  - apply (Hord x _ k E Hk).
  - destruct (Hord x _ k E Hk). specialize (IH k y Hy). lia.
Qed.

(** Anything found below an element is the child of some cell. *)
Lemma descendants_child (st : soup) :
  forall f x y, In y (descendants f st x) ->
  exists j c, st !! j = Some c /\ In y (cell_contents c).
Proof.
  induction f as [|f IH]; intros x y; cbn [descendants]; [intros []|].
  destruct (st !! x) as [[s|n a kids]|] eqn:E; try (intros []).
  rewrite in_flat_map. intros (k & Hk & [<-|Hy]).
  - exists x, (Element n a kids). split; [exact E | exact Hk].
  - apply (IH k y Hy).
Qed.

Lemma text_agree (st st' : soup) (x : nat) :
  Ordered st -> agree_above x st st' -> x < length st -> text st' x = text st x.
Proof.
  intros Hord Hag Hx. unfold text. destruct Hag as [Hlen Hag].
  apply text_frame; try lia; [exact Hord | split; assumption].
Qed.

Lemma find_all_agree (st st' : soup) (x : nat) (name : string) (filt : list (string * string)) :
  Ordered st -> agree_above x st st' -> x < length st ->
  find_all st' x name filt = find_all st x name filt.
Proof.
  intros Hord Hag Hx. unfold find_all.
  rewrite (descendants_frame st st' Hord (length st) (length st') x Hag Hx)
    by (destruct Hag; lia).
  apply filter_ext_in. intros y Hy.
  destruct (descendants_range st Hord _ _ _ Hy) as [H1 H2].
  unfold cell_matches. destruct Hag as [_ Hag]. rewrite Hag by lia. reflexivity.
Qed.

Lemma find_agree (st st' : soup) (x : nat) (name : string) (filt : list (string * string)) :
  Ordered st -> agree_above x st st' -> x < length st ->
  find st' x name filt = find st x name filt.
Proof. intros Hord Hag Hx. unfold find. rewrite (find_all_agree st st'); auto. Qed.

Lemma find_all_range (st : soup) (x y : nat) (name : string) (filt : list (string * string)) :
  Ordered st -> In y (find_all st x name filt) -> x < y < length st.
Proof.
  intros Hord Hy. apply filter_In in Hy as [Hy _].
  eapply descendants_range; eauto.
Qed.

Lemma find_all_child (st : soup) (x y : nat) (name : string) (filt : list (string * string)) :
  In y (find_all st x name filt) ->
  exists j c, st !! j = Some c /\ In y (cell_contents c).
Proof. intros Hy. apply filter_In in Hy as [Hy _]. eapply descendants_child; eauto. Qed.

Lemma increasing_cons (a : nat) (l : list nat) :
  increasing (a :: l) = true -> increasing l = true /\ forall b, In b l -> a < b.
Proof.
  revert a. induction l as [|b l IH]; intros a H.
  - split; [reflexivity | intros ? []].
  - cbn [increasing] in H. apply andb_true_iff in H as [Hab Hrest].
    apply Nat.ltb_lt in Hab. split; [exact Hrest|].
    intros b' [<-|Hb']; [exact Hab|].
    destruct (IH b Hrest) as [_ Hall]. specialize (Hall b' Hb'). lia.
Qed.

(** ** Stores without dangling children *)

Lemma closed_spec (st : soup) :
  closed st = true ->
  forall j c k, st !! j = Some c -> In k (cell_contents c) -> k < length st.
Proof.
  unfold closed. rewrite forallb_forall. intros H j c k Hj Hk.
  assert (Hc : In c st) by (apply list_elem_of_In, list_elem_of_lookup; eauto).
  specialize (H c Hc). rewrite forallb_forall in H.
  apply Nat.ltb_lt, H, Hk.
Qed.

(** When the walk below [x] ends within the fuel, more fuel and more cells
    change nothing. *)
Lemma covers_text (st : soup) (new : soup) :
  forall f f' x, covers f st x = true -> f <= f' ->
  text_of f' (st ++ new) x = text_of f st x.
Proof.
  induction f as [|f IH]; intros f' x Hcov Hle; [discriminate|].
  destruct f' as [|f']; [lia|]. cbn [covers text_of] in *.
  destruct (st !! x) as [[s|n a kids]|] eqn:E; [| |discriminate].
  - rewrite lookup_app_l by (eapply lookup_lt_Some, E). rewrite E. reflexivity.
  - rewrite lookup_app_l by (eapply lookup_lt_Some, E). rewrite E.
    f_equal. apply map_ext_in. intros k Hk.
    rewrite forallb_forall in Hcov. apply IH; [apply Hcov, Hk | lia].
Qed.

Lemma covers_text_app (st new : soup) (x : nat) :
  covers (length st) st x = true -> text (st ++ new) x = text st x.
Proof.
  intros H. unfold text. apply covers_text; [exact H|]. rewrite length_app. lia.
Qed.

(** *** Parsing adds cells and keeps the ones there are *)

Lemma tree_induction (P : tree -> Prop) :
  (forall s, P (Text s)) ->
  (forall n a kids, List.Forall P kids -> P (Tag n a kids)) ->
  forall t, P t.
Proof.
  intros HT HG. fix IH 1. intros [s|n a kids]; [apply HT|].
  apply HG. induction kids as [|k kids IHk]; constructor; [apply IH | exact IHk].
Qed.

Lemma alloc_list_prefix (kids : list tree) :
  List.Forall (fun t => forall st, exists new, fst (alloc t st) = st ++ new /\
                                              snd (alloc t st) = length st) kids ->
  forall st, exists new, fst (alloc_list alloc kids st) = st ++ new.
Proof.
  induction 1 as [|t kids Ht _ IH]; intros st; cbn [alloc_list].
  - exists []. rewrite app_nil_r. reflexivity.
  - destruct (Ht st) as (new1 & E1 & _).
    destruct (alloc t st) as [st1 i]. cbn [fst] in E1. subst st1.
    destruct (IH (st ++ new1)) as (new2 & E2).
    destruct (alloc_list alloc kids (st ++ new1)) as [st2 js]. cbn [fst] in *. subst st2.
    exists (new1 ++ new2). rewrite app_assoc. reflexivity.
Qed.

Lemma insert_app_new {A} (l : list A) (c x : A) (rest : list A) :
  <[length l := x]> (l ++ c :: rest) = l ++ x :: rest.
Proof.
  replace (length l) with (length l + 0) by lia. rewrite insert_app_r. reflexivity.
Qed.

Lemma alloc_prefix (t : tree) (st : soup) :
  exists new, fst (alloc t st) = st ++ new /\ snd (alloc t st) = length st.
Proof.
  revert st. induction t as [s|n a kids IH] using tree_induction; intros st; cbn [alloc].
  - eexists. split; reflexivity.
  - destruct (alloc_list_prefix kids IH (st ++ [Element n a []])) as (new & E).
    destruct (alloc_list alloc kids (st ++ [Element n a []])) as [st' ids].
    cbn [fst snd] in *. subst st'. rewrite <- app_assoc. cbn [app].
    rewrite insert_app_new. eexists. split; reflexivity.
Qed.

Lemma BeautifulSoup_prefix (t : tree) (st : soup) :
  exists new, BeautifulSoup t st = (Ok (length st), st ++ new).
Proof.
  unfold BeautifulSoup. destruct (alloc_prefix t st) as (new & E1 & E2).
  destruct (alloc t st) as [st' root]. cbn [fst snd] in *. subst. eauto.
Qed.

(** ** What the parser lays out *)

Lemma descendants_enclosed (st st' : soup) (lo hi : nat) :
  enclosed st lo hi ->
  (forall j, lo <= j -> j < hi -> st' !! j = st !! j) ->
  forall f x, lo <= x -> x < hi -> descendants f st' x = descendants f st x.
Proof.
  intros Henc Hag. induction f as [|f IH]; intros x Hlo Hhi; [reflexivity|].
  cbn [descendants]. rewrite Hag by assumption.
  destruct (st !! x) as [[s|n a kids]|] eqn:E; try reflexivity.
  apply flat_map_ext_in. intros k Hk.
  destruct (Henc x _ k Hlo E Hk). f_equal. apply IH; lia.
Qed.

Lemma seq_app_cons (a n m : nat) : seq a (S n) ++ seq (a + S n) m = a :: seq (S a) (n + m).
Proof. rewrite <- seq_app. reflexivity. Qed.

(** The layout of a list of trees, given the layout of each. *)
Lemma alloc_list_layout (kids : list tree) :
  List.Forall
    (fun t => forall st,
       length (fst (alloc t st)) = length st + size t /\
       enclosed (fst (alloc t st)) (length st) (length st + size t) /\
       (forall f, size t <= f ->
          descendants f (fst (alloc t st)) (length st) = seq (S (length st)) (size t - 1)) /\
       (forall x, length st <= x -> x < length st + size t ->
          exists m, x + m < length st + size t /\
            forall f, length st + size t - x <= f ->
              descendants f (fst (alloc t st)) x = seq (S x) m)) kids ->
  forall st,
    length (fst (alloc_list alloc kids st)) = length st + list_sum (map size kids) /\
    enclosed (fst (alloc_list alloc kids st)) (length st)
             (length st + list_sum (map size kids)) /\
    (forall f, list_sum (map size kids) <= f ->
       flat_map (fun k => k :: descendants f (fst (alloc_list alloc kids st)) k)
                (snd (alloc_list alloc kids st))
       = seq (length st) (list_sum (map size kids))) /\
    (forall x, length st <= x -> x < length st + list_sum (map size kids) ->
       exists m, x + m < length st + list_sum (map size kids) /\
         forall f, length st + list_sum (map size kids) - x <= f ->
           descendants f (fst (alloc_list alloc kids st)) x = seq (S x) m).
Proof.
  induction 1 as [|t kids Ht Hkids IH]; intros st; cbn [alloc_list map].
  - cbn [fst snd flat_map]. change (list_sum []) with 0. rewrite Nat.add_0_r.
    split; [reflexivity|]. split; [|split].
    + intros x c k Hx Hc. apply lookup_lt_Some in Hc. lia.
    + intros f _. reflexivity.
    + intros x Hx1 Hx2. lia.
  - change (list_sum (size t :: map size kids)) with (size t + list_sum (map size kids)).
    destruct (Ht st) as (L1 & E1 & D1 & A1).
    destruct (alloc_prefix t st) as (new1 & P1 & R1).
    destruct (alloc t st) as [st1 i]. cbn [fst snd] in *. subst i.
    destruct (IH st1) as (L2 & E2 & D2 & A2).
    destruct (alloc_list_prefix kids) with (st := st1) as (new2 & P2).
    { clear. induction kids; constructor; auto. intros st. apply alloc_prefix. }
    destruct (alloc_list alloc kids st1) as [st2 js]. cbn [fst snd] in *.
    assert (Hag : forall j, j < length st1 -> st2 !! j = st1 !! j).
    { intros j Hj. rewrite P2. apply lookup_app_l, Hj. }
    assert (Hsz : 1 <= size t) by (destruct t; cbn; lia).
    assert (Hdesc : forall f x, length st <= x -> x < length st + size t ->
                      descendants f st2 x = descendants f st1 x).
    { intros f x Hx1 Hx2.
      apply (descendants_enclosed st1 st2 (length st) (length st + size t)); auto.
      intros j Hj1 Hj2. apply Hag. lia. }
    split; [lia|]. split; [|split].
    + intros x c k Hx Hc Hk.
      destruct (Nat.lt_ge_cases x (length st1)) as [Hlt|Hge].
      * rewrite Hag in Hc by assumption. destruct (E1 x c k Hx Hc Hk). lia.
      * destruct (E2 x c k Hge Hc Hk). lia.
    + intros f Hf. cbn [flat_map].
      rewrite Hdesc by lia. rewrite D1 by lia. rewrite D2 by lia.
      rewrite L1. replace (size t) with (S (size t - 1)) at 2 3 by lia.
      rewrite (seq_app (S (size t - 1)) (list_sum (map size kids)) (length st)).
      cbn [seq app]. replace (length st + S (size t - 1)) with (length st + size t) by lia.
      reflexivity.
    + intros x Hx1 Hx2.
      destruct (Nat.lt_ge_cases x (length st1)) as [Hlt|Hge].
      * destruct (A1 x Hx1 ltac:(lia)) as (m & Hm & Hd).
        exists m. split; [lia|]. intros f Hf.
        rewrite Hdesc by lia. apply Hd. lia.
      * destruct (A2 x Hge ltac:(lia)) as (m & Hm & Hd).
        exists m. split; [lia|]. intros f Hf. apply Hd. lia.
Qed.

(** The layout of a parsed tree: its cells follow the cells there were,
    and below each of them lie the cells that come next, in order. *)
Lemma alloc_layout (t : tree) :
  forall st,
    length (fst (alloc t st)) = length st + size t /\
    enclosed (fst (alloc t st)) (length st) (length st + size t) /\
    (forall f, size t <= f ->
       descendants f (fst (alloc t st)) (length st) = seq (S (length st)) (size t - 1)) /\
    (forall x, length st <= x -> x < length st + size t ->
       exists m, x + m < length st + size t /\
         forall f, length st + size t - x <= f ->
           descendants f (fst (alloc t st)) x = seq (S x) m).
Proof.
  induction t as [s|n a kids IH] using tree_induction; intros st.
  - cbn [alloc fst size].
    assert (Hb : (st ++ [NavigableString s]) !! length st = Some (NavigableString s))
      by (apply list_lookup_middle; reflexivity).
    split; [rewrite length_app; reflexivity|]. split; [|split].
    + intros x c k Hx Hc Hk.
      assert (x = length st).
      { apply lookup_lt_Some in Hc. rewrite length_app in Hc. cbn in Hc. lia. }
      subst x. rewrite Hb in Hc. injection Hc as <-. destruct Hk.
    + intros [|f] Hf; [lia|]. cbn [descendants]. rewrite Hb. reflexivity.
    + intros x Hx1 Hx2. assert (x = length st) by lia. subst x.
      exists 0. split; [lia|]. intros [|f] Hf; [lia|]. cbn [descendants]. rewrite Hb.
      reflexivity.
  - cbn [alloc size].
    destruct (alloc_list_layout kids IH (st ++ [Element n a []])) as (L2 & E2 & D2 & A2).
    destruct (alloc_list_prefix kids) with (st := st ++ [Element n a []]) as (new2 & P2).
    { clear. induction kids; constructor; auto. intros st. apply alloc_prefix. }
    destruct (alloc_list alloc kids (st ++ [Element n a []])) as [st2 ids].
    cbn [fst snd] in *. rewrite length_app in L2, E2, D2, A2. cbn [length] in L2, E2, D2, A2.
    set (total := list_sum (map size kids)) in *.
    set (st' := <[length st := Element n a ids]> st2).
    assert (Hlen : length st' = length st + S total)
      by (unfold st'; rewrite length_insert; lia).
    assert (Hroot : st' !! length st = Some (Element n a ids))
      by (unfold st'; apply list_lookup_insert_eq; lia).
    assert (Hother : forall j, length st + 1 <= j -> st' !! j = st2 !! j)
      by (intros j Hj; unfold st'; apply list_lookup_insert_ne; lia).
    assert (Hids : forall k, In k ids -> length st + 1 <= k < length st + 1 + total).
    { intros k Hk. specialize (D2 total (le_n _)).
      assert (Hin : In k (seq (length st + 1) total)).
      { rewrite <- D2. apply in_flat_map. exists k. split; [exact Hk | left; reflexivity]. }
      apply in_seq in Hin. lia. }
    assert (Hdesc : forall f x, length st + 1 <= x -> x < length st + 1 + total ->
                      descendants f st' x = descendants f st2 x).
    { intros f x Hx1 Hx2.
      apply (descendants_enclosed st2 st' (length st + 1) (length st + 1 + total)); auto. }
    assert (Hrootd : forall f, total <= f ->
                       descendants (S f) st' (length st) = seq (S (length st)) total).
    { intros f Hf. cbn [descendants]. rewrite Hroot.
      rewrite (flat_map_ext_in _ (fun k => k :: descendants f st2 k)).
      - rewrite D2 by assumption. f_equal. lia.
      - intros k Hk. f_equal. destruct (Hids k Hk). apply Hdesc; lia. }
    split; [exact Hlen|]. split; [|split].
    + intros x c k Hx Hc Hk.
      destruct (Nat.eq_dec x (length st)) as [->|Hne].
      * rewrite Hroot in Hc. injection Hc as <-. cbn in Hk.
        destruct (Hids k Hk). lia.
      * rewrite Hother in Hc by lia. destruct (E2 x c k ltac:(lia) Hc Hk). lia.
    + intros [|f] Hf; [lia|]. rewrite Hrootd by lia. f_equal. lia.
    + intros x Hx1 Hx2.
      destruct (Nat.eq_dec x (length st)) as [->|Hne].
      * exists total. split; [lia|]. intros [|f] Hf; [lia|]. apply Hrootd. lia.
      * destruct (A2 x ltac:(lia) ltac:(lia)) as (m & Hm & Hd).
        exists m. split; [lia|]. intros f Hf. rewrite Hdesc by lia. apply Hd. lia.
Qed.

(** A parsed page keeps a store ordered. *)
Lemma alloc_Ordered (t : tree) (st : soup) : Ordered st -> Ordered (fst (alloc t st)).
Proof.
  intros Hord j c k Hj Hk.
  destruct (alloc_layout t st) as (L & E & _ & _).
  destruct (alloc_prefix t st) as (new & P & _).
  destruct (Nat.lt_ge_cases j (length st)) as [Hlt|Hge].
  - rewrite P, lookup_app_l in Hj by assumption.
    destruct (Hord j c k Hj Hk). lia.
  - destruct (E j c k Hge Hj Hk). lia.
Qed.

Lemma increasing_seq_filter (p : nat -> bool) (a n : nat) :
  increasing (List.filter p (seq a n)) = true /\
  forall b, In b (List.filter p (seq a n)) -> a <= b.
Proof.
  revert a. induction n as [|n IH]; intros a; cbn [seq List.filter].
  - split; [reflexivity | intros b []].
  - destruct (IH (S a)) as [Hinc Hge]. destruct (p a).
    + split.
      * destruct (List.filter p (seq (S a) n)) as [|b l] eqn:E; [reflexivity|].
        change (increasing (a :: b :: l)) with (Nat.ltb a b && increasing (b :: l)).
        rewrite Hinc.
        assert (S a <= b) by (apply Hge; left; reflexivity).
        apply andb_true_iff. split; [apply Nat.ltb_lt; lia | reflexivity].
      * intros b [<-|Hb]; [lia|]. specialize (Hge b Hb). lia.
    + split; [exact Hinc|]. intros b Hb. specialize (Hge b Hb). lia.
Qed.

(** In a page that has just been parsed, what [find_all] returns below
    any of its elements is in increasing order. *)
Lemma find_all_parsed_increasing (t : tree) (st : soup) (x : nat)
      (name : string) (filt : list (string * string)) :
  length st <= x -> x < length st + size t ->
  increasing (find_all (fst (alloc t st)) x name filt) = true.
Proof.
  intros Hx1 Hx2. destruct (alloc_layout t st) as (L & _ & _ & A).
  destruct (A x Hx1 Hx2) as (m & _ & Hd).
  unfold find_all. rewrite Hd by lia. apply increasing_seq_filter.
Qed.

Lemma ordered_empty : Ordered [].
Proof. intros j c k Hj. destruct j; discriminate. Qed.

Lemma find_all_parsed_NoDup (t : tree) (st : soup) (x : nat)
      (name : string) (filt : list (string * string)) :
  length st <= x -> x < length st + size t ->
  List.NoDup (find_all (fst (alloc t st)) x name filt).
Proof.
  intros Hx1 Hx2. destruct (alloc_layout t st) as (L & _ & _ & A).
  destruct (A x Hx1 Hx2) as (m & _ & Hd).
  unfold find_all. rewrite Hd by lia. apply List.NoDup_filter, List.seq_NoDup.
Qed.

(** ** Keywords *)

Lemma find_index_app_l {A} (f : A -> bool) (l l' : list A) (i : nat) :
  find_index f l = Some i -> find_index f (l ++ l') = Some i.
Proof.
  revert i. induction l as [|a l IH]; intros i; cbn [find_index app]; [discriminate|].
  destruct (f a); [auto|].
  destruct (find_index f l) as [j|]; cbn [option_map]; [|discriminate].
  intros [= <-]. rewrite (IH j eq_refl). reflexivity.
Qed.

Lemma update_cell_app_new (st : soup) (c : cell) (rest : soup) (f : cell -> cell) :
  update_cell (length st) f (st ++ c :: rest) = st ++ f c :: rest.
Proof.
  unfold update_cell. rewrite list_lookup_middle by reflexivity.
  replace (length st) with (length st + 0) at 1 by lia.
  rewrite insert_app_r. reflexivity.
Qed.

(** One round of the loop of [scrape_keywords] on an ordered store. *)
Lemma replace_keyword_step (st : soup) (tags : list string) (a p : nat) (c : cell) :
  Ordered st -> parent_of st a = Some p -> st !! p = Some c ->
  replace_keyword tags a st =
    (Ok (tags ++ [Py.take 30 (text st a)]),
     <[p := set_contents (<[index_of a (cell_contents c) := length st]> (cell_contents c)) c]>
       (st ++ [Element "span" [("class", Some "underline")] [S (length st)];
               NavigableString (text st a)])).
Proof.
  intros Hord Hp Hc.
  pose proof (parent_of_Some _ _ _ Hp) as (c0 & Hc0 & Hin).
  assert (c0 = c) by congruence. subst c0.
  destruct (Hord p c a Hc Hin) as [Hpa Ha].
  assert (Htext : forall new, text (st ++ new) a = text st a).
  { intros new. apply text_agree; auto. apply agree_above_app, agree_above_refl. }
  cbv [replace_keyword bind new_tag gets set_string set_item modify ret].
  rewrite (Htext [Element "span" [] []]).
  rewrite <- app_assoc. cbn [app].
  rewrite update_cell_app_new. cbn [set_contents].
  rewrite update_cell_app_new. cbn [set_attrs cell_attrs assoc_set].
  rewrite length_app. cbn [length]. replace (length st + 1) with (S (length st)) by lia.
  rewrite Htext.
  rewrite (replace_with_fresh _ a (length st) p c).
  - reflexivity.
  - apply find_index_app_l, Hp.
  - rewrite lookup_app_l by (eapply lookup_lt_Some, Hc). exact Hc.
  - lia.
  - apply lookup_lt_Some in Hc. lia.
  - intros j c' Hj Hy.
    destruct (Nat.lt_ge_cases j (length st)) as [Hlt|Hge].
    + rewrite lookup_app_l in Hj by assumption.
      destruct (Hord j c' _ Hj Hy). lia.
    + rewrite lookup_app_r in Hj by assumption.
      destruct (j - length st) as [|[|k]] eqn:E; cbn in Hj.
      * injection Hj as <-. cbn in Hy. lia.
      * injection Hj as <-. destruct Hy.
      * discriminate.
Qed.

Lemma in_insert {A} (i : nat) (x k : A) (l : list A) :
  In k (<[i := x]> l) -> k = x \/ In k l.
Proof.
  revert i. induction l as [|a l IH]; intros i; [intros []|].
  destruct i as [|i]; cbn.
  - intros [<-|H]; auto.
  - intros [<-|H]; auto. destruct (IH i H); auto.
Qed.

Lemma in_insert_other {A} (i : nat) (x a b : A) (l : list A) :
  In b l -> l !! i = Some a -> b <> a -> In b (<[i := x]> l).
Proof.
  revert i. induction l as [|a0 l IH]; intros i; [intros []|].
  destruct i as [|i]; cbn.
  - intros [<-|H] [= <-] Hne; [contradiction | auto].
  - intros [<-|H] Hi Hne; [auto|]. right. eapply IH; eauto.
Qed.

Lemma cell_contents_set_contents (l : list nat) (c : cell) (x : nat) :
  In x (cell_contents c) -> cell_contents (set_contents l c) = l.
Proof. destruct c; cbn; [intros [] | reflexivity]. Qed.

Lemma cell_contents_set_contents_sub (l : list nat) (c : cell) (k : nat) :
  In k (cell_contents (set_contents l c)) -> In k l.
Proof. destruct c; cbn; [intros [] | auto]. Qed.

(** The store one round of the loop leaves is ordered again. *)
Lemma replace_keyword_Ordered (st : soup) (a p : nat) (c : cell) (attrs : list (string * option string)) (s : string) :
  Ordered st -> st !! p = Some c -> In a (cell_contents c) ->
  Ordered (<[p := set_contents (<[index_of a (cell_contents c) := length st]> (cell_contents c)) c]>
             (st ++ [Element "span" attrs [S (length st)]; NavigableString s])).
Proof.
  intros Hord Hc Hin j c' k Hj Hk.
  rewrite length_insert, length_app. cbn [length].
  pose proof (lookup_lt_Some _ _ _ Hc) as Hp.
  destruct (Nat.eq_dec p j) as [->|Hne].
  - rewrite list_lookup_insert_eq in Hj by (rewrite length_app; lia).
    injection Hj as <-. apply cell_contents_set_contents_sub in Hk.
    apply in_insert in Hk as [->|Hk]; [lia|].
    destruct (Hord j c k Hc Hk). lia.
  - rewrite list_lookup_insert_ne in Hj by assumption.
    destruct (Nat.lt_ge_cases j (length st)) as [Hlt|Hge].
    + rewrite lookup_app_l in Hj by assumption. destruct (Hord j c' k Hj Hk). lia.
    + rewrite lookup_app_r in Hj by assumption.
      destruct (j - length st) as [|[|m]] eqn:E; cbn in Hj.
      * injection Hj as <-. cbn in Hk. lia.
      * injection Hj as <-. destruct Hk.
      * discriminate.
Qed.

Lemma take_length (n : nat) (s : string) : String.length (Py.take n s) <= n.
Proof.
  revert s. induction n as [|n IH]; intros s; [cbn; lia|].
  destruct s as [|c s]; cbn [Py.take String.length]; [lia|]. specialize (IH s). lia.
Qed.

(** The loop of [scrape_keywords], started on a store [st] that still has
    the cells of the page [st0] from the first link on: the tags are cut
    from the texts the links have in the page. *)
Lemma keywords_loop (st0 : soup) :
  Ordered st0 ->
  forall anchors st tags,
    increasing anchors = true ->
    Ordered st ->
    (forall a, In a anchors ->
       a < length st0 /\ agree_above a st0 st /\
       exists j c, st !! j = Some c /\ In a (cell_contents c)) ->
    fst (for_fold anchors tags replace_keyword st)
      = Ok (tags ++ map (fun a => Py.take 30 (text st0 a)) anchors).
Proof.
  intros Hord0. induction anchors as [|a rest IH]; intros st tags Hinc Hord Hall.
  - cbn. rewrite app_nil_r. reflexivity.
  - destruct (Hall a (or_introl eq_refl)) as (Ha0 & Hag & j & cj & Hj & Hin).
    destruct (parent_of_found _ _ _ _ Hj Hin) as [p Hp].
    destruct (parent_of_Some _ _ _ Hp) as (c & Hc & Hinc').
    destruct (Hord p c a Hc Hinc') as [Hpa Ha].
    apply increasing_cons in Hinc as [Hinc Hlater].
    cbn [for_fold]. unfold bind at 1.
    rewrite (replace_keyword_step st tags a p c Hord Hp Hc).
    rewrite (text_agree st0 st a Hord0 Hag Ha0).
    rewrite IH.
    + rewrite <- app_assoc. reflexivity.
    + exact Hinc.
    + apply replace_keyword_Ordered; assumption.
    + intros b Hb. specialize (Hlater b Hb).
      destruct (Hall b (or_intror Hb)) as (Hb0 & [Hlen Hagb] & q & cq & Hq & Hinq).
      split; [exact Hb0|]. split.
      * split; [rewrite length_insert, length_app; lia|].
        intros i Hi Hi0. rewrite list_lookup_insert_ne by lia.
        rewrite lookup_app_l by lia. apply Hagb; assumption.
      * destruct (Nat.eq_dec q p) as [->|Hne].
        -- assert (cq = c) by congruence. subst cq.
           eexists p, _. split.
           ++ apply list_lookup_insert_eq. rewrite length_app.
              apply lookup_lt_Some in Hc. lia.
           ++ rewrite (cell_contents_set_contents _ _ _ Hinq).
              apply (in_insert_other _ _ a); [exact Hinq | | lia].
              apply index_of_In, Hinc'.
        -- exists q, cq. split; [|exact Hinq].
           rewrite list_lookup_insert_ne by congruence.
           rewrite lookup_app_l by (eapply lookup_lt_Some, Hq). exact Hq.
Qed.

Lemma alloc_soup_div (st : soup) :
  alloc (Tag "[document]" [] [Tag "div" [] []]) st
  = (st ++ [Element "[document]" [] [S (length st)]; Element "div" [] []], length st).
Proof.
  cbn [alloc alloc_list].
  set (st1 := st ++ [Element "[document]" [] []]).
  assert (E1 : <[length st1 := Element "div" [] []]> (st1 ++ [Element "div" [] []])
               = st1 ++ [Element "div" [] []])
    by (apply list_insert_id, list_lookup_middle; reflexivity).
  rewrite E1. unfold st1. rewrite <- app_assoc. cbn [app].
  replace (length st) with (length st + 0) at 1 by lia.
  rewrite insert_app_r. cbn [insert list_insert]. rewrite length_app. cbn [length].
  replace (length st + 1) with (S (length st)) by lia. reflexivity.
Qed.

Lemma scrape_keywords_unfold (st : soup) (c : nat) (el : string) :
  let st1 := st ++ [Element "[document]" [] [S (length st)]; Element "div" [] []] in
  scrape_keywords (Some c) el st =
    match find st1 c "div" [("class", el)] with
    | None => (Ok [], st1)
    | Some section => for_fold (find_all st1 section "a" []) [] replace_keyword st1
    end.
Proof.
  cbv [scrape_keywords bind BeautifulSoup unwrap ret gets]. rewrite alloc_soup_div.
  destruct (find _ c "div" [("class", el)]); reflexivity.
Qed.

(** C10: on a page as the parser lays it out (children after their
    parent, the links of the section in increasing order), the tags are
    the texts of the links of the keyword section, in page order, each cut
    to its first 30 characters; without the section there are no tags. *)
Theorem scrape_keywords_tags (st : soup) (contents : nat) (el : string) :
  Ordered st -> contents < length st ->
  (find st contents "div" [("class", el)] = None ->
   fst (scrape_keywords (Some contents) el st) = Ok []) /\
  (forall section,
     find st contents "div" [("class", el)] = Some section ->
     increasing (find_all st section "a" []) = true ->
     fst (scrape_keywords (Some contents) el st)
       = Ok (map (fun a => Py.take 30 (text st a)) (find_all st section "a" [])) /\
     Forall (fun tag => String.length tag <= 30)
       (map (fun a => Py.take 30 (text st a)) (find_all st section "a" []))).
Proof.
  intros Hord Hc.
  pose proof (scrape_keywords_unfold st contents el) as Hun. cbv zeta in Hun.
  set (st1 := st ++ [Element "[document]" [] [S (length st)]; Element "div" [] []]) in *.
  assert (Hag : forall x, agree_above x st st1)
    by (intros x; apply agree_above_app, agree_above_refl).
  rewrite (find_agree st st1 contents _ _ Hord (Hag _) Hc) in Hun.
  split.
  - intros Hnone. rewrite Hun, Hnone. reflexivity.
  - intros section Hsec Hinc. rewrite Hun, Hsec.
    assert (Hs : contents < section < length st).
    { apply (find_all_range st contents section "div" [("class", el)] Hord).
      unfold find in Hsec. destruct (find_all st contents "div" [("class", el)]);
        [discriminate|]. injection Hsec as ->. left. reflexivity. }
    rewrite (find_all_agree st st1 section _ _ Hord (Hag _)) by lia.
    split.
    + apply (keywords_loop st Hord _ st1 []); [exact Hinc | |].
      * intros j c k Hj Hk. unfold st1 in *. rewrite length_app. cbn [length].
        destruct (Nat.lt_ge_cases j (length st)) as [Hlt|Hge].
        -- rewrite lookup_app_l in Hj by assumption. destruct (Hord j c k Hj Hk). lia.
        -- rewrite lookup_app_r in Hj by assumption.
           destruct (j - length st) as [|[|m]] eqn:E; cbn in Hj.
           ++ injection Hj as <-. cbn in Hk. lia.
           ++ injection Hj as <-. destruct Hk.
           ++ discriminate.
      * intros a Ha. split; [|split].
        -- apply (find_all_range st section a "a" [] Hord Ha).
        -- apply Hag.
        -- destruct (find_all_child st section a "a" [] Ha) as (j & c & Hj & Hin).
           exists j, c. split; [|exact Hin].
           unfold st1. rewrite lookup_app_l by (eapply lookup_lt_Some, Hj). exact Hj.
    + apply Forall_forall. intros tag Htag%list_elem_of_In.
      apply in_map_iff in Htag as (a & <- & _).
      apply take_length.
Qed.

(** Without a main block, [contents] is [None] and the search raises. *)
Lemma scrape_keywords_no_contents (st : soup) (el : string) :
  fst (scrape_keywords None el st) = Raise AttributeError.
Proof.
  cbv [scrape_keywords bind BeautifulSoup unwrap raise]. rewrite alloc_soup_div. reflexivity.
Qed.

(** A page that has just been parsed meets the conditions of C10. *)
Lemma parsed_page_laid_out (t : tree) :
  Ordered (fst (alloc t [])) /\
  forall x name filt,
    x < size t -> increasing (find_all (fst (alloc t [])) x name filt) = true.
Proof.
  split.
  - apply alloc_Ordered, ordered_empty.
  - intros x name filt Hx. apply find_all_parsed_increasing; cbn [length]; lia.
Qed.

Lemma scrape_keywords_tags_witness :
  fst (scrape_keywords (Some 4) "field-name-field-activity-tags" keyword_soup)
    = Ok ["Electricity and magnetism for "; "Sound"] /\
  fst (scrape_keywords (Some 4) "field-name-field-activity-subject" keyword_soup) = Ok [].
Proof.
  destruct (parsed_page_laid_out keyword_page) as [Hord Hinc].
  destruct (scrape_keywords_tags keyword_soup 4 "field-name-field-activity-tags" Hord)
    as [_ Htags]; [vm_compute; lia|].
  destruct (scrape_keywords_tags keyword_soup 4 "field-name-field-activity-subject" Hord)
    as [Hnone _]; [vm_compute; lia|].
  split.
  - destruct (Htags 5 eq_refl) as [H _]; [apply Hinc; vm_compute; lia|].
    rewrite H. reflexivity.
  - apply Hnone. reflexivity.
Defined.

(** ** The links of a paragraph *)

Ltac world_simpl :=
  unfold set_dom, set_files, set_zipper, add_event; cbn [dom files events zipper].

Lemma get_item_eq (x : nat) (k : string) (st : soup) :
  get_item x k st = (item st x k, st).
Proof.
  unfold item, get_item. destruct (st !! x) as [c|]; [|reflexivity].
  destruct (assoc k (cell_attrs c)) as [[v|]|]; reflexivity.
Qed.

(** The bold element that takes the place of a link. *)
Lemma bold_step (st : soup) (link p : nat) (c : cell) :
  closed st = true -> covers (length st) st link = true ->
  parent_of st link = Some p -> st !! p = Some c ->
  (bold_tag <- new_tag "b" ;;
   shown <- gets (fun st => text st link) ;;
   set_string bold_tag shown >>
   replace_with link bold_tag) st
  = (Ok tt,
     <[p := set_contents (<[index_of link (cell_contents c) := length st]> (cell_contents c)) c]>
       (st ++ [Element "b" [] [S (length st)]; NavigableString (text st link)])).
Proof.
  intros Hclosed Hcov Hp Hc.
  pose proof (closed_spec _ Hclosed) as Hcl.
  pose proof (parent_of_Some _ _ _ Hp) as (c0 & Hc0 & Hin).
  assert (c0 = c) by congruence. subst c0.
  pose proof (Hcl p c link Hc Hin) as Hlink.
  pose proof (lookup_lt_Some _ _ _ Hc) as Hplt.
  cbv [bind new_tag gets set_string].
  rewrite (covers_text_app st _ link Hcov).
  rewrite <- app_assoc. cbn [app].
  rewrite update_cell_app_new. cbn [set_contents].
  rewrite length_app. cbn [length]. replace (length st + 1) with (S (length st)) by lia.
  rewrite (replace_with_fresh _ link (length st) p c).
  - reflexivity.
  - apply find_index_app_l, Hp.
  - rewrite lookup_app_l by assumption. exact Hc.
  - lia.
  - lia.
  - intros j c' Hj Hy.
    destruct (Nat.lt_ge_cases j (length st)) as [Hlt|Hge].
    + rewrite lookup_app_l in Hj by assumption.
      pose proof (Hcl j c' _ Hj Hy). lia.
    + rewrite lookup_app_r in Hj by assumption.
      destruct (j - length st) as [|[|k]] eqn:E; cbn in Hj.
      * injection Hj as <-. cbn in Hy. lia.
      * injection Hj as <-. destruct Hy.
      * discriminate.
Qed.

Section Links.
Context {O : Outside} {Z : Type} {HW : HTMLWriter Z}.

(** C5, as the code has it: a link whose href holds
    "exploratorium.edu/snacks/" and is not a name the writer knows is
    replaced, where it stands in its parent, by a new [b] element whose
    only content is the text of the link. Nothing is fetched or written. *)
Theorem handle_link_bolds_activity
    (w : world Z) (paragraph link p : nat) (c : cell) (href : string) (z z' : Z) :
  closed (dom w) = true ->
  covers (length (dom w)) (dom w) link = true ->
  item (dom w) link "href" = Ok href ->
  zipper w = Some z ->
  hw_contains href z = (Ok false, z') ->
  Py.contains "exploratorium.edu/snacks/" href = true ->
  parent_of (dom w) link = Some p ->
  dom w !! p = Some c ->
  handle_link paragraph link w =
    (Ok tt,
     World (<[p := set_contents
                     (<[index_of link (cell_contents c) := length (dom w)]> (cell_contents c)) c]>
              (dom w ++ [Element "b" [] [S (length (dom w))];
                         NavigableString (text (dom w) link)]))
           (files w)
           (EvWriter "contains" href :: events w)
           (Some z')).
Proof.
  destruct w as [st fs evs zs]. cbn [dom files events zipper].
  intros Hclosed Hcov Hitem -> Hknown Hsnack Hp Hc.
  unfold handle_link.
  unfold bind at 1. unfold dom_op at 1. cbn [dom]. rewrite get_item_eq, Hitem.
  unfold bind at 1. unfold zipper_contains, on_zipper. cbn [zipper set_dom dom files events].
  rewrite Hknown. rewrite Hsnack.
  unfold dom_op. cbn [dom add_event set_zipper set_dom files events zipper].
  rewrite (bold_step st link p c Hclosed Hcov Hp Hc). reflexivity.
Qed.


Lemma item_Element (st : soup) (x : nat) (k v : string) :
  item st x k = Ok v ->
  exists n a kids, st !! x = Some (Element n a kids) /\ assoc k a = Some (Some v).
Proof.
  unfold item, get_item. destruct (st !! x) as [[s|n a kids]|]; cbn; try discriminate.
  destruct (assoc k a) as [[v'|]|] eqn:E; cbn; try discriminate.
  intros [= <-]. eauto.
Qed.

(** C4, as the code has it: a link to the file storage whose target is
    neither a pdf nor an image is not left as it was. The error is logged,
    [generate_download_page] returns the empty string and the caller stores
    it: the href of the link becomes empty. The link stays where it is,
    nothing is fetched or written, and the step returns, so the page goes
    on. *)
Theorem handle_link_unknown_file
    (w : world Z) (paragraph link : nat) (href : string) (z z' : Z) :
  item (dom w) link "href" = Ok href ->
  zipper w = Some z ->
  hw_contains href z = (Ok false, z') ->
  Py.contains "exploratorium.edu/snacks/" href = false ->
  find (dom w) link "img" [] = None ->
  Py.contains "/sites/default/files/" href = true ->
  Py.endswith "pdf" (Py.first (Py.split "?" href)) = false ->
  image_extension (Py.first (Py.split "?" href)) = None ->
  exists new n a kids,
    dom w !! link = Some (Element n a kids) /\
    handle_link paragraph link w =
      (Ok tt,
       World (<[link := Element n (assoc_set "href" (Some "") a) kids]> (dom w ++ new))
             (files w)
             (EvLog ERROR ("Unknown file type found at " +:+ Py.first (Py.split "?" href))
                :: EvWriter "contains" href :: events w)
             (Some z')) /\
    get (<[link := Element n (assoc_set "href" (Some "") a) kids]> (dom w ++ new)) link "href"
      = Some "".
Proof.
  destruct w as [st fs evs zs]. cbn [dom files events zipper].
  intros Hitem -> Hknown Hsnack Himg Hfiles Hpdf Hext.
  destruct (item_Element _ _ _ _ Hitem) as (n & a & kids & Hcell & Hattr).
  pose proof (lookup_lt_Some _ _ _ Hcell) as Hlt.
  destruct (BeautifulSoup_prefix EMPTY_SOUP st) as (new1 & E1).
  destruct (BeautifulSoup_prefix (html5lib download_html) (st ++ new1)) as (new2 & E2).
  exists (new1 ++ new2), n, a, kids. split; [exact Hcell|]. split.
  - unfold handle_link.
    unfold bind at 1. unfold dom_op at 1. cbn [dom]. rewrite get_item_eq, Hitem.
    unfold bind at 1. unfold zipper_contains, on_zipper. cbn [zipper set_dom dom files events].
    rewrite Hknown, Hsnack.
    unfold bind at 1. unfold gets at 1.
    cbn [dom files events zipper set_dom set_files set_zipper add_event]. rewrite Himg, Hfiles.
    unfold generate_download_page. rewrite Hpdf, Hext.
    cbv [bind dom_op log modify ret set_item]. world_simpl.
    rewrite E1. world_simpl. rewrite E2. world_simpl.
    rewrite <- app_assoc. unfold update_cell.
    rewrite lookup_app_l by assumption. rewrite Hcell. reflexivity.
  - unfold get. rewrite list_lookup_insert_eq by (rewrite length_app; lia).
    cbn [cell_attrs]. rewrite assoc_set_eq. reflexivity.
Qed.

End Links.

(** C4 does not hold as stated: on the drawing board page the link to
    sheet.docx ends with an empty href, not with the href it had. The error
    is logged, the other links are handled and the index is written. *)
Lemma docx_link_loses_href :
  to_tree 3 (dom (at_links drawing_board)) 18
    = Tag "li" [] [Tag "a" [("href", Some "/sites/default/files/sheet.docx")]
                     [Text "Worksheet"]] /\
  fst (@scrape_snack_page (table_outside whole_site) _ ricecooker_writer
         "/snacks/drawing-board" 5 empty_world)
    = Ok ("/chef/snacks/drawing-board.zip", ["Physics"]) /\
  to_tree 3 (dom (snd (@scrape_snack_page (table_outside whole_site) _ ricecooker_writer
                         "/snacks/drawing-board" 5 empty_world))) 18
    = Tag "li" [] [Tag "a" [("href", Some "")] [Text "Worksheet"]] /\
  events (snd (@scrape_snack_page (table_outside whole_site) _ ricecooker_writer
                 "/snacks/drawing-board" 5 empty_world))
    = [EvWriter "close" "/chef/snacks/drawing-board.zip";
       EvWriter "write_index_contents" "index.html";
       EvLog ERROR "Unknown file type found at /sites/default/files/sheet.docx";
       EvWriter "contains" "/sites/default/files/sheet.docx";
       EvWriter "contains" "http://example.org/x";
       EvWriter "contains" "https://www.exploratorium.edu/snacks/foo";
       EvWriter "contains" "/snacks/foo";
       EvWriter "open" "/chef/snacks/drawing-board.zip";
       EvRead "https://www.exploratorium.edu/snacks/drawing-board"].
Proof. vm_compute. repeat split. Qed.

Lemma handle_link_unknown_file_witness :
  exists st,
    fst (@handle_link (table_outside whole_site) _ ricecooker_writer 18 19
           (at_links drawing_board)) = Ok tt /\
    dom (snd (@handle_link (table_outside whole_site) _ ricecooker_writer 18 19
                (at_links drawing_board))) = st /\
    get st 19 "href" = Some "".
Proof.
  destruct (@handle_link_unknown_file (table_outside whole_site) _ ricecooker_writer
              (at_links drawing_board) 18 19 "/sites/default/files/sheet.docx" [] []
              eq_refl eq_refl eq_refl eq_refl eq_refl eq_refl eq_refl eq_refl)
    as (new & n & a & kids & _ & Hrun & Hget).
  eexists. rewrite Hrun. cbn [fst snd dom]. split; [reflexivity|]. split; [reflexivity|].
  exact Hget.
Defined.

(** C5 does not hold as stated: the link of the claim, with the text
    Exploratorium Snacks and the href /snacks/foo, is not made bold. Its
    href does not hold "exploratorium.edu/snacks/", so it is handled as an
    external link: what is left is the text with the href in parentheses.
    The same link with an absolute href is made bold. *)
Lemma relative_snack_link_not_bold :
  to_tree 3 (dom (at_links drawing_board)) 9
    = Tag "p" [] [Tag "a" [("href", Some "/snacks/foo")] [Text "Exploratorium Snacks"]] /\
  to_tree 3 (dom (snd (@scrape_snack_page (table_outside whole_site) _ ricecooker_writer
                         "/snacks/drawing-board" 5 empty_world))) 9
    = Tag "p" [] [Text "Exploratorium Snacks (/snacks/foo) "] /\
  to_tree 3 (dom (snd (@scrape_snack_page (table_outside whole_site) _ ricecooker_writer
                         "/snacks/drawing-board" 5 empty_world))) 12
    = Tag "p" [] [Tag "b" [] [Text "Exploratorium Snacks"]].
Proof. vm_compute. repeat split. Qed.

Lemma handle_link_bolds_activity_witness :
  to_tree 3 (dom (snd (@handle_link (table_outside whole_site) _ ricecooker_writer 12 13
                         (at_links drawing_board)))) 12
    = Tag "p" [] [Tag "b" [] [Text "Exploratorium Snacks"]].
Proof.
  rewrite (@handle_link_bolds_activity (table_outside whole_site) _ ricecooker_writer
             (at_links drawing_board) 12 13 12 (Element "p" [] [13])
             "https://www.exploratorium.edu/snacks/foo" [] []
             eq_refl eq_refl eq_refl eq_refl eq_refl eq_refl eq_refl eq_refl).
  reflexivity.
Defined.

(** C6 fails on the code for a link with markup inside its text: the
    [string] of such a link is [None], and adding the href to it raises. *)
Theorem handle_link_raises_on_markup :
  to_tree 4 (dom (at_links styled_link_page)) 5
    = Tag "p" [] [Tag "a" [("href", Some "http://example.org/x")]
                    [Text "Read "; Tag "i" [] [Text "more"]]] /\
  text (dom (at_links styled_link_page)) 6 = "Read more" /\
  get_string (dom (at_links styled_link_page)) 6 = None /\
  fst (@handle_link (table_outside styled_link_site) _ ricecooker_writer 5 6
         (at_links styled_link_page)) = Raise TypeError /\
  fst (@try_block (table_outside styled_link_site) _ ricecooker_writer
         "/snacks/styled" "/chef/snacks/styled.zip" empty_world)
    = ([], Raise ReferenceError).
Proof. vm_compute. repeat split. Qed.

(** *** External links *)

Lemma find_index_first {A} (f : A -> bool) (l : list A) (i : nat) :
  find_index f l = Some i ->
  forall j b, j < i -> l !! j = Some b -> f b = false.
Proof.
  revert i. induction l as [|a l IH]; intros i; cbn [find_index]; [discriminate|].
  destruct (f a) eqn:E.
  - intros [= <-] j b Hj. lia.
  - destruct (find_index f l) as [k|] eqn:Ek; cbn [option_map]; [|discriminate].
    intros [= <-] j b Hj Hb. destruct j as [|j]; cbn in Hb.
    + injection Hb as <-. exact E.
    + apply (IH k eq_refl j b); [lia | exact Hb].
Qed.

Lemma find_index_intro {A} (f : A -> bool) (l : list A) (i : nat) (a : A) :
  l !! i = Some a -> f a = true ->
  (forall j b, j < i -> l !! j = Some b -> f b = false) ->
  find_index f l = Some i.
Proof.
  revert i. induction l as [|a0 l IH]; intros i Hi Ha Hfirst; [destruct i; discriminate|].
  cbn [find_index]. destruct i as [|i]; cbn in Hi.
  - injection Hi as ->. rewrite Ha. reflexivity.
  - rewrite (Hfirst 0 a0) by (reflexivity || lia).
    rewrite (IH i Hi Ha); [reflexivity|].
    intros j b Hj Hb. apply (Hfirst (S j) b); [lia | exact Hb].
Qed.

Lemma concat_single (s : string) : String.concat "" [s] = s.
Proof. reflexivity. Qed.

(** The text that takes the place of an external link whose content is one
    string: the string, then the href in parentheses. *)
Lemma external_link_step (st : soup) (link p : nat) (c : cell)
      (nm : string) (a : list (string * option string)) (kids : list nat)
      (href s : string) :
  closed st = true ->
  st !! link = Some (Element nm a kids) ->
  get_string st link = Some s ->
  Py.contains href (text st link) = false ->
  Py.contains (text st link) href = false ->
  parent_of st link = Some p -> st !! p = Some c -> p <> link ->
  (shown <- gets (fun st => text st link) ;;
   (if negb (Py.contains href shown) && negb (Py.contains shown href)
    then iadd_string link (" (" +:+ href +:+ ") ")
    else ret tt) >>
   shown <- gets (fun st => text st link) ;;
   replace_with_text link shown) st
  = (Ok tt,
     <[p := set_contents (<[index_of link (cell_contents c) := S (length st)]> (cell_contents c)) c]>
       (<[link := Element nm a [length st]]>
          (st ++ [NavigableString (s +:+ " (" +:+ href +:+ ") ");
                  NavigableString (s +:+ " (" +:+ href +:+ ") ")]))).
Proof.
  intros Hclosed Hlink Hstring Hc1 Hc2 Hp Hc Hne.
  pose proof (closed_spec _ Hclosed) as Hcl.
  pose proof (lookup_lt_Some _ _ _ Hlink) as Hlt.
  pose proof (lookup_lt_Some _ _ _ Hc) as Hplt.
  pose proof (parent_of_Some _ _ _ Hp) as (c0 & Hc0 & Hin).
  assert (c0 = c) by congruence. subst c0.
  set (new := s +:+ " (" +:+ href +:+ ") ").
  set (st1 := <[link := Element nm a [length st]]> (st ++ [NavigableString new])).
  assert (Hlen1 : length st1 = S (length st)).
  { unfold st1. rewrite length_insert, length_app. cbn. lia. }
  assert (Hst1 : update_cell link (set_contents [length st]) (st ++ [NavigableString new]) = st1).
  { unfold update_cell, st1. rewrite lookup_app_l by assumption. rewrite Hlink. reflexivity. }
  assert (Htext1 : text st1 link = new).
  { unfold text. rewrite Hlen1. cbn [text_of].
    unfold st1 at 1. rewrite list_lookup_insert_eq by (rewrite length_app; lia).
    cbn [map]. rewrite concat_single.
    destruct (length st) as [|m] eqn:Em; [lia|]. cbn [text_of].
    unfold st1. rewrite list_lookup_insert_ne by lia.
    rewrite <- Em. rewrite list_lookup_middle by reflexivity. reflexivity. }
  cbv [bind gets iadd_string unwrap ret set_string replace_with_text new_string].
  rewrite Hc1, Hc2. cbn [negb andb]. rewrite Hstring. fold new.
  rewrite Hst1, Htext1, Hlen1.
  rewrite (replace_with_fresh _ link (S (length st)) p c).
  - unfold st1.
    change (st ++ [NavigableString new; NavigableString new])
      with (st ++ [NavigableString new] ++ [NavigableString new]).
    rewrite (app_assoc st).
    rewrite (insert_app_l (st ++ [NavigableString new])) by (rewrite length_app; cbn; lia).
    reflexivity.
  - apply find_index_app_l.
    apply (find_index_intro _ _ p c).
    + unfold st1. rewrite list_lookup_insert_ne by congruence.
      rewrite lookup_app_l by assumption. exact Hc.
    + apply has_child_In, Hin.
    + intros j b Hj Hb. unfold st1 in Hb.
      destruct (Nat.eq_dec link j) as [->|Hjl].
      * rewrite list_lookup_insert_eq in Hb by (rewrite length_app; lia).
        injection Hb as <-. cbn. destruct (Nat.eqb_spec j (length st)); [lia | reflexivity].
      * rewrite list_lookup_insert_ne in Hb by assumption.
        rewrite lookup_app_l in Hb by lia.
        apply (find_index_first _ _ _ Hp j b Hj Hb).
  - rewrite lookup_app_l by lia. unfold st1.
    rewrite list_lookup_insert_ne by congruence.
    rewrite lookup_app_l by assumption. exact Hc.
  - lia.
  - lia.
  - intros j c' Hj Hy.
    destruct (Nat.lt_ge_cases j (S (length st))) as [Hjlt|Hge].
    + rewrite lookup_app_l in Hj by lia. unfold st1 in Hj.
      destruct (Nat.eq_dec link j) as [->|Hjl].
      * rewrite list_lookup_insert_eq in Hj by (rewrite length_app; lia).
        injection Hj as <-. cbn in Hy. lia.
      * rewrite list_lookup_insert_ne in Hj by assumption.
        destruct (Nat.lt_ge_cases j (length st)) as [Hj0|Hj0].
        -- rewrite lookup_app_l in Hj by assumption. pose proof (Hcl j c' _ Hj Hy). lia.
        -- assert (j = length st) by lia. subst j.
           rewrite list_lookup_middle in Hj by reflexivity. injection Hj as <-. destruct Hy.
    + rewrite lookup_app_r in Hj by lia. rewrite Hlen1 in Hj.
      destruct (j - S (length st)) as [|k] eqn:E; cbn in Hj; [|discriminate].
      injection Hj as <-. destruct Hy.
Qed.

Section ExternalLinks.
Context {O : Outside} {Z : Type} {HW : HTMLWriter Z}.

(** What the last case of the loop does to a link whose content is one
    string [s]: the link gives way to the text [s (href) ]. *)
Lemma handle_link_external_text
    (w : world Z) (paragraph link p : nat) (c : cell)
    (nm : string) (a : list (string * option string)) (kids : list nat)
    (href s : string) (z z' : Z) :
  closed (dom w) = true ->
  dom w !! link = Some (Element nm a kids) ->
  item (dom w) link "href" = Ok href ->
  zipper w = Some z ->
  hw_contains href z = (Ok false, z') ->
  Py.contains "exploratorium.edu/snacks/" href = false ->
  find (dom w) link "img" [] = None ->
  Py.contains "/sites/default/files/" href = false ->
  Py.contains "exploratorium.edu" href = false ->
  image_extension href = None ->
  get_string (dom w) link = Some s ->
  Py.contains href (text (dom w) link) = false ->
  Py.contains (text (dom w) link) href = false ->
  parent_of (dom w) link = Some p -> dom w !! p = Some c -> p <> link ->
  handle_link paragraph link w =
    (Ok tt,
     World (<[p := set_contents
                     (<[index_of link (cell_contents c) := S (length (dom w))]> (cell_contents c)) c]>
              (<[link := Element nm a [length (dom w)]]>
                 (dom w ++ [NavigableString (s +:+ " (" +:+ href +:+ ") ");
                            NavigableString (s +:+ " (" +:+ href +:+ ") ")])))
           (files w)
           (EvWriter "contains" href :: events w)
           (Some z')).
Proof.
  destruct w as [st fs evs zs]. cbn [dom files events zipper].
  intros Hclosed Hlink Hitem -> Hknown Hsnack Himg Hfiles Hsite Hext Hs Hc1 Hc2 Hp Hc Hne.
  unfold handle_link.
  unfold bind at 1. unfold dom_op at 1. cbn [dom]. rewrite get_item_eq, Hitem.
  unfold bind at 1. unfold zipper_contains, on_zipper. world_simpl.
  rewrite Hknown, Hsnack.
  unfold bind at 1. unfold gets at 1. world_simpl. rewrite Himg, Hfiles, Hsite, Hext.
  unfold dom_op. world_simpl.
  rewrite (external_link_step st link p c nm a kids href s); auto.
Qed.

End ExternalLinks.

(** The link of C6: Read more, to http://example.org/x. *)
Lemma external_link_example :
  to_tree 3 (dom (at_links drawing_board)) 15
    = Tag "p" [] [Tag "a" [("href", Some "http://example.org/x")] [Text "Read more"]] /\
  to_tree 3 (dom (snd (@handle_link (table_outside whole_site) _ ricecooker_writer 15 16
                         (at_links drawing_board)))) 15
    = Tag "p" [] [Text "Read more (http://example.org/x) "].
Proof.
  split; [reflexivity|].
  rewrite (@handle_link_external_text (table_outside whole_site) _ ricecooker_writer
             (at_links drawing_board) 15 16 15 (Element "p" [] [16])
             "a" [("href", Some "http://example.org/x")] [17]
             "http://example.org/x" "Read more" [] []); try reflexivity.
  discriminate.
Qed.

(** ** Stylesheets *)

Section Preserved.
Context {O : Outside} {Z : Type} {HW : HTMLWriter Z} {B : Type} (f : world Z -> B).

Lemma preserves_ret {A} (a : A) : preserves f (ret a).
Proof. intros w. reflexivity. Qed.

Lemma preserves_raise {A} (e : exn) : preserves f (raise e : SE (world Z) A).
Proof. intros w. reflexivity. Qed.

Lemma preserves_bind {A C} (m : SE (world Z) A) (k : A -> SE (world Z) C) :
  preserves f m -> (forall a, preserves f (k a)) -> preserves f (bind m k).
Proof.
  intros Hm Hk w. unfold bind. specialize (Hm w).
  destruct (m w) as [[a|e] w1]; cbn [snd] in *; [|exact Hm].
  rewrite (Hk a w1). exact Hm.
Qed.

Lemma preserves_try_except {A} (m : SE (world Z) A) (h : exn -> SE (world Z) A) :
  preserves f m -> (forall e, preserves f (h e)) -> preserves f (try_except m h).
Proof.
  intros Hm Hh w. unfold try_except. specialize (Hm w).
  destruct (m w) as [[a|e] w1]; cbn [snd] in *; [exact Hm|].
  rewrite (Hh e w1). exact Hm.
Qed.

Lemma preserves_for_fold {A C} (xs : list A) (body : C -> A -> SE (world Z) C) :
  (forall acc x, preserves f (body acc x)) -> forall acc, preserves f (for_fold xs acc body).
Proof.
  intros Hbody. induction xs as [|x xs IH]; intros acc; cbn [for_fold].
  - apply preserves_ret.
  - apply preserves_bind; auto.
Qed.

Lemma preserves_gets {A} (g : world Z -> A) : preserves f (gets g).
Proof. intros w. reflexivity. Qed.

Lemma preserves_unwrap {A} (e : exn) (o : option A) : preserves f (unwrap e o).
Proof. destruct o; [apply preserves_ret | apply preserves_raise]. Qed.

End Preserved.

Section Fetches.
Context {O : Outside} {Z : Type} {HW : HTMLWriter Z}.

Lemma page_log (l : level) (msg : string) : preserves (Z := Z) page_view (log l msg).
Proof. intros w. reflexivity. Qed.

Lemma page_write_local (path data : string) :
  preserves (Z := Z) page_view (write_local path data).
Proof. intros w. reflexivity. Qed.

Lemma page_downloader_read (url : string) :
  preserves (Z := Z) page_view (downloader_read url).
Proof. intros w. reflexivity. Qed.

Lemma page_on_zipper {A} (method arg : string) (op : Z -> res A * Z) :
  preserves page_view (on_zipper method arg op).
Proof.
  intros w. unfold on_zipper. destruct (zipper w) as [z|]; [|reflexivity].
  destruct (op z). reflexivity.
Qed.

Lemma page_zipper_write_file (filepath : string) (filename directory : option string) :
  preserves page_view (zipper_write_file filepath filename directory).
Proof.
  unfold zipper_write_file. apply preserves_bind; [apply preserves_gets|].
  intros fs. apply page_on_zipper.
Qed.

Lemma page_fetch {A} (m : SE (world Z) A) : preserves page_view m -> preserves fetch_view m.
Proof. intros H w. specialize (H w). unfold page_view in H. unfold fetch_view. congruence. Qed.

Lemma fetch_dom_op {A} (d : D A) : preserves (Z := Z) fetch_view (dom_op d).
Proof. intros w. unfold dom_op. destruct (d (dom w)). reflexivity. Qed.

(** [scrape_style] fetches the stylesheet it is given, and no other, and
    leaves the documents alone. *)
Lemma scrape_style_page (url : string) (w : world Z) :
  dom (snd (scrape_style url w)) = dom w /\
  parse_urls (events (snd (scrape_style url w))) = url :: parse_urls (events w).
Proof.
  unfold scrape_style. unfold bind at 1. unfold cssutils_parseUrl.
  match goal with
  | |- context [bind (unwrap ?e ?o) ?k (add_event ?ev w)] =>
      assert (Hk : preserves page_view (bind (unwrap e o : SE (world Z) _) k))
  end.
  { apply preserves_bind; [apply preserves_unwrap|]. intros parsed.
    apply preserves_for_fold. intros rules u.
    apply preserves_try_except.
    - apply preserves_bind; [apply preserves_gets|]. intros there.
      apply preserves_bind.
      + destruct (negb there); [|apply preserves_ret].
        apply preserves_bind; [apply page_write_local|]. intros _.
        apply preserves_bind; [apply page_downloader_read|]. intros data.
        apply page_write_local.
      + intros _. apply preserves_bind; [apply page_zipper_write_file|].
        intros new_url. apply preserves_ret.
    - intros []; try apply preserves_raise.
      apply preserves_bind; [apply page_log | intros _; apply preserves_ret]. }
  specialize (Hk (add_event (EvParseUrl url) w)). unfold page_view in Hk.
  injection Hk as D E. split; [exact D | exact E].
Qed.

(** Whatever happens, the stylesheet loop only fetches stylesheets whose
    href holds the name of the site. *)
Lemma scrape_stylesheet_fetches (wc x : nat) (w : world Z) :
  exists new,
    parse_urls (events (snd (scrape_stylesheet wc x w))) = new ++ parse_urls (events w) /\
    List.Forall (fun url => Py.contains "exploratorium.edu" url = true) new.
Proof.
  unfold scrape_stylesheet. unfold bind at 1.
  pose proof (fetch_dom_op (get_item x "href") w) as H0. unfold fetch_view in H0.
  destruct (dom_op (get_item x "href") w) as [[href|e] w0]; cbn [snd] in H0.
  2: { exists []. split; [exact H0 | constructor]. }
  destruct (Py.contains "exploratorium.edu" href) eqn:Hon; cbn [negb].
  2: { exists []. split; [exact H0 | constructor]. }
  unfold bind at 1. destruct (scrape_style_page href w0) as [_ E1].
  destruct (scrape_style href w0) as [[css|e] w1]; cbn [snd] in E1.
  2: { exists [href]. split; [cbn; congruence | repeat constructor; exact Hon]. }
  match goal with
  | |- context [bind ?m ?k w1] => assert (Hk : preserves fetch_view (bind m k))
  end.
  { apply preserves_bind; [apply page_fetch, page_on_zipper|]. intros path.
    apply preserves_bind; [apply fetch_dom_op|]. intros _.
    apply preserves_bind.
    - unfold dot_head. apply preserves_bind; [apply preserves_gets|].
      intros h. apply preserves_unwrap.
    - intros head. apply fetch_dom_op. }
  specialize (Hk w1). unfold fetch_view in Hk.
  exists [href]. split; [cbn; congruence | repeat constructor; exact Hon].
Qed.

(** X19: however the stylesheet loop ends, also when it raises half way,
    every stylesheet it has handed to cssutils has an href that holds the
    name of the site: an off-site stylesheet is never fetched. *)
Lemma scrape_stylesheets_fetches (contents wc : nat) (w : world Z) :
  exists new,
    parse_urls (events (snd (scrape_stylesheets contents wc w))) = new ++ parse_urls (events w) /\
    List.Forall (fun url => Py.contains "exploratorium.edu" url = true) new.
Proof.
  unfold scrape_stylesheets, bind, gets.
  generalize (find_all (dom w) contents "link" [("rel", "stylesheet")]). intros sheets.
  revert w. induction sheets as [|x sheets IH]; intros w; cbn [for_each].
  - exists []. split; [reflexivity | constructor].
  - unfold bind. destruct (scrape_stylesheet_fetches wc x w) as (new1 & E1 & F1).
    destruct (scrape_stylesheet wc x w) as [[[]|e] w1]; cbn [snd] in *.
    + destruct (IH w1) as (new2 & E2 & F2).
      exists (new2 ++ new1). split.
      * rewrite E2, E1, app_assoc. reflexivity.
      * apply List.Forall_app. split; assumption.
    + exists new1. split; assumption.
Qed.

End Fetches.

(** *** The head of the output document *)






Section Stylesheets.
Context {O : Outside} {Z : Type} {HW : HTMLWriter Z}.



End Stylesheets.

Section StylesheetLoop.
Context {O : Outside} {Z : Type} {HW : HTMLWriter Z}.





End StylesheetLoop.


(** ** The video downloader *)

Section Downloads.
Context {O : Outside} {Z : Type}.

Lemma repeat_snoc_app {A} (x : A) (n : nat) (l : list A) :
  repeat x n ++ x :: l = repeat x (S n) ++ l.
Proof. cbn [repeat]. rewrite repeat_cons, <- app_assoc. reflexivity. Qed.

Lemma download_unfold (url p : string) (attempts : nat) (w : world Z) :
  download url p attempts w =
    match youtube_dl (length (events w)) url with
    | Ok data => (Ok tt, World (dom w) (assoc_set p data (files w))
                               (EvYoutubeDL url p :: events w) (zipper w))
    | Raise DownloadError =>
        match attempts with
        | S n => download url p n (World (dom w) (files w)
                                         (EvYoutubeDL url p :: events w) (zipper w))
        | 0 => (Raise DownloadError,
                World (dom w) (files w)
                      (EvLog ERROR ("Could not download video " +:+ url +:+
                                    " (" +:+ exn_str DownloadError +:+ ")")
                         :: EvYoutubeDL url p :: events w) (zipper w))
        end
    | Raise e => (Raise e, World (dom w) (files w)
                                 (EvYoutubeDL url p :: events w) (zipper w))
    end.
Proof.
  destruct w as [st fs evs zs].
  destruct attempts; cbn [download]; unfold try_except, ydl_download; world_simpl;
    destruct (youtube_dl (length evs) url) as [data|[]]; reflexivity.
Qed.

(** X1: when the downloader raises DownloadError every time, [download]
    calls it once more than [attempts], logs the error once, after the
    last call, and raises DownloadError; nothing is written. *)
Theorem download_exhausts_attempts (url p : string) (attempts : nat) (w : world Z) :
  (forall k, k <= attempts ->
     youtube_dl (length (events w) + k) url = Raise DownloadError) ->
  download url p attempts w =
    (Raise DownloadError,
     World (dom w) (files w)
           (EvLog ERROR ("Could not download video " +:+ url +:+
                         " (" +:+ exn_str DownloadError +:+ ")")
              :: repeat (EvYoutubeDL url p) (S attempts) ++ events w)
           (zipper w)).
Proof.
  revert w. induction attempts as [|n IH]; intros w H; rewrite download_unfold.
  - rewrite <- (Nat.add_0_r (length (events w))), (H 0) by lia. reflexivity.
  - rewrite <- (Nat.add_0_r (length (events w))), (H 0) by lia.
    rewrite IH; world_simpl.
    + rewrite repeat_snoc_app. reflexivity.
    + intros k Hk. cbn [length]. rewrite <- (H (S k)) by lia. f_equal. lia.
Qed.

(** X2: when the downloader raises DownloadError [k] times and then
    delivers, and [k] is within the budget, [download] returns after
    [k + 1] calls with the video written to [write_to_path]; it logs
    nothing. *)
Theorem download_retries_until_success
    (url p data : string) (attempts k : nat) (w : world Z) :
  k <= attempts ->
  (forall j, j < k -> youtube_dl (length (events w) + j) url = Raise DownloadError) ->
  youtube_dl (length (events w) + k) url = Ok data ->
  download url p attempts w =
    (Ok tt,
     World (dom w) (assoc_set p data (files w))
           (repeat (EvYoutubeDL url p) (S k) ++ events w) (zipper w)).
Proof.
  revert attempts w. induction k as [|k IH]; intros attempts w Hk Hfail Hok;
    rewrite download_unfold.
  - rewrite Nat.add_0_r in Hok. rewrite Hok. reflexivity.
  - rewrite <- (Nat.add_0_r (length (events w))), (Hfail 0) by lia.
    destruct attempts as [|n]; [lia|].
    rewrite IH; world_simpl.
    + rewrite repeat_snoc_app. reflexivity.
    + lia.
    + intros j Hj. cbn [length]. rewrite <- (Hfail (S j)) by lia. f_equal. lia.
    + cbn [length]. rewrite <- Hok. f_equal. lia.
Qed.

(** X3: an exception of the downloader other than DownloadError is not
    retried and not logged: [download] raises it after the call that
    met it, whatever is left of the budget. *)
Theorem download_gives_up_on_other_errors
    (url p : string) (e : exn) (attempts k : nat) (w : world Z) :
  k <= attempts ->
  (forall j, j < k -> youtube_dl (length (events w) + j) url = Raise DownloadError) ->
  youtube_dl (length (events w) + k) url = Raise e ->
  e <> DownloadError ->
  download url p attempts w =
    (Raise e,
     World (dom w) (files w)
           (repeat (EvYoutubeDL url p) (S k) ++ events w) (zipper w)).
Proof.
  revert attempts w. induction k as [|k IH]; intros attempts w Hk Hfail Hraise Hne;
    rewrite download_unfold.
  - rewrite Nat.add_0_r in Hraise. rewrite Hraise.
    destruct e; try reflexivity. contradiction.
  - rewrite <- (Nat.add_0_r (length (events w))), (Hfail 0) by lia.
    destruct attempts as [|n]; [lia|].
    rewrite IH; world_simpl.
    + rewrite repeat_snoc_app. reflexivity.
    + lia.
    + intros j Hj. cbn [length]. rewrite <- (Hfail (S j)) by lia. f_equal. lia.
    + cbn [length]. rewrite <- Hraise. f_equal. lia.
    + exact Hne.
Qed.

Lemma isfile_assoc_set (p data : string) (fs : list (string * string)) :
  isfile p (assoc_set p data fs) = true.
Proof. unfold isfile. rewrite assoc_set_eq. reflexivity. Qed.

Lemma download_writes (url p : string) (attempts : nat) :
  forall (w w' : world Z),
    download url p attempts w = (Ok tt, w') -> isfile p (files w') = true.
Proof.
  induction attempts as [|n IH]; intros w w'; rewrite download_unfold;
    destruct (youtube_dl (length (events w)) url) as [data|e].
  - intros [= <-]. apply isfile_assoc_set.
  - destruct e; discriminate.
  - intros [= <-]. apply isfile_assoc_set.
  - destruct e; try discriminate. apply IH.
Qed.

(** A video that is in the video directory already is not downloaded
    again: [download_web_video] returns its path and calls nothing. *)
Lemma download_web_video_cached (url filename : string) (w : world Z) :
  isfile (VIDEO_DIRECTORY +:+ "/" +:+ filename) (files w) = true ->
  download_web_video url filename w = (Ok (VIDEO_DIRECTORY +:+ "/" +:+ filename), w).
Proof.
  intros H. unfold download_web_video, bind, gets. rewrite H. reflexivity.
Qed.

(** X4: after [download_web_video] has returned, asking for the same
    file name again, from any url, returns the same path and changes
    nothing: the downloader is not called a second time. *)
Theorem download_web_video_once
    (url url' filename path : string) (w w' : world Z) :
  download_web_video url filename w = (Ok path, w') ->
  download_web_video url' filename w' = (Ok path, w').
Proof.
  unfold download_web_video. unfold bind, gets, ret.
  destruct (isfile (VIDEO_DIRECTORY +:+ "/" +:+ filename) (files w)) eqn:Hthere;
    cbn [negb].
  - intros [= <- <-]. rewrite Hthere. reflexivity.
  - destruct (download url (VIDEO_DIRECTORY +:+ "/" +:+ filename) DOWNLOAD_ATTEMPTS w)
      as [[[]|e] w1] eqn:Hd; [|discriminate].
    intros [= <- <-]. rewrite (download_writes _ _ _ _ _ Hd). reflexivity.
Qed.

End Downloads.

(** ** The assets of a stylesheet *)

Lemma string_app_inv_head (p a b : string) : p +:+ a = p +:+ b -> a = b.
Proof.
  induction p as [|c p IH]; intros H.
  - exact H.
  - change (String c (p +:+ a) = String c (p +:+ b)) in H.
    injection H as H. apply IH, H.
Qed.

Lemma isfile_assoc_set_ne (p p' data : string) (fs : list (string * string)) :
  p' <> p -> isfile p (assoc_set p' data fs) = isfile p fs.
Proof. intros H. unfold isfile. rewrite assoc_set_ne by exact H. reflexivity. Qed.

Lemma for_fold_never {S A B} (e : exn) (body : B -> A -> SE S B) (xs : list A) :
  (forall acc x s, fst (body acc x s) <> Raise e) ->
  forall acc s, fst (for_fold xs acc body s) <> Raise e.
Proof.
  intros Hbody. induction xs as [|x xs IH]; intros acc s; cbn [for_fold].
  - discriminate.
  - unfold bind. specialize (Hbody acc x s).
    destruct (body acc x s) as [[acc'|e'] s1]; [apply IH | exact Hbody].
Qed.

Section StyleAssets.
Context {O : Outside} {Z : Type} {HW : HTMLWriter Z}.

(** The body of the loop of [scrape_style] over the urls of a sheet. *)
Local Abbreviation asset_step :=
  (fun (rules url : string) =>
     try_except
       (let filename := Py.last (Py.split "/" (Py.first (Py.split "?" url))) in
        let filepath := SHARED_ASSET_DIRECTORY +:+ "/" +:+ filename in
        there <- gets (fun w : world Z => isfile filepath (files w)) ;;
        (if negb there
         then write_local filepath EmptyString >>
              data <- read url ;;
              write_local filepath data
         else ret tt) >>
        new_url <- zipper_write_file filepath (Some filename) (Some "assets") ;;
        ret (Py.replace url ("../" +:+ new_url) rules))
       (fun e => match e with
                 | HTTPError =>
                     log WARNING ("Could not download css url " +:+ url) >> ret rules
                 | _ => raise e
                 end)).

Lemma scrape_style_unfold (url : string) (w : world Z) :
  scrape_style url w =
    match css_parse_url (length (events w)) url with
    | Some parsed =>
        for_fold (snd parsed) (fst parsed) asset_step (add_event (EvParseUrl url) w)
    | None => (Raise AttributeError, add_event (EvParseUrl url) w)
    end.
Proof.
  unfold scrape_style. unfold bind at 1. unfold cssutils_parseUrl.
  destruct (css_parse_url (length (events w)) url) as [parsed|]; reflexivity.
Qed.

(** X5: [scrape_style] never raises HTTPError, whatever the network and
    the writer do: an asset that cannot be downloaded is logged and
    left out. *)
Theorem scrape_style_never_http_error (url : string) (w : world Z) :
  fst (scrape_style url w) <> Raise HTTPError.
Proof.
  rewrite scrape_style_unfold.
  destruct (css_parse_url (length (events w)) url) as [parsed|]; [|discriminate].
  apply for_fold_never. intros rules u s. unfold try_except.
  match goal with
  | |- context [let (_, _) := ?m s in _] => destruct (m s) as [[r|e] s1]
  end; [discriminate|].
  destruct e; discriminate.
Qed.


Lemma asset_path_inj (a b : string) :
  SHARED_ASSET_DIRECTORY +:+ "/" +:+ a = SHARED_ASSET_DIRECTORY +:+ "/" +:+ b -> a = b.
Proof. intros H. apply string_app_inv_head in H. apply string_app_inv_head in H. exact H. Qed.

Lemma asset_step_unreachable (rules u : string) (w : world Z) :
  isfile (SHARED_ASSET_DIRECTORY +:+ "/" +:+ asset_filename u) (files w) = false ->
  http_get (length (events w)) (format_url u) = Raise HTTPError ->
  asset_step rules u w =
    (Ok rules,
     World (dom w)
           (assoc_set (SHARED_ASSET_DIRECTORY +:+ "/" +:+ asset_filename u) "" (files w))
           (EvLog WARNING ("Could not download css url " +:+ u)
              :: EvRead (format_url u) :: events w)
           (zipper w)).
Proof.
  destruct w as [st fs evs zs]. cbn [files events dom zipper]. intros Hfile Hget.
  unfold try_except, bind, gets. cbn [files]. unfold asset_filename in Hfile.
  rewrite Hfile. cbn [negb].
  unfold write_local, modify, read, downloader_read, log, ret. world_simpl.
  rewrite Hget. reflexivity.
Qed.

(** X6: when no asset of the sheet is in the shared asset directory and
    every download of an asset raises HTTPError, [scrape_style] returns
    the text of the sheet as it is, after one read and one warning per
    asset, and leaves an empty file in the shared asset directory for
    each of them. *)
Theorem scrape_style_assets_unreachable
    (url rules : string) (urls : list string) (w : world Z) :
  css_parse_url (length (events w)) url = Some (rules, urls) ->
  List.NoDup (map asset_filename urls) ->
  (forall u, In u urls ->
     isfile (SHARED_ASSET_DIRECTORY +:+ "/" +:+ asset_filename u) (files w) = false) ->
  (forall n u, In u urls -> http_get n (format_url u) = Raise HTTPError) ->
  scrape_style url w =
    (Ok rules,
     World (dom w)
           (fold_left (fun fs u =>
                         assoc_set (SHARED_ASSET_DIRECTORY +:+ "/" +:+ asset_filename u) "" fs)
                      urls (files w))
           (flat_map (fun u => [EvLog WARNING ("Could not download css url " +:+ u);
                                EvRead (format_url u)]) (rev urls)
              ++ EvParseUrl url :: events w)
           (zipper w)).
Proof.
  intros Hparse Hnodup Hfiles Hget. rewrite scrape_style_unfold, Hparse.
  cbn [fst snd]. unfold add_event. clear Hparse.
  generalize (EvParseUrl url :: events w) as evs.
  revert Hfiles. generalize (files w) as fs.
  induction urls as [|u urls IH]; intros fs Hfiles evs; cbn [for_fold].
  - reflexivity.
  - unfold bind at 1. rewrite asset_step_unreachable; world_simpl.
    + inversion Hnodup as [|? ? Hnotin Hrest]; subst.
      rewrite IH.
      * cbn [fold_left rev]. rewrite flat_map_app. cbn [flat_map].
        rewrite app_nil_r, <- app_assoc. reflexivity.
      * exact Hrest.
      * intros n u' Hin. apply Hget. right. exact Hin.
      * intros u' Hin. rewrite isfile_assoc_set_ne.
        -- apply Hfiles. right. exact Hin.
        -- intros Heq. apply asset_path_inj in Heq. apply Hnotin.
           rewrite Heq. apply in_map, Hin.
    + apply Hfiles. left. reflexivity.
    + apply Hget. left. reflexivity.
Qed.

Lemma asset_step_cached_eq (rules u : string) (w : world Z) :
  isfile (SHARED_ASSET_DIRECTORY +:+ "/" +:+ asset_filename u) (files w) = true ->
  asset_step rules u w =
    match zipper w with
    | None => (Raise ValueError, w)
    | Some z =>
        let '(r, z') := hw_write_file (SHARED_ASSET_DIRECTORY +:+ "/" +:+ asset_filename u)
                          (Some (asset_filename u)) (Some "assets") (files w) z in
        let w1 := World (dom w) (files w)
                        (EvWriter "write_file"
                           (SHARED_ASSET_DIRECTORY +:+ "/" +:+ asset_filename u) :: events w)
                        (Some z') in
        match r with
        | Ok new_url => (Ok (Py.replace u ("../" +:+ new_url) rules), w1)
        | Raise HTTPError =>
            (Ok rules, add_event (EvLog WARNING ("Could not download css url " +:+ u)) w1)
        | Raise e => (Raise e, w1)
        end
    end.
Proof.
  destruct w as [st fs evs zs]. cbn [files events dom zipper]. intros Hfile.
  unfold try_except, bind, gets. cbn [files]. unfold asset_filename in *.
  rewrite Hfile. cbn [negb]. unfold ret at 1.
  unfold zipper_write_file, bind, gets, on_zipper. world_simpl.
  destruct zs as [z|]; [|reflexivity].
  destruct (hw_write_file
              (SHARED_ASSET_DIRECTORY +:+ "/" +:+
               Py.last (Py.split "/" (Py.first (Py.split "?" u))))
              (Some (Py.last (Py.split "/" (Py.first (Py.split "?" u)))))
              (Some "assets") fs z) as [[new_url|e] z']; [reflexivity|].
  destruct e; reflexivity.
Qed.

Lemma asset_step_cached (rules u : string) (w : world Z) :
  isfile (SHARED_ASSET_DIRECTORY +:+ "/" +:+ asset_filename u) (files w) = true ->
  offline_view (snd (asset_step rules u w)) = offline_view w.
Proof.
  intros Hfile. pose proof (asset_step_cached_eq rules u w Hfile) as E.
  cbv beta in E |- *. rewrite E. clear E.
  destruct (zipper w) as [z|]; [|reflexivity].
  destruct (hw_write_file (SHARED_ASSET_DIRECTORY +:+ "/" +:+ asset_filename u)
              (Some (asset_filename u)) (Some "assets") (files w) z) as [[new_url|e] z'];
    [reflexivity|].
  destruct e; reflexivity.
Qed.

Lemma asset_loop_cached (urls : list string) :
  forall (acc : string) (w : world Z),
    (forall u, In u urls ->
       isfile (SHARED_ASSET_DIRECTORY +:+ "/" +:+ asset_filename u) (files w) = true) ->
    offline_view (snd (for_fold urls acc asset_step w)) = offline_view w.
Proof.
  induction urls as [|u urls IH]; intros acc w Hfiles; cbn [for_fold].
  - reflexivity.
  - unfold bind at 1.
    pose proof (asset_step_cached acc u w (Hfiles u (or_introl eq_refl))) as Hstep.
    cbv beta in Hstep |- *.
    match type of Hstep with
    | context [snd ?m] => destruct m as [[acc'|e] w1]
    end; cbn [snd] in Hstep |- *; [|exact Hstep].
    rewrite <- Hstep. injection Hstep as D F E.
    apply (IH acc' w1). intros u' Hin. rewrite F. apply Hfiles. right. exact Hin.
Qed.

(** X7: when every asset of the sheet is in the shared asset directory
    already, [scrape_style] downloads no asset. The sheet itself is
    fetched, by the one call of [cssutils.parseUrl]; there is no call of
    [downloader.read], and the file system and the documents are left as
    they are, whatever the writer does. *)
Theorem scrape_style_cached_assets
    (url rules : string) (urls : list string) (w : world Z) :
  css_parse_url (length (events w)) url = Some (rules, urls) ->
  (forall u, In u urls ->
     isfile (SHARED_ASSET_DIRECTORY +:+ "/" +:+ asset_filename u) (files w) = true) ->
  dom (snd (scrape_style url w)) = dom w /\
  files (snd (scrape_style url w)) = files w /\
  List.filter is_read (events (snd (scrape_style url w))) = List.filter is_read (events w) /\
  parse_urls (events (snd (scrape_style url w))) = url :: parse_urls (events w).
Proof.
  intros Hparse Hfiles.
  destruct (scrape_style_page url w) as [_ Hsheet].
  repeat split; [| | |exact Hsheet]; clear Hsheet;
    rewrite scrape_style_unfold, Hparse; cbn [fst snd];
    pose proof (asset_loop_cached urls rules (add_event (EvParseUrl url) w) Hfiles) as H;
    cbv beta in H; injection H as D F E; assumption.
Qed.

Lemma assoc_set_twice {V} (k : string) (v v' : V) (l : list (string * V)) :
  assoc_set k v' (assoc_set k v l) = assoc_set k v' l.
Proof.
  induction l as [|[k0 v0] l IH]; cbn [assoc_set].
  - rewrite String.eqb_refl. reflexivity.
  - destruct (String.eqb k0 k) eqn:E; cbn [assoc_set].
    + rewrite String.eqb_refl. reflexivity.
    + rewrite E, IH. reflexivity.
Qed.

(** X8: a sheet with one asset that is not in the shared asset directory
    and can be downloaded: the asset is read once, from the formatted url,
    stored in the shared asset directory under its file name (the query
    string cut off), handed to the writer for the directory assets, and
    its url in the rules is replaced by the path the writer returned,
    one directory up. *)
Theorem scrape_style_fetches_asset
    (url rules u data new_url : string) (z z' : Z) (w : world Z) :
  css_parse_url (length (events w)) url = Some (rules, [u]) ->
  isfile (SHARED_ASSET_DIRECTORY +:+ "/" +:+ asset_filename u) (files w) = false ->
  http_get (S (length (events w))) (format_url u) = Ok data ->
  zipper w = Some z ->
  hw_write_file (SHARED_ASSET_DIRECTORY +:+ "/" +:+ asset_filename u)
    (Some (asset_filename u)) (Some "assets")
    (assoc_set (SHARED_ASSET_DIRECTORY +:+ "/" +:+ asset_filename u) data (files w)) z
    = (Ok new_url, z') ->
  scrape_style url w =
    (Ok (Py.replace u ("../" +:+ new_url) rules),
     World (dom w)
           (assoc_set (SHARED_ASSET_DIRECTORY +:+ "/" +:+ asset_filename u) data (files w))
           (EvWriter "write_file" (SHARED_ASSET_DIRECTORY +:+ "/" +:+ asset_filename u)
              :: EvRead (format_url u) :: EvParseUrl url :: events w)
           (Some z')).
Proof.
  destruct w as [st fs evs zs]. cbn [files events dom zipper].
  intros Hparse Hfile Hget -> Hwrite. rewrite scrape_style_unfold.
  cbn [events]. rewrite Hparse. cbn [fst snd for_fold]. unfold add_event; cbn [dom files events zipper].
  unfold bind at 1. unfold try_except, bind, gets. cbn [files]. unfold asset_filename in *.
  rewrite Hfile. cbn [negb].
  unfold write_local, modify, read, downloader_read, zipper_write_file, bind, gets, on_zipper, ret.
  world_simpl. cbn [length]. rewrite Hget. world_simpl.
  rewrite !assoc_set_twice, Hwrite. reflexivity.
Qed.

End StyleAssets.

(** ** The attempts of the page transformation *)

Section Attempts.
Context {O : Outside} {Z : Type} {HW : HTMLWriter Z}.

Lemma write_to_path_zip (slug : string) :
  Py.endswith ".zip" (write_to_path_of slug) = true.
Proof.
  unfold write_to_path_of. do 3 apply endswith_app. apply endswith_refl.
Qed.

(** X9: [scrape_snack_page] never raises, whatever the network, the
    page and the writer do: it returns the path of the zip, which is the
    last segment of the slug with .zip in the snack directory and is
    never empty, also after every attempt has failed. *)
Theorem scrape_snack_page_always_returns (slug : string) (attempts : nat) (w : world Z) :
  exists tags,
    fst (scrape_snack_page slug attempts w) = Ok (write_to_path_of slug, tags) /\
    Py.truthy (write_to_path_of slug) = true /\
    Py.endswith ".zip" (write_to_path_of slug) = true.
Proof.
  destruct (scrape_snack_page_returns_path slug attempts w) as [tags H].
  exists tags. split; [exact H|]. split.
  - apply write_to_path_truthy.
  - apply write_to_path_zip.
Qed.

Lemma try_block_unreadable (slug : string) (e : exn) (w : world Z) :
  http_get (length (events w)) (format_url slug) = Raise e ->
  try_block slug (write_to_path_of slug) w =
    (([], Raise e), add_event (EvRead (format_url slug)) w).
Proof.
  intros H. unfold try_block, bind, read, downloader_read. rewrite H. reflexivity.
Qed.

(** X10: when every read of the page raises, [scrape_snack_page] reads
    the page once more than [attempts], logs the error once, after the
    last read, and returns the path with no tags; it opens no writer and
    touches neither the documents nor the file system. *)
Theorem scrape_snack_page_unreadable
    (slug : string) (e : exn) (attempts : nat) (w : world Z) :
  (forall k, k <= attempts ->
     http_get (length (events w) + k) (format_url slug) = Raise e) ->
  scrape_snack_page slug attempts w =
    (Ok (write_to_path_of slug, []),
     World (dom w) (files w)
           (EvLog ERROR ("Could not scrape " +:+ slug +:+ " (" +:+ exn_str e +:+ ")")
              :: repeat (EvRead (format_url slug)) (S attempts) ++ events w)
           (zipper w)).
Proof.
  revert w. induction attempts as [|n IH]; intros w H; cbn [scrape_snack_page];
    rewrite (try_block_unreadable slug e w)
      by (rewrite <- (Nat.add_0_r (length (events w))); apply H; lia).
  - destruct w; reflexivity.
  - rewrite IH.
    + destruct w as [st fs evs zs]. world_simpl. rewrite repeat_snoc_app. reflexivity.
    + intros k Hk. destruct w as [st fs evs zs]. world_simpl. cbn [length].
      rewrite <- (H (S k)) by lia. f_equal. cbn [events]. lia.
Qed.

End Attempts.

(** ** The crawl of a video collection *)

Section TopicInvariants.
Context {Z : Type} (Q : list channel_node -> Prop).

Local Abbreviation T := (SE (list channel_node * world Z)).

Lemma keeps_ret {A} (a : A) : keeps_topic Q (ret a : T A).
Proof. intros s H. exact H. Qed.

Lemma keeps_raise {A} (e : exn) : keeps_topic Q (raise e : T A).
Proof. intros s H. exact H. Qed.

Lemma keeps_gets {A} (f : list channel_node * world Z -> A) : keeps_topic Q (gets f).
Proof. intros s H. exact H. Qed.

Lemma keeps_in_world {A} (m : SE (world Z) A) : keeps_topic Q (in_world m).
Proof. intros [kids w] H. unfold in_world. cbn [fst snd]. destruct (m w). exact H. Qed.

Lemma keeps_bind {A B} (m : T A) (k : A -> T B) :
  keeps_topic Q m -> (forall a, keeps_topic Q (k a)) -> keeps_topic Q (bind m k).
Proof.
  intros Hm Hk s H. unfold bind. specialize (Hm s H).
  destruct (m s) as [[a|e] s1]; cbn [snd] in *; [apply Hk, Hm | exact Hm].
Qed.

Lemma keeps_try_except {A} (m : T A) (h : exn -> T A) :
  keeps_topic Q m -> (forall e, keeps_topic Q (h e)) -> keeps_topic Q (try_except m h).
Proof.
  intros Hm Hh s H. unfold try_except. specialize (Hm s H).
  destruct (m s) as [[a|e] s1]; cbn [snd] in *; [exact Hm | apply Hh, Hm].
Qed.

Lemma keeps_for_each {A} (xs : list A) (body : A -> T unit) :
  (forall x, keeps_topic Q (body x)) -> keeps_topic Q (for_each xs body).
Proof.
  intros Hbody. induction xs as [|x xs IH]; cbn [for_each].
  - apply keeps_ret.
  - apply keeps_bind; [apply Hbody | intros _; exact IH].
Qed.

End TopicInvariants.

Lemma has_source_id_false (sid : string) (kids : list channel_node) :
  has_source_id sid kids = false -> ~ In sid (map node_source_id kids).
Proof.
  unfold has_source_id. induction kids as [|c kids IH]; cbn [existsb map In].
  - intros _ [].
  - intros H [Heq|Hin].
    + rewrite Heq, String.eqb_refl in H. discriminate.
    + apply orb_false_elim in H. apply IH; tauto.
Qed.

Lemma NoDup_snoc {A} (l : list A) (a : A) :
  List.NoDup l -> ~ In a l -> List.NoDup (l ++ [a]).
Proof.
  intros Hl Ha. induction Hl as [|x l Hx Hl IH]; cbn [app].
  - constructor; [intros []|constructor].
  - constructor.
    + rewrite in_app_iff. cbn [In]. intros [H|[H|[]]]; [contradiction|].
      apply Ha. left. symmetry. exact H.
    + apply IH. intros H. apply Ha. right. exact H.
Qed.

Section VideoCollection.
Context {O : Outside} {P : HtmlParser} {Z : Type}.

Section Kept.
(** A property of the topic that holds again when a video whose source
    id is new to the topic is added. *)
Variable Q : list channel_node -> Prop.
Hypothesis Q_add :
  forall kids v, Q kids -> has_source_id (video_source_id v) kids = false ->
                 Q (kids ++ [VideoNode v]).

Lemma keeps_add_video (result header : nat) (description : option nat)
      (entry : string * record) :
  keeps_topic (Z := Z) Q (add_video result header description entry).
Proof.
  unfold add_video.
  repeat (apply keeps_bind; [apply keeps_in_world | intros ?]).
  intros s H. unfold bind, gets. cbn [fst snd].
  destruct (has_source_id (fst entry) (fst s)) eqn:Hknown; [exact H|].
  unfold add_child, modify. cbn [fst snd]. apply Q_add; [exact H | exact Hknown].
Qed.

Lemma keeps_scrape_search_result (result : nat) :
  keeps_topic (Z := Z) Q (scrape_search_result result).
Proof.
  unfold scrape_search_result.
  repeat (apply keeps_bind; [apply keeps_in_world | intros ?]).
  apply keeps_for_each. intros entry. apply keeps_add_video.
Qed.

Lemma keeps_scrape_video_collection (depth : nat) :
  forall url, keeps_topic (Z := Z) Q (scrape_video_collection depth url).
Proof.
  induction depth as [|d IH]; intros url; cbn [scrape_video_collection].
  - apply keeps_raise.
  - apply keeps_try_except.
    + repeat (apply keeps_bind; [apply keeps_in_world | intros ?]).
      apply keeps_bind.
      * apply keeps_for_each. intros r. apply keeps_scrape_search_result.
      * intros _. apply keeps_bind; [apply keeps_in_world | intros next].
        destruct next as [u|]; [|apply keeps_ret].
        destruct (Py.truthy u); [apply IH | apply keeps_ret].
    + intros []; try apply keeps_raise. apply keeps_in_world.
Qed.

End Kept.

(** X11: [scrape_video_collection] only adds to the topic, at its end,
    and never adds a video whose source id a child of the topic has
    already: the children the topic had stay in place, and when their
    source ids were distinct, the source ids of all children are
    distinct afterwards, however the crawl of the collection ends. *)
Theorem scrape_video_collection_no_duplicates
    (depth : nat) (url : string) (kids : list channel_node) (w : world Z) :
  List.NoDup (map node_source_id kids) ->
  exists more,
    fst (snd (scrape_video_collection depth url (kids, w))) = kids ++ more /\
    List.NoDup (map node_source_id (kids ++ more)).
Proof.
  intros Hnodup.
  pose (Q := fun now : list channel_node =>
               exists more, now = kids ++ more /\
                            List.NoDup (map node_source_id (kids ++ more))).
  assert (HQ : forall now v, Q now -> has_source_id (video_source_id v) now = false ->
                             Q (now ++ [VideoNode v])).
  { intros now v (more & -> & Hnd) Hnew. exists (more ++ [VideoNode v]).
    split; [rewrite app_assoc; reflexivity|].
    rewrite app_assoc, map_app. cbn [map node_source_id].
    apply NoDup_snoc; [exact Hnd | apply has_source_id_false, Hnew]. }
  apply (keeps_scrape_video_collection Q HQ depth url (kids, w)).
  exists []. rewrite app_nil_r. split; [reflexivity | exact Hnodup].
Qed.

(** X12: [scrape_video_collection] never raises HTTPError: a page of the
    collection, a video page or a thumbnail that cannot be read ends the
    crawl of the collection with a log entry. *)
Theorem scrape_video_collection_never_http_error
    (depth : nat) (url : string) (s : list channel_node * world Z) :
  fst (scrape_video_collection depth url s) <> Raise HTTPError.
Proof.
  destruct depth as [|d]; cbn [scrape_video_collection].
  - discriminate.
  - unfold try_except.
    match goal with
    | |- context [let (_, _) := ?m s in _] => destruct (m s) as [[r|e] s1]
    end; [discriminate|].
    destruct e; discriminate.
Qed.

Lemma scrape_video_collection_unfold_read (d : nat) (url : string)
      (kids : list channel_node) (w : world Z) :
  http_get (length (events w)) (format_url url) = Raise HTTPError ->
  scrape_video_collection (S d) url (kids, w) =
    (Ok tt, (kids, World (dom w) (files w)
                         (EvLog ERROR ("Could not read collection at " +:+ url)
                            :: EvRead (format_url url) :: events w)
                         (zipper w))).
Proof.
  intros H. cbn [scrape_video_collection].
  unfold try_except. unfold bind at 1. unfold in_world at 1.
  unfold read, downloader_read. cbn [fst snd]. rewrite H.
  unfold in_world, log, modify. destruct w; reflexivity.
Qed.

(** X13: a collection whose page cannot be read still becomes a topic of
    the subject, an empty one: the entry of the sidebar is logged, the
    topic is added under the cleaned title, the read fails and is logged,
    and the crawl of the subject goes on. *)
Theorem scrape_collection_entry_unreadable
    (d collection span a : nat) (href : string)
    (kids : list channel_node) (w : world Z) :
  find (dom w) collection "span" [] = Some span ->
  find (dom w) collection "a" [] = Some a ->
  item (dom w) a "href" = Ok href ->
  http_get (S (length (events w))) (format_url href) = Raise HTTPError ->
  scrape_collection_entry (S d) collection (kids, w) =
    (Ok tt,
     (kids ++ [TopicNode (collection_title (text (dom w) span))
                         ("videos-collection-" +:+ collection_title (text (dom w) span))
                         None []],
      World (dom w) (files w)
            (EvLog ERROR ("Could not read collection at " +:+ href)
               :: EvRead (format_url href)
               :: EvLog INFO ("        " +:+ collection_title (text (dom w) span))
               :: events w)
            (zipper w))).
Proof.
  destruct w as [st fs evs zs]. cbn [dom files events zipper].
  intros Hspan Ha Hhref Hget.
  unfold scrape_collection_entry.
  unfold bind at 1. unfold in_world at 1, gets at 1. cbn [fst snd dom]. rewrite Hspan.
  unfold bind at 1. unfold in_world at 1, unwrap, ret at 1. cbn [fst snd].
  unfold bind at 1. unfold in_world at 1, gets at 1. cbn [fst snd dom].
  unfold bind at 1. unfold in_world at 1, log, modify. cbn [fst snd]. world_simpl.
  unfold under_topic. cbn [fst snd].
  unfold bind at 1. unfold in_world at 1, gets at 1. cbn [fst snd dom]. rewrite Ha.
  unfold bind at 1. unfold in_world at 1, unwrap, ret at 1. cbn [fst snd].
  unfold bind at 1. unfold in_world at 1, dom_op. cbn [fst snd dom].
  rewrite get_item_eq, Hhref. world_simpl.
  rewrite scrape_video_collection_unfold_read by exact Hget.
  reflexivity.
Qed.

(** X14: a video page that cannot be read ends the crawl of its
    collection: when the page of the first search result raises
    HTTPError, nothing is added to the topic, no other result is looked
    at, the next page of the collection is not followed, and the error is
    logged against the collection. *)
Theorem scrape_video_collection_abandoned
    (d : nat) (url markup href : string) (r header a : nat) (rest : list nat)
    (kids : list channel_node) (w : world Z) :
  http_get (length (events w)) (format_url url) = Ok markup ->
  find_all (fst (alloc (html5lib markup) (dom w))) (snd (alloc (html5lib markup) (dom w)))
    "div" [("class", "search-result")] = r :: rest ->
  find (fst (alloc (html5lib markup) (dom w))) r
    "div" [("class", "views-field-field-html-title")] = Some header ->
  find (fst (alloc (html5lib markup) (dom w))) header "a" [] = Some a ->
  item (fst (alloc (html5lib markup) (dom w))) a "href" = Ok href ->
  http_get (S (S (length (events w)))) (format_url href) = Raise HTTPError ->
  scrape_video_collection (S d) url (kids, w) =
    (Ok tt,
     (kids,
      World (fst (alloc (html5lib markup) (dom w))) (files w)
            (EvLog ERROR ("Could not read collection at " +:+ url)
               :: EvRead (format_url href)
               :: EvLog INFO ("            " +:+
                              Py.strip (text (fst (alloc (html5lib markup) (dom w))) header))
               :: EvRead (format_url url) :: events w)
            (zipper w))).
Proof.
  destruct w as [st fs evs zs]. cbn [dom files events zipper].
  intros Hget. destruct (alloc (html5lib markup) st) as [st1 root] eqn:Halloc.
  cbn [fst snd]. intros Hresults Hheader Ha Hhref Hfail.
  cbn [scrape_video_collection]. unfold try_except.
  unfold bind at 1. unfold in_world at 1, read, downloader_read. cbn [fst snd events].
  rewrite Hget. world_simpl.
  unfold bind at 1. unfold in_world at 1, dom_op, BeautifulSoup. cbn [fst snd dom].
  rewrite Halloc. world_simpl.
  unfold bind at 1. unfold in_world at 1, gets at 1. cbn [fst snd dom]. rewrite Hresults.
  unfold bind at 1. cbn [for_each]. unfold bind at 1.
  unfold scrape_search_result at 1.
  unfold bind at 1. unfold in_world at 1, gets at 1. cbn [fst snd dom]. rewrite Hheader.
  unfold bind at 1. unfold in_world at 1, unwrap, ret at 1. cbn [fst snd].
  unfold bind at 1. unfold in_world at 1, gets at 1. cbn [fst snd dom].
  unfold bind at 1. unfold in_world at 1, log, modify. cbn [fst snd]. world_simpl.
  unfold bind at 1. unfold in_world at 1, gets at 1. cbn [fst snd dom].
  unfold bind at 1. unfold in_world at 1, gets at 1. cbn [fst snd dom]. rewrite Ha.
  unfold bind at 1. unfold in_world at 1, ret at 1. cbn [fst snd].
  unfold bind at 1. unfold in_world at 1, dom_op. cbn [fst snd dom].
  rewrite get_item_eq, Hhref. world_simpl.
  unfold bind at 1. unfold in_world at 1, read, downloader_read. cbn [fst snd events length].
  rewrite Hfail. world_simpl.
  unfold in_world, log, modify. reflexivity.
Qed.

End VideoCollection.

(** ** The video tag *)

Lemma update_cell_app (st l : soup) (i : nat) (f : cell -> cell) :
  update_cell (length st + i) f (st ++ l) = st ++ update_cell i f l.
Proof.
  unfold update_cell. rewrite lookup_app_r by lia.
  replace (length st + i - length st) with i by lia.
  destruct (l !! i) as [c|]; [|reflexivity].
  rewrite insert_app_r. reflexivity.
Qed.

Lemma parent_of_fresh (st l : soup) (x : nat) :
  (forall j c k, st !! j = Some c -> In k (cell_contents c) -> k < length st) ->
  length st <= x ->
  (forall c, In c l -> ~ In x (cell_contents c)) ->
  parent_of (st ++ l) x = None.
Proof.
  intros Hclosed Hx Hl. apply parent_of_None. intros j c Hj Hin.
  destruct (Nat.lt_ge_cases j (length st)) as [Hlt|Hge].
  - rewrite lookup_app_l in Hj by exact Hlt.
    pose proof (Hclosed j c x Hj Hin). lia.
  - rewrite lookup_app_r in Hj by exact Hge.
    apply (Hl c); [|exact Hin].
    apply list_elem_of_In, list_elem_of_lookup. eauto.
Qed.

Lemma parent_of_new (st l : soup) (x : nat) :
  closed st = true -> length st <= x ->
  (forall c, In c l -> ~ In x (cell_contents c)) ->
  parent_of (st ++ l) x = None.
Proof. intros Hclosed. apply parent_of_fresh, closed_spec, Hclosed. Qed.

Lemma video_tag_cells (st : soup) (src : string) :
  closed st = true ->
  (set_item (S (S (length st))) "src" (Some src) >>
   set_item (S (S (length st))) "type" (Some "video/mp4") >>
   set_item (S (length st)) "controls" (Some "true") >>
   set_item (S (length st)) "style" (Some "width: 100%;") >>
   append (S (length st)) (S (S (length st))))
    (st ++ [Element "[document]" [] []; Element "video" [] []; Element "source" [] []])
  = (Ok tt,
     st ++ [Element "[document]" [] [];
            Element "video" [("controls", Some "true"); ("style", Some "width: 100%;")]
                    [S (S (length st))];
            Element "source" [("src", Some src); ("type", Some "video/mp4")] []]).
Proof.
  intros Hclosed.
  replace (S (S (length st))) with (length st + 2) by lia.
  replace (S (length st)) with (length st + 1) by lia.
  unfold bind, set_item, modify.
  rewrite !update_cell_app. cbn [update_cell lookup list_lookup].
  match goal with
  | |- append _ _ (st ++ ?l) = _ =>
      change l with [Element "[document]" [] [];
                     Element "video" [("controls", Some "true"); ("style", Some "width: 100%;")] [];
                     Element "source" [("src", Some src); ("type", Some "video/mp4")] []]
  end.
  unfold append. destruct (Nat.eqb_spec (length st + 1) (length st + 2)) as [Heq|_]; [lia|].
  unfold modify, extract. rewrite parent_of_new.
  - rewrite lookup_app_r by lia.
    replace (length st + 1 - length st) with 1 by lia.
    cbn [lookup list_lookup cell_contents length]. unfold insert_child.
    rewrite update_cell_app. reflexivity.
  - exact Hclosed.
  - lia.
  - intros c [<-|[<-|[<-|[]]]]; cbn [cell_contents]; intros [].
Qed.

Section VideoTag.
Context {O : Outside} {Z : Type} {HW : HTMLWriter Z}.

(** X15: [generate_video_tag] hands the file to the writer for the
    directory videos and returns a new video element with controls, full
    width and one source child that refers to the path the writer
    returned, as video/mp4; the cells of the documents at hand are left
    as they are. *)
Theorem generate_video_tag_element
    (filepath src : string) (z z' : Z) (w : world Z) :
  closed (dom w) = true ->
  zipper w = Some z ->
  hw_write_file filepath None (Some "videos") (files w) z = (Ok src, z') ->
  generate_video_tag filepath w =
    (Ok (S (length (dom w))),
     World (dom w ++
              [Element "[document]" [] [];
               Element "video" [("controls", Some "true"); ("style", Some "width: 100%;")]
                       [S (S (length (dom w)))];
               Element "source" [("src", Some src); ("type", Some "video/mp4")] []])
           (files w)
           (EvWriter "write_file" filepath :: events w)
           (Some z')).
Proof.
  destruct w as [st fs evs zs]. cbn [dom files events zipper].
  intros Hclosed -> Hwrite.
  unfold generate_video_tag.
  unfold bind at 1. unfold dom_op at 1, BeautifulSoup. cbn [dom alloc alloc_list EMPTY_SOUP].
  rewrite insert_app_new. world_simpl.
  unfold bind at 1. unfold dom_op at 1, new_tag. world_simpl.
  unfold bind at 1. unfold dom_op at 1, new_tag. world_simpl.
  unfold bind at 1. unfold zipper_write_file. unfold bind at 1. unfold gets at 1.
  world_simpl. unfold on_zipper. world_simpl. rewrite Hwrite. world_simpl.
  unfold bind at 1. unfold dom_op at 1. world_simpl.
  rewrite <- !app_assoc. cbn [app].
  rewrite !length_app. cbn [length].
  replace (length st + 1) with (S (length st)) by lia.
  replace (length st + 2) with (S (S (length st))) by lia.
  rewrite (video_tag_cells st src Hclosed). reflexivity.
Qed.

End VideoTag.


(** ** Links to images *)

Lemma index_of_app (x : nat) (kids more : list nat) :
  In x kids -> index_of x (kids ++ more) = index_of x kids.
Proof.
  intros Hin. unfold index_of.
  destruct (find_index (Nat.eqb x) kids) as [i|] eqn:E.
  - rewrite (find_index_app_l _ _ more _ E). reflexivity.
  - apply list_elem_of_In, list_elem_of_lookup in Hin as [i Hi].
    pose proof (find_index_None _ _ E i x Hi) as Hx. rewrite Nat.eqb_refl in Hx. discriminate.
Qed.

Lemma index_of_lt (x : nat) (kids : list nat) :
  In x kids -> index_of x kids < length kids.
Proof. intros Hin. eapply lookup_lt_Some, index_of_In, Hin. Qed.

Lemma image_link_step (st : soup) (paragraph link : nat)
      (pn : string) (pa : list (string * option string)) (kids : list nat)
      (src : string) :
  Ordered st ->
  parent_of st link = Some paragraph ->
  st !! paragraph = Some (Element pn pa kids) ->
  (set_item (length st) "src" (Some src) >>
   set_item (length st) "style" (Some "max-width: 100%;") >>
   append paragraph (length st) >>
   shown <- gets (fun st => text st link) ;;
   replace_with_text link shown) (st ++ [Element "img" [] []])
  = (Ok tt,
     <[paragraph := Element pn pa (<[index_of link kids := S (length st)]> kids ++ [length st])]>
       (st ++ [Element "img" [("src", Some src); ("style", Some "max-width: 100%;")] [];
               NavigableString (text st link)])).
Proof.
  intros Hord Hp Hpar.
  pose proof (lookup_lt_Some _ _ _ Hpar) as Hplt.
  pose proof (parent_of_Some _ _ _ Hp) as (c0 & Hc0 & Hin).
  rewrite Hpar in Hc0. injection Hc0 as <-. cbn [cell_contents] in Hin.
  destruct (Hord paragraph _ link Hpar Hin) as [Hlt Hllt].
  assert (Hcl : forall j c k, st !! j = Some c -> In k (cell_contents c) -> k < length st).
  { intros j c k Hj Hk. apply (Hord j c k Hj Hk). }
  set (img := Element "img" [("src", Some src); ("style", Some "max-width: 100%;")] []).
  set (st2 := <[paragraph := Element pn pa (kids ++ [length st])]> (st ++ [img])).
  assert (Hlen2 : length st2 = S (length st)).
  { unfold st2. rewrite length_insert, length_app. cbn. lia. }
  assert (Happend : append paragraph (length st) (st ++ [img]) = (Ok tt, st2)).
  { unfold append. destruct (Nat.eqb_spec paragraph (length st)) as [Heq|_]; [lia|].
    unfold modify, extract. rewrite parent_of_fresh.
    - rewrite lookup_app_l by exact Hplt. rewrite Hpar. cbn [cell_contents].
      unfold insert_child, update_cell. rewrite lookup_app_l by exact Hplt. rewrite Hpar.
      cbn [cell_contents set_contents]. rewrite firstn_all, skipn_all. reflexivity.
    - exact Hcl.
    - lia.
    - intros c [<-|[]]. cbn [cell_contents img]. intros []. }
  assert (Htext : text st2 link = text st link).
  { unfold text. apply (text_frame st st2 Hord); try lia.
    split; [lia|]. intros j Hj Hjlt. unfold st2.
    rewrite list_lookup_insert_ne by lia. apply lookup_app_l. exact Hjlt. }
  unfold bind at 1. unfold set_item at 1, modify. rewrite update_cell_app_new.
  unfold bind at 1. unfold set_item at 1, modify. rewrite update_cell_app_new.
  cbn [cell_attrs set_attrs assoc_set String.eqb Ascii.eqb Bool.eqb]. fold img.
  unfold bind at 1. rewrite Happend.
  unfold bind at 1. unfold gets at 1. rewrite Htext.
  unfold replace_with_text, bind, new_string. rewrite Hlen2.
  rewrite (replace_with_fresh _ link (S (length st)) paragraph
             (Element pn pa (kids ++ [length st]))).
  - cbn [cell_contents set_contents]. f_equal.
    rewrite index_of_app by exact Hin.
    rewrite (insert_app_l kids) by (apply index_of_lt, Hin).
    unfold st2.
    rewrite (insert_app_l (<[paragraph := _]> (st ++ [img])))
      by (rewrite length_insert, length_app; lia).
    rewrite list_insert_insert_eq.
    rewrite <- insert_app_l by (rewrite length_app; lia).
    rewrite <- app_assoc. reflexivity.
  - apply find_index_app_l.
    apply (find_index_intro _ _ paragraph (Element pn pa (kids ++ [length st]))).
    + unfold st2. apply list_lookup_insert_eq. rewrite length_app. lia.
    + apply has_child_In. cbn [cell_contents]. apply in_or_app. left. exact Hin.
    + intros j b Hj Hb. unfold st2 in Hb.
      rewrite list_lookup_insert_ne in Hb by lia.
      rewrite lookup_app_l in Hb by lia.
      apply (find_index_first _ _ _ Hp j b Hj Hb).
  - rewrite lookup_app_l by lia. unfold st2.
    apply list_lookup_insert_eq. rewrite length_app. lia.
  - lia.
  - lia.
  - intros j c' Hj Hy.
    destruct (Nat.lt_ge_cases j (S (length st))) as [Hjlt|Hge].
    + rewrite lookup_app_l in Hj by lia. unfold st2 in Hj.
      destruct (Nat.eq_dec paragraph j) as [<-|Hjp].
      * rewrite list_lookup_insert_eq in Hj by (rewrite length_app; lia).
        injection Hj as <-. cbn [cell_contents] in Hy.
        apply in_app_or in Hy as [Hy|[Hy|[]]]; [|lia].
        pose proof (Hcl paragraph _ _ Hpar Hy). lia.
      * rewrite list_lookup_insert_ne in Hj by assumption.
        destruct (Nat.lt_ge_cases j (length st)) as [Hj0|Hj0].
        -- rewrite lookup_app_l in Hj by assumption. pose proof (Hcl j c' _ Hj Hy). lia.
        -- assert (j = length st) by lia. subst j.
           rewrite list_lookup_middle in Hj by reflexivity. injection Hj as <-. destruct Hy.
    + rewrite lookup_app_r in Hj by lia. rewrite Hlen2 in Hj.
      destruct (j - S (length st)) as [|k] eqn:E; cbn in Hj; [|discriminate].
      injection Hj as <-. destruct Hy.
Qed.

Section MoreLinks.
Context {O : Outside} {Z : Type} {HW : HTMLWriter Z}.

(** X16: a link to an image on another site, the link a child of the
    paragraph: the image is read from the href as it stands, written to
    the zip under images by its file name, and shown by a new img element
    of full width at the end of the paragraph; the link itself gives way
    to its text. *)
Theorem handle_link_inlines_image
    (w : world Z) (paragraph link : nat)
    (pn : string) (pa : list (string * option string)) (kids : list nat)
    (href ext data src : string) (z z1 z2 : Z) :
  Ordered (dom w) ->
  parent_of (dom w) link = Some paragraph ->
  dom w !! paragraph = Some (Element pn pa kids) ->
  item (dom w) link "href" = Ok href ->
  zipper w = Some z ->
  hw_contains href z = (Ok false, z1) ->
  Py.contains "exploratorium.edu/snacks/" href = false ->
  find (dom w) link "img" [] = None ->
  Py.contains "/sites/default/files/" href = false ->
  Py.contains "exploratorium.edu" href = false ->
  image_extension href = Some ext ->
  http_get (S (length (events w))) href = Ok data ->
  hw_write_contents (Py.last (Py.split "/" href)) data (Some "images") z1 = (Ok src, z2) ->
  handle_link paragraph link w =
    (Ok tt,
     World (<[paragraph := Element pn pa (<[index_of link kids := S (length (dom w))]> kids
                                            ++ [length (dom w)])]>
              (dom w ++ [Element "img" [("src", Some src); ("style", Some "max-width: 100%;")] [];
                         NavigableString (text (dom w) link)]))
           (files w)
           (EvWriter "write_url" href :: EvRead href :: EvWriter "contains" href :: events w)
           (Some z2)).
Proof.
  destruct w as [st fs evs zs]. cbn [dom files events zipper].
  intros Hord Hp Hpar Hitem -> Hknown Hsnack Himg Hfiles Hsite Hext Hget Hwrite.
  unfold handle_link.
  unfold bind at 1. unfold dom_op at 1. cbn [dom]. rewrite get_item_eq, Hitem.
  unfold bind at 1. unfold zipper_contains, on_zipper. world_simpl.
  rewrite Hknown, Hsnack.
  unfold bind at 1. unfold gets at 1. world_simpl. rewrite Himg, Hfiles, Hsite, Hext.
  unfold bind at 1. unfold dom_op at 1, new_tag. world_simpl.
  unfold bind at 1. unfold zipper_write_url. unfold bind at 1.
  unfold downloader_read. world_simpl. cbn [length]. rewrite Hget.
  unfold on_zipper. world_simpl. rewrite Hwrite. world_simpl.
  unfold dom_op. world_simpl.
  rewrite (image_link_step st paragraph link pn pa kids src Hord Hp Hpar). reflexivity.
Qed.

(** X17: an anchor without an href (a named anchor) makes the step raise
    KeyError before anything is asked of the writer or changed. *)
Theorem handle_link_without_href
    (w : world Z) (paragraph link : nat)
    (nm : string) (a : list (string * option string)) (kids : list nat) :
  dom w !! link = Some (Element nm a kids) ->
  assoc "href" a = None ->
  handle_link paragraph link w = (Raise (KeyError "href"), w).
Proof.
  destruct w as [st fs evs zs]. cbn [dom]. intros Hlink Hattr.
  unfold handle_link, bind, dom_op, get_item. cbn [dom].
  rewrite Hlink. cbn [cell_attrs]. rewrite Hattr. reflexivity.
Qed.

(** X18: a link whose href is the name of something the writer holds
    already is left as a link: nothing is read, written or changed. *)
Theorem handle_link_known_kept
    (w : world Z) (paragraph link : nat) (href : string) (z z' : Z) :
  item (dom w) link "href" = Ok href ->
  zipper w = Some z ->
  hw_contains href z = (Ok true, z') ->
  handle_link paragraph link w =
    (Ok tt, World (dom w) (files w) (EvWriter "contains" href :: events w) (Some z')).
Proof.
  destruct w as [st fs evs zs]. cbn [dom files events zipper].
  intros Hitem -> Hknown.
  unfold handle_link.
  unfold bind at 1. unfold dom_op at 1. cbn [dom]. rewrite get_item_eq, Hitem.
  unfold bind at 1. unfold zipper_contains, on_zipper. world_simpl.
  rewrite Hknown. reflexivity.
Qed.

End MoreLinks.

(** ** The theorems above at concrete inputs *)

Lemma download_exhausts_attempts_witness :
  @download (flaky_outside 100 (Ok "mp4") []) (list (string * string))
    "http://v" "/chef/videos/v.mp4" 2 empty_world
  = (Raise DownloadError,
     World [] []
           [EvLog ERROR "Could not download video http://v (error)";
            EvYoutubeDL "http://v" "/chef/videos/v.mp4";
            EvYoutubeDL "http://v" "/chef/videos/v.mp4";
            EvYoutubeDL "http://v" "/chef/videos/v.mp4"] None).
Proof.
  apply (@download_exhausts_attempts (flaky_outside 100 (Ok "mp4") []) _
           "http://v" "/chef/videos/v.mp4" 2 empty_world).
  intros k Hk. do 3 (destruct k as [|k]; [reflexivity|]). lia.
Defined.

Lemma download_retries_until_success_witness :
  @download (flaky_outside 2 (Ok "mp4") []) (list (string * string))
    "http://v" "/chef/videos/v.mp4" DOWNLOAD_ATTEMPTS empty_world
  = (Ok tt,
     World [] [("/chef/videos/v.mp4", "mp4")]
           [EvYoutubeDL "http://v" "/chef/videos/v.mp4";
            EvYoutubeDL "http://v" "/chef/videos/v.mp4";
            EvYoutubeDL "http://v" "/chef/videos/v.mp4"] None).
Proof.
  apply (@download_retries_until_success (flaky_outside 2 (Ok "mp4") []) _
           "http://v" "/chef/videos/v.mp4" "mp4" DOWNLOAD_ATTEMPTS 2 empty_world).
  - unfold DOWNLOAD_ATTEMPTS. lia.
  - intros j Hj. do 2 (destruct j as [|j]; [reflexivity|]). lia.
  - reflexivity.
Defined.

Lemma download_gives_up_on_other_errors_witness :
  @download (flaky_outside 1 (Raise OSError) []) (list (string * string))
    "http://v" "/chef/videos/v.mp4" DOWNLOAD_ATTEMPTS empty_world
  = (Raise OSError,
     World [] []
           [EvYoutubeDL "http://v" "/chef/videos/v.mp4";
            EvYoutubeDL "http://v" "/chef/videos/v.mp4"] None).
Proof.
  apply (@download_gives_up_on_other_errors (flaky_outside 1 (Raise OSError) []) _
           "http://v" "/chef/videos/v.mp4" OSError DOWNLOAD_ATTEMPTS 1 empty_world).
  - unfold DOWNLOAD_ATTEMPTS. lia.
  - intros j Hj. destruct j as [|j]; [reflexivity | lia].
  - reflexivity.
  - discriminate.
Defined.

Lemma download_web_video_once_witness :
  @download_web_video (flaky_outside 0 (Ok "mp4") []) (list (string * string))
    "http://other" "v.mp4"
    (World [] [("/chef/videos/v.mp4", "mp4")]
           [EvYoutubeDL "http://v" "/chef/videos/v.mp4"] None)
  = (Ok "/chef/videos/v.mp4",
     World [] [("/chef/videos/v.mp4", "mp4")]
           [EvYoutubeDL "http://v" "/chef/videos/v.mp4"] None).
Proof.
  apply (@download_web_video_once (flaky_outside 0 (Ok "mp4") []) _
           "http://v" "http://other" "v.mp4" "/chef/videos/v.mp4" empty_world).
  reflexivity.
Defined.

Lemma scrape_style_assets_unreachable_witness :
  @scrape_style (css_outside [] asset_sheets) _ ricecooker_writer
    "https://www.exploratorium.edu/sites/all/themes/main.css" (open_world [])
  = (Ok "a { background: url(/img/logo.png?v=2) } b { background: url(/img/dot.gif) }",
     World []
           [("/chef/snacks/shared-assets/logo.png", "");
            ("/chef/snacks/shared-assets/dot.gif", "")]
           [EvLog WARNING "Could not download css url /img/dot.gif";
            EvRead "https://www.exploratorium.edu/img/dot.gif";
            EvLog WARNING "Could not download css url /img/logo.png?v=2";
            EvRead "https://www.exploratorium.edu/img/logo.png?v=2";
            EvParseUrl "https://www.exploratorium.edu/sites/all/themes/main.css"]
           (Some [])).
Proof.
  apply (@scrape_style_assets_unreachable (css_outside [] asset_sheets) _ ricecooker_writer
           "https://www.exploratorium.edu/sites/all/themes/main.css"
           "a { background: url(/img/logo.png?v=2) } b { background: url(/img/dot.gif) }"
           ["/img/logo.png?v=2"; "/img/dot.gif"] (open_world [])).
  - reflexivity.
  - vm_compute. constructor; [|constructor; [|constructor]].
    + intros [H|[]]. discriminate.
    + intros [].
  - intros u [<-|[<-|[]]]; reflexivity.
  - intros n u [<-|[<-|[]]]; reflexivity.
Defined.

Lemma scrape_style_cached_assets_witness :
  let w' :=
    snd (@scrape_style (css_outside asset_site asset_sheets) _ ricecooker_writer
           "https://www.exploratorium.edu/sites/all/themes/one.css"
           (open_world [("/chef/snacks/shared-assets/logo.png", "")])) in
  files w' = [("/chef/snacks/shared-assets/logo.png", "")] /\
  List.filter is_read (events w') = [] /\
  parse_urls (events w') = ["https://www.exploratorium.edu/sites/all/themes/one.css"].
Proof.
  intros w'. subst w'.
  apply (@scrape_style_cached_assets (css_outside asset_site asset_sheets) _ ricecooker_writer
           "https://www.exploratorium.edu/sites/all/themes/one.css"
           "a { background: url(/img/logo.png?v=2) }" ["/img/logo.png?v=2"]
           (open_world [("/chef/snacks/shared-assets/logo.png", "")])).
  - reflexivity.
  - intros u [<-|[]]. reflexivity.
Defined.

Lemma scrape_style_fetches_asset_witness :
  @scrape_style (css_outside asset_site asset_sheets) _ ricecooker_writer
    "https://www.exploratorium.edu/sites/all/themes/one.css" (open_world [])
  = (Ok "a { background: url(../assets/logo.png) }",
     World []
           [("/chef/snacks/shared-assets/logo.png",
             "https://www.exploratorium.edu/img/logo.png?v=2")]
           [EvWriter "write_file" "/chef/snacks/shared-assets/logo.png";
            EvRead "https://www.exploratorium.edu/img/logo.png?v=2";
            EvParseUrl "https://www.exploratorium.edu/sites/all/themes/one.css"]
           (Some [("assets/logo.png", "https://www.exploratorium.edu/img/logo.png?v=2")])).
Proof.
  apply (@scrape_style_fetches_asset (css_outside asset_site asset_sheets) _ ricecooker_writer
           "https://www.exploratorium.edu/sites/all/themes/one.css"
           "a { background: url(/img/logo.png?v=2) }" "/img/logo.png?v=2"
           "https://www.exploratorium.edu/img/logo.png?v=2" "assets/logo.png"
           [] [("assets/logo.png", "https://www.exploratorium.edu/img/logo.png?v=2")]
           (open_world [])); reflexivity.
Defined.

Lemma scrape_snack_page_unreadable_witness :
  @scrape_snack_page (table_outside []) _ ricecooker_writer
    "/snacks/drawing-board" 2 empty_world
  = (Ok ("/chef/snacks/drawing-board.zip", []),
     World [] []
           [EvLog ERROR "Could not scrape /snacks/drawing-board (error)";
            EvRead "https://www.exploratorium.edu/snacks/drawing-board";
            EvRead "https://www.exploratorium.edu/snacks/drawing-board";
            EvRead "https://www.exploratorium.edu/snacks/drawing-board"] None).
Proof.
  apply (@scrape_snack_page_unreadable (table_outside []) _ ricecooker_writer
           "/snacks/drawing-board" HTTPError 2 empty_world).
  intros k Hk. reflexivity.
Defined.

Lemma scrape_video_collection_no_duplicates_witness :
  exists more,
    fst (snd (@scrape_video_collection (table_outside video_site) (table_parser video_site)
                (list (string * string)) 10 "/video/collection" ([], empty_world)))
      = [] ++ more /\
    List.NoDup (map node_source_id ([] ++ more)).
Proof.
  apply (@scrape_video_collection_no_duplicates (table_outside video_site)
           (table_parser video_site) _ 10 "/video/collection" [] empty_world).
  constructor.
Defined.

Lemma scrape_collection_entry_unreadable_witness :
  @scrape_collection_entry (table_outside []) (table_parser []) (list (string * string))
    1 7 ([], World (fst (alloc subject_sidebar [])) [] [] None)
  = (Ok tt,
     ([TopicNode "Pendulums" "videos-collection-Pendulums" None []],
      World (fst (alloc subject_sidebar [])) []
            [EvLog ERROR "Could not read collection at /video/pendulums";
             EvRead "https://www.exploratorium.edu/video/pendulums";
             EvLog INFO "        Pendulums"] None)).
Proof.
  apply (@scrape_collection_entry_unreadable (table_outside []) (table_parser []) _
           0 7 9 8 "/video/pendulums" []
           (World (fst (alloc subject_sidebar [])) [] [] None)); reflexivity.
Defined.

Lemma scrape_video_collection_abandoned_witness :
  fst (snd (@scrape_video_collection (table_outside lost_site) (table_parser lost_site)
              (list (string * string)) 3 "/video/lost" ([], empty_world))) = [] /\
  events (snd (snd (@scrape_video_collection (table_outside lost_site)
                      (table_parser lost_site) (list (string * string))
                      3 "/video/lost" ([], empty_world))))
  = [EvLog ERROR "Could not read collection at /video/lost";
     EvRead "https://www.exploratorium.edu/video/missing";
     EvLog INFO "            Missing";
     EvRead "https://www.exploratorium.edu/video/lost"].
Proof.
  rewrite (@scrape_video_collection_abandoned (table_outside lost_site)
             (table_parser lost_site) _ 2 "/video/lost"
             "https://www.exploratorium.edu/video/lost" "/video/missing"
             4 5 6 [11] [] empty_world); try reflexivity.
  split; reflexivity.
Defined.

Lemma generate_video_tag_element_witness :
  @generate_video_tag _ ricecooker_writer "/chef/videos/v.mp4"
    (open_world [("/chef/videos/v.mp4", "mp4")])
  = (Ok 1,
     World [Element "[document]" [] [];
            Element "video" [("controls", Some "true"); ("style", Some "width: 100%;")] [2];
            Element "source" [("src", Some "videos/v.mp4"); ("type", Some "video/mp4")] []]
           [("/chef/videos/v.mp4", "mp4")]
           [EvWriter "write_file" "/chef/videos/v.mp4"]
           (Some [("videos/v.mp4", "mp4")])).
Proof.
  apply (@generate_video_tag_element _ ricecooker_writer "/chef/videos/v.mp4"
           "videos/v.mp4" [] [("videos/v.mp4", "mp4")]
           (open_world [("/chef/videos/v.mp4", "mp4")])); reflexivity.
Defined.

Lemma handle_link_inlines_image_witness :
  to_tree 3 (dom (snd (@handle_link (table_outside picture_site) _ ricecooker_writer 5 7
                         (at_links picture_page)))) 5
  = Tag "p" []
      [Text "See "; Text "the picture";
       Tag "a" [("name", Some "top")] [Text "top"];
       Tag "img" [("src", Some "images/pic.png"); ("style", Some "max-width: 100%;")] []].
Proof.
  rewrite (@handle_link_inlines_image (table_outside picture_site) _ ricecooker_writer
             (at_links picture_page) 5 7 "p" [] [6; 7; 9]
             "http://example.org/pic.png" "png" "http://example.org/pic.png"
             "images/pic.png" [] []
             [("images/pic.png", "http://example.org/pic.png")]);
    try reflexivity.
  apply ordered_Ordered. reflexivity.
Defined.

Lemma handle_link_without_href_witness :
  @handle_link (table_outside picture_site) _ ricecooker_writer 5 9 (at_links picture_page)
  = (Raise (KeyError "href"), at_links picture_page).
Proof.
  apply (@handle_link_without_href (table_outside picture_site) _ ricecooker_writer
           (at_links picture_page) 5 9 "a" [("name", Some "top")] [10]); reflexivity.
Defined.

Lemma handle_link_known_kept_witness :
  @handle_link (table_outside picture_site) _ ricecooker_writer 5 7
    (World (fst (alloc picture_page [])) [] []
           (Some [("http://example.org/pic.png", "png")]))
  = (Ok tt,
     World (fst (alloc picture_page [])) []
           [EvWriter "contains" "http://example.org/pic.png"]
           (Some [("http://example.org/pic.png", "png")])).
Proof.
  apply (@handle_link_known_kept (table_outside picture_site) _ ricecooker_writer
           (World (fst (alloc picture_page [])) [] []
                  (Some [("http://example.org/pic.png", "png")]))
           5 7 "http://example.org/pic.png"
           [("http://example.org/pic.png", "png")]
           [("http://example.org/pic.png", "png")]); reflexivity.
Defined.

(** ** The records of the video mapping *)

Lemma in_assoc_set {V} (k k' : string) (v v' : V) (l : list (string * V)) :
  In (k, v) (assoc_set k' v' l) -> (k = k' /\ v = v') \/ In (k, v) l.
Proof.
  induction l as [|[k0 v0] l IH]; cbn [assoc_set In].
  - intros [[= <- <-]|[]]. left. split; reflexivity.
  - destruct (String.eqb k0 k'); cbn [In].
    + intros [[= <- <-]|H]; [left; split; reflexivity | right; right; exact H].
    + intros [H|H]; [right; left; exact H|].
      destruct (IH H) as [E|E]; [left; exact E | right; right; exact E].
Qed.

(** X21: whatever the flag, every record of the mapping that
    [get_brightcove_mapping] returns holds the player url of the video id
    it is stored under, and no id is stored twice: the callers' [v['url']]
    never raises. *)
Theorem get_brightcove_mapping_urls
    (st : soup) (contents : nat) (get_playlist : bool) (m : mapping)
    (k : string) (rec : record) :
  get_brightcove_mapping st contents get_playlist = Ok m ->
  In (k, rec) m ->
  List.NoDup (map fst m) /\
  exists account player, assoc "url" rec = Some (VStr (BRIGHTCOVE_URL account player k)).
Proof.
  intros Hm Hin.
  pose (P := fun acc : mapping =>
               List.NoDup (map fst acc) /\
               forall k rec, In (k, rec) acc ->
                 exists account player,
                   assoc "url" rec = Some (VStr (BRIGHTCOVE_URL account player k))).
  assert (Hdirect : forall acc video acc',
            P (fst acc) -> add_direct st contents acc video = Ok acc' -> P (fst acc')).
  { intros acc video acc' [Hnd Hurls] Hstep. split.
    - eapply add_direct_keys; eassumption.
    - revert Hstep. unfold add_direct.
      destruct (item st video "data-account") as [account|]; cbn [rbind]; [|discriminate].
      destruct (item st video "data-video-id") as [vid|]; cbn [rbind]; [|discriminate].
      destruct (item st video "data-player") as [player|]; cbn [rbind]; [|discriminate].
      intros [= <-]. cbn [fst]. intros k0 rec0 H0.
      apply in_assoc_set in H0 as [[-> ->]|H0]; [|apply Hurls, H0].
      exists account, player. reflexivity. }
  assert (Hitem : forall pl account acc video acc',
            P acc -> add_playlist_item st pl account acc video = Ok acc' -> P acc').
  { intros pl account acc video acc' [Hnd Hurls] Hstep. split.
    - eapply add_playlist_item_keys; eassumption.
    - revert Hstep. unfold add_playlist_item.
      destruct (item st video "data-id") as [vid|]; cbn [rbind]; [|discriminate].
      destruct (item st video "data-title") as [title|]; cbn [rbind]; [|discriminate].
      destruct (item st video "data-pid") as [player|]; cbn [rbind]; [|discriminate].
      intros [= <-]. intros k0 rec0 H0.
      apply in_assoc_set in H0 as [[-> ->]|H0]; [|apply Hurls, H0].
      exists account, player. reflexivity. }
  assert (HP : P m).
  { revert Hm. unfold get_brightcove_mapping.
    destruct (fold_res (find_all st contents "video" [("class", "bc5player")])
                ([], EmptyString) (add_direct st contents)) as [r|e] eqn:Hfold;
      cbn [rbind]; [|discriminate].
    assert (Hr : P (fst r)).
    { refine (fold_res_invariant (fun acc => P (fst acc)) _ _ Hdirect _ _ _ Hfold).
      split; [constructor | intros k0 rec0 []]. }
    destruct (find st contents "div" [("id", "media-collection-banner-playlist")]) as [pl|].
    - destruct get_playlist.
      + intros Hitems.
        apply (fold_res_invariant P _ _ (Hitem pl (snd r)) _ _ Hr Hitems).
      + intros [= <-]. exact Hr.
    - intros [= <-]. exact Hr. }
  destruct HP as [Hnd Hurls]. split; [exact Hnd | apply Hurls, Hin].
Qed.

(** X22: on a page that has a playlist and no direct embed the account
    is never set: every record of the mapping is a playlist record whose
    player url is built with the empty account. *)
Theorem get_brightcove_mapping_playlist_only
    (st : soup) (contents : nat) (m : mapping) (k : string) (rec : record) :
  find_all st contents "video" [("class", "bc5player")] = [] ->
  get_brightcove_mapping st contents true = Ok m ->
  In (k, rec) m ->
  exists playlist title player,
    rec = playlist_record playlist title EmptyString player k /\
    assoc "url" rec = Some (VStr (BRIGHTCOVE_URL EmptyString player k)).
Proof.
  intros Hnone Hm Hin. revert Hm. unfold get_brightcove_mapping. rewrite Hnone.
  cbn [fold_res rbind fst snd].
  destruct (find st contents "div" [("id", "media-collection-banner-playlist")]) as [pl|];
    [|intros [= <-]; destruct Hin].
  intros Hitems.
  pose (P := fun acc : mapping =>
               forall k rec, In (k, rec) acc ->
                 exists title player, rec = playlist_record pl title EmptyString player k).
  assert (HP : P m).
  { refine (fold_res_invariant P _ _ _ _ _ _ Hitems); [|intros k0 rec0 []].
    intros acc video acc' Hacc. unfold add_playlist_item.
    destruct (item st video "data-id") as [vid|]; cbn [rbind]; [|discriminate].
    destruct (item st video "data-title") as [title|]; cbn [rbind]; [|discriminate].
    destruct (item st video "data-pid") as [player|]; cbn [rbind]; [|discriminate].
    intros [= <-]. intros k0 rec0 H0.
    apply in_assoc_set in H0 as [[-> ->]|H0]; [|apply Hacc, H0].
    exists title, player. reflexivity. }
  destruct (HP k rec Hin) as (title & player & ->).
  exists pl, title, player. split; reflexivity.
Qed.

Lemma get_brightcove_mapping_urls_witness :
  List.NoDup (map fst [("v42", playlist_record 8 "Pendulum" "acct" "list" "v42")]) /\
  exists account player,
    assoc "url" (playlist_record 8 "Pendulum" "acct" "list" "v42")
      = Some (VStr (BRIGHTCOVE_URL account player "v42")).
Proof.
  apply (get_brightcove_mapping_urls banner_soup 0 true
           [("v42", playlist_record 8 "Pendulum" "acct" "list" "v42")]).
  - reflexivity.
  - left. reflexivity.
Defined.

Lemma get_brightcove_mapping_playlist_only_witness :
  exists playlist title player,
    playlist_record 5 "Waves" "" "list" "v7"
      = playlist_record playlist title EmptyString player "v7" /\
    assoc "url" (playlist_record 5 "Waves" "" "list" "v7")
      = Some (VStr (BRIGHTCOVE_URL EmptyString player "v7")).
Proof.
  apply (get_brightcove_mapping_playlist_only (fst (alloc playlist_page [])) 0
           [("v7", playlist_record 5 "Waves" "" "list" "v7")]).
  - reflexivity.
  - reflexivity.
  - left. reflexivity.
Defined.

(** ** Links around an image *)

Lemma replace_with_inner (st : soup) (x y p q : nat) (c cq : cell) :
  parent_of st x = Some p -> st !! p = Some c ->
  parent_of st y = Some q -> st !! q = Some cq ->
  x <> y -> y <> p -> q <> p ->
  replace_with x y st =
    (Ok tt,
     <[p := set_contents (<[index_of x (cell_contents c) := y]> (cell_contents c)) c]>
       (<[q := set_contents
                 (take (index_of y (cell_contents cq)) (cell_contents cq) ++
                  drop (S (index_of y (cell_contents cq))) (cell_contents cq)) cq]> st)).
Proof.
  intros Hp Hc Hq Hcq Hxy Hyp Hqp. unfold replace_with. rewrite Hp.
  destruct (Nat.eqb_spec x y); [contradiction|].
  destruct (Nat.eqb_spec y p); [contradiction|].
  rewrite Hc.
  pose proof (lookup_lt_Some _ _ _ Hc) as Hplt.
  pose proof (lookup_lt_Some _ _ _ Hcq) as Hqlt.
  pose proof (parent_of_Some _ _ _ Hp) as (c0 & Hc0 & Hin).
  assert (c0 = c) by congruence. subst c0.
  pose proof (parent_of_Some _ _ _ Hq) as (c0 & Hc0' & Hiny).
  assert (c0 = cq) by congruence. subst c0.
  pose proof (index_of_In _ _ Hin) as Hi.
  set (kids := cell_contents c) in *. set (i := index_of x kids) in *.
  assert (Hlt : i < length kids) by (eapply lookup_lt_Some, Hi).
  set (c1 := set_contents (take i kids ++ drop (S i) kids) c).
  assert (Hex : extract x st = <[p := c1]> st).
  { unfold extract, update_cell. rewrite Hp, Hc. reflexivity. }
  rewrite Hex.
  assert (Hc1 : forall k, In k (cell_contents c1) -> In k kids).
  { intros k. unfold c1, kids. destruct c; cbn [set_contents cell_contents]; [intros []|].
    intros Hk. apply in_app_or in Hk as [Hk|Hk]; [eapply in_take, Hk | eapply in_drop, Hk]. }
  assert (Hparent : parent_of (<[p := c1]> st) y = Some q).
  { apply (find_index_intro _ _ q cq).
    - rewrite list_lookup_insert_ne by congruence. exact Hcq.
    - apply has_child_In, Hiny.
    - intros j b Hj Hb.
      destruct (Nat.eq_dec p j) as [<-|Hne].
      + rewrite list_lookup_insert_eq in Hb by exact Hplt. injection Hb as <-.
        pose proof (find_index_first _ _ _ Hq p c Hj Hc) as Hno.
        destruct (has_child y c1) eqn:E; [|reflexivity].
        apply has_child_In, Hc1 in E. apply has_child_In in E. congruence.
      + rewrite list_lookup_insert_ne in Hb by assumption.
        apply (find_index_first _ _ _ Hq j b Hj Hb). }
  rewrite Hparent. destruct (Nat.eqb_spec q p); [contradiction|]. cbn [andb].
  unfold extract at 1. rewrite Hparent. unfold update_cell at 1.
  rewrite list_lookup_insert_ne by congruence. rewrite Hcq.
  unfold insert_child, update_cell.
  rewrite list_lookup_insert_ne by assumption.
  rewrite list_lookup_insert_eq by exact Hplt.
  rewrite (list_insert_insert_ne _ q p) by assumption.
  rewrite list_insert_insert_eq.
  f_equal. f_equal.
  unfold c1. destruct c as [s|nm a ks]; cbn [set_contents cell_contents] in *.
  - destruct Hin.
  - f_equal. fold kids.
    rewrite take_app_length' by (rewrite length_take; lia).
    rewrite drop_app_length' by (rewrite length_take; lia).
    symmetry. apply insert_take_drop. exact Hlt.
Qed.

Section ImageLinks.
Context {O : Outside} {Z : Type} {HW : HTMLWriter Z}.

(** X23: a link with an image inside gives way to that image: the first
    img below the link is taken out of the place it had and put where
    the link stood in its parent; nothing is read or written. *)
Theorem handle_link_keeps_image
    (w : world Z) (paragraph link p img q : nat) (c cq : cell)
    (href : string) (z z' : Z) :
  Ordered (dom w) ->
  item (dom w) link "href" = Ok href ->
  zipper w = Some z ->
  hw_contains href z = (Ok false, z') ->
  Py.contains "exploratorium.edu/snacks/" href = false ->
  find (dom w) link "img" [] = Some img ->
  parent_of (dom w) link = Some p -> dom w !! p = Some c ->
  parent_of (dom w) img = Some q -> dom w !! q = Some cq ->
  q <> p ->
  handle_link paragraph link w =
    (Ok tt,
     World (<[p := set_contents (<[index_of link (cell_contents c) := img]> (cell_contents c)) c]>
              (<[q := set_contents
                        (take (index_of img (cell_contents cq)) (cell_contents cq) ++
                         drop (S (index_of img (cell_contents cq))) (cell_contents cq)) cq]>
                 (dom w)))
           (files w)
           (EvWriter "contains" href :: events w)
           (Some z')).
Proof.
  destruct w as [st fs evs zs]. cbn [dom files events zipper].
  intros Hord Hitem -> Hknown Hsnack Himg Hp Hc Hq Hcq Hqp.
  assert (Hrange : link < img < length st).
  { apply (find_all_range st link img "img" [] Hord).
    unfold find in Himg. destruct (find_all st link "img" []) as [|y ys]; [discriminate|].
    injection Himg as ->. left. reflexivity. }
  pose proof (parent_of_Some _ _ _ Hp) as (c0 & Hc0 & Hin).
  assert (c0 = c) by congruence. subst c0.
  destruct (Hord p c link Hc Hin) as [Hpl _].
  unfold handle_link.
  unfold bind at 1. unfold dom_op at 1. cbn [dom]. rewrite get_item_eq, Hitem.
  unfold bind at 1. unfold zipper_contains, on_zipper. world_simpl.
  rewrite Hknown, Hsnack.
  unfold bind at 1. unfold gets at 1. world_simpl. rewrite Himg.
  unfold dom_op. world_simpl.
  rewrite (replace_with_inner st link img p q c cq) by (assumption || lia).
  reflexivity.
Qed.

End ImageLinks.

(** ** Direct embeds *)

Section Embeds.
Context {O : Outside} {Z : Type} {HW : HTMLWriter Z}.

Lemma generate_video_tag_run
    (filepath src : string) (z z' : Z) (w : world Z) :
  closed (dom w) = true ->
  zipper w = Some z ->
  hw_write_file filepath None (Some "videos") (files w) z = (Ok src, z') ->
  generate_video_tag filepath w =
    (Ok (S (length (dom w))),
     World (dom w ++
              [Element "[document]" [] [];
               Element "video" [("controls", Some "true"); ("style", Some "width: 100%;")]
                       [S (S (length (dom w)))];
               Element "source" [("src", Some src); ("type", Some "video/mp4")] []])
           (files w)
           (EvWriter "write_file" filepath :: events w)
           (Some z')).
Proof.
  destruct w as [st fs evs zs]. cbn [dom files events zipper].
  intros Hclosed -> Hwrite.
  unfold generate_video_tag.
  unfold bind at 1. unfold dom_op at 1, BeautifulSoup. cbn [dom alloc alloc_list EMPTY_SOUP].
  rewrite insert_app_new. world_simpl.
  unfold bind at 1. unfold dom_op at 1, new_tag. world_simpl.
  unfold bind at 1. unfold dom_op at 1, new_tag. world_simpl.
  unfold bind at 1. unfold zipper_write_file. unfold bind at 1. unfold gets at 1.
  world_simpl. unfold on_zipper. world_simpl. rewrite Hwrite. world_simpl.
  unfold bind at 1. unfold dom_op at 1. world_simpl.
  rewrite <- !app_assoc. cbn [app].
  rewrite !length_app. cbn [length].
  replace (length st + 1) with (S (length st)) by lia.
  replace (length st + 2) with (S (S (length st))) by lia.
  rewrite (video_tag_cells st src Hclosed). reflexivity.
Qed.

(** X24: a direct embed whose video is not in the video directory yet:
    the video is downloaded from its player url to <id>.mp4 there, handed
    to the writer for the directory videos, and the embed gives way, in
    its place in its parent, to a new video element that refers to the
    path the writer returned. *)
Theorem embed_brightcove_direct
    (w : world Z) (k : string) (el p : nat) (c : cell) (author : value)
    (account player data src : string) (z z' : Z) :
  closed (dom w) = true ->
  parent_of (dom w) el = Some p -> dom w !! p = Some c ->
  isfile (VIDEO_DIRECTORY +:+ "/" +:+ (k +:+ ".mp4")) (files w) = false ->
  youtube_dl (length (events w)) (BRIGHTCOVE_URL account player k) = Ok data ->
  zipper w = Some z ->
  hw_write_file (VIDEO_DIRECTORY +:+ "/" +:+ (k +:+ ".mp4")) None (Some "videos")
    (assoc_set (VIDEO_DIRECTORY +:+ "/" +:+ (k +:+ ".mp4")) data (files w)) z = (Ok src, z') ->
  embed_brightcove (k, direct_record el author account player k) w =
    (Ok tt,
     World (<[p := set_contents
                     (<[index_of el (cell_contents c) := S (length (dom w))]> (cell_contents c)) c]>
              (dom w ++
                 [Element "[document]" [] [];
                  Element "video" [("controls", Some "true"); ("style", Some "width: 100%;")]
                          [S (S (length (dom w)))];
                  Element "source" [("src", Some src); ("type", Some "video/mp4")] []]))
           (assoc_set (VIDEO_DIRECTORY +:+ "/" +:+ (k +:+ ".mp4")) data (files w))
           (EvWriter "write_file" (VIDEO_DIRECTORY +:+ "/" +:+ (k +:+ ".mp4"))
              :: EvYoutubeDL (BRIGHTCOVE_URL account player k)
                             (VIDEO_DIRECTORY +:+ "/" +:+ (k +:+ ".mp4"))
              :: events w)
           (Some z')).
Proof.
  destruct w as [st fs evs zs]. cbn [dom files events zipper].
  intros Hclosed Hp Hc Hfile Hdl -> Hwrite.
  pose proof (closed_spec _ Hclosed) as Hcl.
  pose proof (lookup_lt_Some _ _ _ Hc) as Hplt.
  pose proof (parent_of_Some _ _ _ Hp) as (c0 & Hc0 & Hin).
  assert (c0 = c) by congruence. subst c0.
  pose proof (Hcl p c el Hc Hin) as Hel.
  unfold embed_brightcove. cbn [fst snd].
  change (assoc "url" (direct_record el author account player k))
    with (Some (VStr (BRIGHTCOVE_URL account player k))).
  change (assoc "original_el" (direct_record el author account player k))
    with (Some (VTag el)).
  unfold bind at 1. unfold unwrap, ret at 1.
  unfold bind at 1. unfold download_web_video.
  unfold bind at 1. unfold gets at 1. cbn [files]. rewrite Hfile. cbn [negb].
  unfold bind at 1. rewrite download_unfold. cbn [events]. rewrite Hdl.
  unfold ret at 1. cbn [dom files events zipper].
  unfold bind at 1.
  rewrite (generate_video_tag_run _ src z z') by (assumption || reflexivity).
  cbn [dom files events zipper]. unfold dom_op. cbn [dom].
  rewrite (replace_with_fresh _ el (S (length st)) p c).
  - reflexivity.
  - apply find_index_app_l, Hp.
  - rewrite lookup_app_l by exact Hplt. exact Hc.
  - lia.
  - lia.
  - intros j c' Hj Hy.
    destruct (Nat.lt_ge_cases j (length st)) as [Hlt|Hge].
    + rewrite lookup_app_l in Hj by assumption.
      pose proof (Hcl j c' _ Hj Hy). lia.
    + rewrite lookup_app_r in Hj by assumption.
      destruct (j - length st) as [|[|[|n]]] eqn:E; cbn in Hj; try discriminate;
        injection Hj as <-; cbn in Hy; intuition lia.
Qed.

End Embeds.

(** ** Pages for downloadable files *)

Section DownloadPages.
Context {O : Outside} {Z : Type} {HW : HTMLWriter Z}.

Ltac dom_step E a w1 :=
  unfold bind at 1;
  match goal with
  | |- context [dom_op ?d ?w] =>
      pose proof (dom_op_frame d w) as E;
      destruct (dom_op d w) as [[a|?] w1]; cbn [snd] in E; [|discriminate]
  end.

Lemma render_calls (tag : string) (newpage : nat) (u filename name : string)
      (w0 w' : world Z) (page : string) :
  (render_tag <- dom_op (new_tag tag) ;;
   src <- zipper_write_url u filename None ;;
   dom_op (set_item render_tag "src" (Some src)) >>
   body <- dot_body newpage ;;
   dom_op (append body render_tag) >>
   page <- serialise newpage ;;
   zipper_write_contents name page None) w0 = (Ok page, w') ->
  files w' = files w0 /\
  events w' = EvWriter "write_contents" name :: EvWriter "write_url" u
                :: EvRead u :: events w0 /\
  exists data content z0 z1 z2,
    http_get (length (events w0)) u = Ok data /\
    zipper w0 = Some z0 /\
    (exists src, hw_write_contents filename data None z0 = (Ok src, z1)) /\
    hw_write_contents name content None z1 = (Ok page, z2) /\
    zipper w' = Some z2.
Proof.
  dom_step E1 render_tag w1. destruct E1 as (F1 & V1 & Z1).
  unfold bind at 1. unfold zipper_write_url. unfold bind at 1. unfold downloader_read.
  rewrite V1.
  destruct (http_get (length (events w0)) u) as [data|e] eqn:Hget; [|discriminate].
  unfold on_zipper. unfold add_event at 1 2. cbn [zipper]. rewrite Z1.
  destruct (zipper w0) as [z0|] eqn:Hz0; [|discriminate].
  destruct (hw_write_contents filename data None z0) as [[src|e] z1] eqn:Hw1;
    [|discriminate].
  world_simpl. rewrite F1, V1.
  dom_step E2 u2 w2. destruct E2 as (F2 & V2 & Z2). cbn [files events zipper] in F2, V2, Z2.
  unfold bind at 1. unfold dot_body. unfold bind at 1. unfold gets at 1.
  match goal with
  | |- context [unwrap AttributeError ?o] => destruct o as [body|]; [|discriminate]
  end.
  unfold unwrap, ret at 1.
  dom_step E3 u3 w3. destruct E3 as (F3 & V3 & Z3).
  unfold bind at 1. unfold serialise, gets at 1.
  unfold zipper_write_contents, on_zipper. rewrite Z3, Z2.
  match goal with
  | |- context [hw_write_contents name ?content None z1] =>
      destruct (hw_write_contents name content None z1) as [[page'|e] z2] eqn:Hw2;
        [|discriminate];
      intros [= <- <-]; world_simpl; rewrite F3, F2, V3, V2;
      split; [reflexivity|]; split; [reflexivity|];
      exists data, content, z0, z1, z2
  end.
  repeat split; eauto.
Qed.

(** X25: when [generate_download_page] returns for a pdf or an image, it
    has read the file once, from the formatted url without its query
    string, has handed it to the writer under its file name, and has
    then written one page, named by the file name up to its first dot
    with .html; the path it returns is the writer's for that page. The
    file system is not touched. *)
Theorem generate_download_page_calls (url page : string) (w w' : world Z) :
  Py.endswith "pdf" (Py.first (Py.split "?" url)) = true \/
  image_extension (Py.first (Py.split "?" url)) <> None ->
  generate_download_page url w = (Ok page, w') ->
  files w' = files w /\
  events w' =
    EvWriter "write_contents"
      (Py.first (Py.split "." (Py.last (Py.split "/" (Py.first (Py.split "?" url)))))
         +:+ ".html")
      :: EvWriter "write_url" (format_url (Py.first (Py.split "?" url)))
      :: EvRead (format_url (Py.first (Py.split "?" url))) :: events w /\
  exists content z1 z2,
    hw_write_contents
      (Py.first (Py.split "." (Py.last (Py.split "/" (Py.first (Py.split "?" url)))))
         +:+ ".html") content None z1 = (Ok page, z2) /\
    zipper w' = Some z2.
Proof.
  intros Hknown. unfold generate_download_page.
  dom_step E1 soup0 w0. destruct E1 as (F1 & V1 & Z1).
  dom_step E2 n w1. destruct E2 as (F2 & V2 & Z2).
  cbv zeta.
  assert (Hrender : forall tag,
    (render_tag <- dom_op (new_tag tag) ;;
     src <- zipper_write_url (format_url (Py.first (Py.split "?" url)))
              (Py.last (Py.split "/" (Py.first (Py.split "?" url)))) None ;;
     dom_op (set_item render_tag "src" (Some src)) >>
     body <- dot_body n ;;
     dom_op (append body render_tag) >>
     page <- serialise n ;;
     zipper_write_contents
       (Py.first (Py.split "." (Py.last (Py.split "/" (Py.first (Py.split "?" url)))))
          +:+ ".html") page None) w1 = (Ok page, w') ->
    files w' = files w /\
    events w' =
      EvWriter "write_contents"
        (Py.first (Py.split "." (Py.last (Py.split "/" (Py.first (Py.split "?" url)))))
           +:+ ".html")
        :: EvWriter "write_url" (format_url (Py.first (Py.split "?" url)))
        :: EvRead (format_url (Py.first (Py.split "?" url))) :: events w /\
    exists content z1 z2,
      hw_write_contents
        (Py.first (Py.split "." (Py.last (Py.split "/" (Py.first (Py.split "?" url)))))
           +:+ ".html") content None z1 = (Ok page, z2) /\
      zipper w' = Some z2).
  { intros tag Hrun. apply render_calls in Hrun as (F & V & D).
    destruct D as (data & content & z0 & z1 & z2 & _ & _ & _ & Hw & Hz).
    rewrite F, V, F2, V2, F1, V1. repeat split; eauto. }
  destruct (Py.endswith "pdf" (Py.first (Py.split "?" url))); [apply Hrender|].
  destruct (image_extension (Py.first (Py.split "?" url))); [apply Hrender|].
  destruct Hknown as [H|H]; [discriminate | contradiction].
Qed.

End DownloadPages.

Lemma handle_link_keeps_image_witness :
  to_tree 3 (dom (snd (@handle_link (table_outside []) _ ricecooker_writer 4 7
                         (at_links arts_listing)))) 4
  = Tag "div" [("class", Some "activity")]
      [Tag "h5" [] [Text "Drawing Board"];
       Tag "img" [("src", Some "/sites/default/files/drawing.jpg")] [];
       Tag "div" [("class", Some "pod-description")] [Text "Draw with a pendulum."]].
Proof.
  rewrite (@handle_link_keeps_image (table_outside []) _ ricecooker_writer
             (at_links arts_listing) 4 7 4 8 7
             (Element "div" [("class", Some "activity")] [5; 7; 9])
             (Element "a" [("href", Some "/snacks/drawing-board")] [8])
             "/snacks/drawing-board" [] []); try reflexivity.
  - apply ordered_Ordered. reflexivity.
  - discriminate.
Defined.

Lemma embed_brightcove_direct_witness :
  to_tree 3 (dom (snd (@embed_brightcove (table_outside []) _ ricecooker_writer
                         ("v42", direct_record 7 (VStr "Produced by Jane Roe")
                                   "acct" "main" "v42")
                         (at_links banner_page)))) 4
  = Tag "div" [("class", Some "activity")]
      [Tag "div" [("class", Some "attribution")] [Text "Produced by Jane Roe"];
       Tag "video" [("controls", Some "true"); ("style", Some "width: 100%;")]
         [Tag "source" [("src", Some "videos/v42.mp4"); ("type", Some "video/mp4")] []];
       Tag "div" [("id", Some "media-collection-banner-playlist")]
         [Tag "div" [("class", Some "playlist-item"); ("data-id", Some "v42");
                     ("data-title", Some "Pendulum"); ("data-pid", Some "list")] []]].
Proof.
  rewrite (@embed_brightcove_direct (table_outside []) _ ricecooker_writer
             (at_links banner_page) "v42" 7 4
             (Element "div" [("class", Some "activity")] [5; 7; 8])
             (VStr "Produced by Jane Roe") "acct" "main" "mp4" "videos/v42.mp4"
             [] [("videos/v42.mp4", "mp4")]); reflexivity.
Defined.

Lemma generate_download_page_calls_witness :
  events (snd (@generate_download_page (table_outside worksheet_site) _ ricecooker_writer
                 "/sites/default/files/work.sheet.pdf?dl=1" (open_world [])))
  = [EvWriter "write_contents" "work.html";
     EvWriter "write_url" "https://www.exploratorium.edu/sites/default/files/work.sheet.pdf";
     EvRead "https://www.exploratorium.edu/sites/default/files/work.sheet.pdf"].
Proof.
  destruct (@generate_download_page_calls (table_outside worksheet_site) _ ricecooker_writer
              "/sites/default/files/work.sheet.pdf?dl=1" "work.html" (open_world [])
              (snd (@generate_download_page (table_outside worksheet_site) _
                      ricecooker_writer "/sites/default/files/work.sheet.pdf?dl=1"
                      (open_world []))))
    as (_ & E & _).
  - left. reflexivity.
  - reflexivity.
  - exact E.
Defined.

(** ** The leaves of a subject *)

Section Leaves.
Context {O : Outside} {Z : Type} {HW : HTMLWriter Z}.






End Leaves.

(** ** The activity menu *)

Section Menu.
Context {O : Outside} {Z : Type} {HW : HTMLWriter Z}.

(** X28: the crawl of the activities has no handler for a page that
    cannot be read: for a subject without subcategories whose listing
    raises HTTPError, the body of the menu loop logs the subject, adds
    its topic, empty, and then raises HTTPError itself, which ends the
    menu (a video collection in the same state is logged and skipped). *)
Theorem scrape_menu_entry_unreadable
    (d li link : nat) (title href : string)
    (kids : list channel_node) (w : world Z) :
  find (dom w) li "a" [] = Some link ->
  item (dom w) link "title" = Ok title ->
  item (dom w) link "href" = Ok href ->
  find (dom w) li "ul" [] = None ->
  http_get (S (length (events w))) (format_url href) = Raise HTTPError ->
  scrape_menu_entry (S d) li (kids, w) =
    (Raise HTTPError,
     (kids ++ [TopicNode title href None []],
      World (dom w) (files w)
            (EvRead (format_url href) :: EvLog INFO ("    " +:+ title) :: events w)
            (zipper w))).
Proof.
  destruct w as [st fs evs zs]. cbn [dom files events zipper].
  intros Hlink Htitle Hhref Hul Hget.
  unfold scrape_menu_entry.
  unfold bind at 1. unfold in_world at 1, gets at 1. cbn [fst snd dom]. rewrite Hlink.
  unfold bind at 1. unfold in_world at 1, unwrap, ret at 1. cbn [fst snd].
  unfold bind at 1. unfold in_world at 1, dom_op at 1. cbn [fst snd dom].
  rewrite get_item_eq, Htitle. world_simpl.
  unfold bind at 1. unfold in_world at 1, log, modify. cbn [fst snd]. world_simpl.
  unfold bind at 1. unfold in_world at 1, dom_op at 1. cbn [fst snd dom].
  rewrite get_item_eq, Htitle. world_simpl.
  unfold bind at 1. unfold in_world at 1, dom_op at 1. cbn [fst snd dom].
  rewrite get_item_eq, Hhref. world_simpl.
  unfold under_topic. cbn [fst snd].
  unfold bind at 1. unfold in_world at 1, gets at 1. cbn [fst snd dom]. rewrite Hul.
  unfold bind at 1. unfold in_world at 1, dom_op at 1. cbn [fst snd dom].
  rewrite get_item_eq, Hhref. world_simpl.
  unfold fill_snack_subject. cbn [fst snd scrape_snack_subject].
  unfold bind at 1. unfold read, downloader_read. cbn [events length]. rewrite Hget.
  reflexivity.
Qed.

(** X29: a menu that sits inside a list item is a nested menu: the loop
    over the columns passes it by, and nothing is logged, read or added
    for it there. *)
Theorem scrape_menu_column_nested
    (depth column parent : nat) (s : list channel_node * world Z) :
  parent_of (dom (snd s)) column = Some parent ->
  name_of (dom (snd s)) parent = Some "li" ->
  scrape_menu_column depth column s = (Ok tt, s).
Proof.
  destruct s as [kids w]. cbn [snd]. intros Hp Hn.
  unfold scrape_menu_column.
  unfold bind at 1. unfold in_world at 1, gets at 1. cbn [fst snd]. rewrite Hp.
  unfold bind at 1. unfold in_world at 1, unwrap, ret at 1. cbn [fst snd].
  unfold bind at 1. unfold in_world at 1, gets at 1. cbn [fst snd]. rewrite Hn.
  reflexivity.
Qed.

End Menu.

(** ** Videos of a playlist *)

Lemma closed_intro (st : soup) :
  (forall j c k, st !! j = Some c -> In k (cell_contents c) -> k < length st) ->
  closed st = true.
Proof.
  intros H. unfold closed. apply forallb_forall. intros c Hc.
  apply list_elem_of_In, list_elem_of_lookup in Hc as [j Hj].
  apply forallb_forall. intros k Hk. apply Nat.ltb_lt. apply (H j c k Hj Hk).
Qed.

Lemma append_new (st : soup) (par y : nat)
      (pn : string) (pa : list (string * option string)) (kids : list nat) :
  st !! par = Some (Element pn pa kids) -> par <> y -> parent_of st y = None ->
  append par y st = (Ok tt, <[par := Element pn pa (kids ++ [y])]> st).
Proof.
  intros Hpar Hne Hnone. unfold append.
  destruct (Nat.eqb_spec par y) as [Heq|_]; [contradiction|].
  unfold modify, extract. rewrite Hnone, Hpar. cbn [cell_contents].
  unfold insert_child, update_cell. rewrite Hpar.
  cbn [cell_contents set_contents]. rewrite firstn_all, skipn_all. reflexivity.
Qed.

Lemma playlist_title_cells (st : soup) (pl par : nat)
      (pn : string) (pa : list (string * option string)) (kids : list nat)
      (title : string) :
  closed st = true ->
  parent_of st pl = Some par ->
  st !! par = Some (Element pn pa kids) ->
  (set_string (length st) title >>
   set_item (length st) "style" (Some "margin-top: 40px; margin-bottom: 10px"))
    (st ++ [Element "p" [] []])
  = (Ok tt,
     st ++ [Element "p" [("style", Some "margin-top: 40px; margin-bottom: 10px")]
                    [S (length st)];
            NavigableString title]).
Proof.
  intros Hclosed Hp Hpar.
  unfold bind, set_string, set_item, modify.
  rewrite <- app_assoc. cbn [app]. rewrite length_app. cbn [length].
  replace (length st + 1) with (S (length st)) by lia.
  rewrite !update_cell_app_new. reflexivity.
Qed.

Section Playlists.
Context {O : Outside} {Z : Type} {HW : HTMLWriter Z}.

(** X30: a record of a playlist item with a title, its video in the
    video directory already: nothing is downloaded; a paragraph with the
    title and then a new video element for the file are appended, in this
    order, to the element that holds the playlist; the playlist itself is
    left for later. *)
Theorem embed_brightcove_playlist_item
    (w : world Z) (k title account player src : string) (pl par : nat)
    (pn : string) (pa : list (string * option string)) (kids : list nat)
    (z z' : Z) :
  closed (dom w) = true ->
  parent_of (dom w) pl = Some par ->
  dom w !! par = Some (Element pn pa kids) ->
  Py.truthy title = true ->
  isfile (VIDEO_DIRECTORY +:+ "/" +:+ (k +:+ ".mp4")) (files w) = true ->
  zipper w = Some z ->
  hw_write_file (VIDEO_DIRECTORY +:+ "/" +:+ (k +:+ ".mp4")) None (Some "videos")
    (files w) z = (Ok src, z') ->
  embed_brightcove (k, playlist_record pl title account player k) w =
    (Ok tt,
     World (<[par := Element pn pa (kids ++ [length (dom w); 3 + length (dom w)])]>
              (dom w ++
                 [Element "p" [("style", Some "margin-top: 40px; margin-bottom: 10px")]
                          [S (length (dom w))];
                  NavigableString title;
                  Element "[document]" [] [];
                  Element "video" [("controls", Some "true"); ("style", Some "width: 100%;")]
                          [4 + length (dom w)];
                  Element "source" [("src", Some src); ("type", Some "video/mp4")] []]))
           (files w)
           (EvWriter "write_file" (VIDEO_DIRECTORY +:+ "/" +:+ (k +:+ ".mp4")) :: events w)
           (Some z')).
Proof.
  destruct w as [st fs evs zs]. cbn [dom files events zipper].
  intros Hclosed Hp Hpar Htitle Hfile -> Hwrite.
  pose proof (closed_spec _ Hclosed) as Hcl.
  pose proof (lookup_lt_Some _ _ _ Hpar) as Hplt.
  pose proof (parent_of_Some _ _ _ Hp) as (c0 & Hc0 & Hin).
  rewrite Hpar in Hc0. injection Hc0 as <-. cbn [cell_contents] in Hin.
  set (ptag := Element "p" [("style", Some "margin-top: 40px; margin-bottom: 10px")]
                       [S (length st)]).
  set (st1 := st ++ [ptag; NavigableString title]).
  set (st2 := <[par := Element pn pa (kids ++ [length st])]> st1).
  assert (Hlen1 : length st1 = S (S (length st))).
  { unfold st1. rewrite length_app. cbn [length]. lia. }
  assert (Hlen2 : length st2 = S (S (length st))).
  { unfold st2. rewrite length_insert. exact Hlen1. }
  assert (Hpar1 : st1 !! par = Some (Element pn pa kids)).
  { unfold st1. rewrite lookup_app_l by exact Hplt. exact Hpar. }
  assert (Hpar2 : st2 !! par = Some (Element pn pa (kids ++ [length st]))).
  { unfold st2. apply list_lookup_insert_eq. lia. }
  assert (Happend1 : append par (length st) st1 = (Ok tt, st2)).
  { apply append_new; [exact Hpar1 | lia |].
    unfold st1. apply parent_of_new; [exact Hclosed | lia |].
    intros c [<-|[<-|[]]]; cbn [cell_contents ptag]; [|intros []].
    intros [H|[]]. lia. }
  assert (Hp2 : parent_of st2 pl = Some par).
  { apply (find_index_intro _ _ par (Element pn pa (kids ++ [length st]))).
    - exact Hpar2.
    - apply has_child_In. cbn [cell_contents]. apply in_or_app. left. exact Hin.
    - intros j b Hj Hb. unfold st2, st1 in Hb.
      rewrite list_lookup_insert_ne in Hb by lia.
      rewrite lookup_app_l in Hb by lia.
      apply (find_index_first _ _ _ Hp j b Hj Hb). }
  assert (Hcl2 : forall j c y, st2 !! j = Some c -> In y (cell_contents c) -> y < length st2).
  { intros j c y Hj Hk. rewrite Hlen2. unfold st2 in Hj.
    destruct (Nat.eq_dec par j) as [<-|Hne].
    - rewrite list_lookup_insert_eq in Hj by lia. injection Hj as <-.
      cbn [cell_contents] in Hk. apply in_app_or in Hk as [Hk|[<-|[]]]; [|lia].
      pose proof (Hcl par _ y Hpar Hk). lia.
    - rewrite list_lookup_insert_ne in Hj by assumption. unfold st1 in Hj.
      destruct (Nat.lt_ge_cases j (length st)) as [Hlt|Hge].
      + rewrite lookup_app_l in Hj by assumption. pose proof (Hcl j c y Hj Hk). lia.
      + rewrite lookup_app_r in Hj by assumption.
        destruct (j - length st) as [|[|m]]; cbn in Hj; try discriminate;
          injection Hj as <-; cbn in Hk; intuition lia. }
  unfold embed_brightcove. cbn [fst snd].
  change (assoc "url" (playlist_record pl title account player k))
    with (Some (VStr (BRIGHTCOVE_URL account player k))).
  change (assoc "original_el" (playlist_record pl title account player k))
    with (@None value).
  change (assoc "append_to" (playlist_record pl title account player k))
    with (Some (VTag pl)).
  change (assoc "title" (playlist_record pl title account player k))
    with (Some (VStr title)).
  cbv beta iota. rewrite Htitle.
  unfold bind at 1. unfold unwrap, ret at 1.
  unfold bind at 1. unfold download_web_video.
  unfold bind at 1. unfold gets at 1. cbn [files]. rewrite Hfile. cbn [negb].
  unfold bind at 1. unfold ret at 1 2.
  unfold bind at 1. unfold bind at 1.
  unfold dom_op at 1, new_tag. world_simpl.
  unfold bind at 1. unfold dom_op at 1. world_simpl.
  rewrite (playlist_title_cells st pl par pn pa kids title Hclosed Hp Hpar).
  fold ptag. fold st1. world_simpl.
  unfold bind at 1. unfold gets at 1. world_simpl.
  rewrite (find_index_app_l _ _ _ _ Hp : parent_of st1 pl = Some par).
  unfold bind at 1. unfold unwrap, ret at 1.
  unfold dom_op at 1. world_simpl. rewrite Happend1. world_simpl.
  unfold bind at 1. unfold gets at 1. world_simpl. rewrite Hp2.
  unfold bind at 1. unfold unwrap, ret at 1.
  unfold bind at 1.
  rewrite (generate_video_tag_run _ src z z')
    by (cbn [dom files zipper]; try apply closed_intro; assumption || reflexivity).
  cbn [dom files events zipper]. unfold dom_op. cbn [dom]. rewrite Hlen2.
  rewrite (append_new _ par (S (S (S (length st)))) pn pa (kids ++ [length st])).
  - world_simpl. f_equal. f_equal.
    unfold st2, st1.
    rewrite (insert_app_l (<[par := _]> (st ++ [ptag; NavigableString title])))
      by (rewrite length_insert, length_app; lia).
    rewrite list_insert_insert_eq.
    rewrite <- insert_app_l by (rewrite length_app; lia).
    rewrite <- !app_assoc. cbn [app]. reflexivity.
  - rewrite lookup_app_l by lia. exact Hpar2.
  - lia.
  - apply parent_of_fresh; [exact Hcl2 | lia |].
    intros c [<-|[<-|[<-|[]]]]; cbn [cell_contents In]; intuition lia.
Qed.

End Playlists.



Lemma scrape_menu_entry_unreadable_witness :
  @scrape_menu_entry (table_outside []) (list (string * string)) ricecooker_writer 1 7
    ([], World (fst (alloc menu_page [])) [] [] None)
  = (Raise HTTPError,
     ([TopicNode "Arts" "/subject/arts" None []],
      World (fst (alloc menu_page [])) []
            [EvRead "https://www.exploratorium.edu/subject/arts"; EvLog INFO "    Arts"]
            None)).
Proof.
  apply (@scrape_menu_entry_unreadable (table_outside []) _ ricecooker_writer
           0 7 8 "Arts" "/subject/arts" []
           (World (fst (alloc menu_page [])) [] [] None)); reflexivity.
Defined.

Lemma scrape_menu_column_nested_witness :
  @scrape_menu_column (table_outside []) (list (string * string)) ricecooker_writer 1 13
    ([], World (fst (alloc menu_page [])) [] [] None)
  = (Ok tt, ([], World (fst (alloc menu_page [])) [] [] None)).
Proof.
  apply (@scrape_menu_column_nested (table_outside []) _ ricecooker_writer 1 13 10
           ([], World (fst (alloc menu_page [])) [] [] None)); reflexivity.
Defined.

Lemma embed_brightcove_playlist_item_witness :
  to_tree 3 (dom (snd (@embed_brightcove (table_outside []) _ ricecooker_writer
                         ("v42", playlist_record 8 "Pendulum" "acct" "list" "v42")
                         (World (fst (alloc banner_page []))
                                [("/chef/videos/v42.mp4", "mp4")] [] (Some []))))) 10
  = Tag "p" [("style", Some "margin-top: 40px; margin-bottom: 10px")] [Text "Pendulum"] /\
  cell_contents
    (default (NavigableString "")
       (dom (snd (@embed_brightcove (table_outside []) _ ricecooker_writer
                    ("v42", playlist_record 8 "Pendulum" "acct" "list" "v42")
                    (World (fst (alloc banner_page []))
                           [("/chef/videos/v42.mp4", "mp4")] [] (Some [])))) !! 4))
  = [5; 7; 8; 10; 13].
Proof.
  rewrite (@embed_brightcove_playlist_item (table_outside []) _ ricecooker_writer
             (World (fst (alloc banner_page [])) [("/chef/videos/v42.mp4", "mp4")] []
                    (Some []))
             "v42" "Pendulum" "acct" "list" "videos/v42.mp4" 8 4
             "div" [("class", Some "activity")] [5; 7; 8]
             [] [("videos/v42.mp4", "mp4")]); try reflexivity.
  split; reflexivity.
Defined.
